(** * Academic-Progress-Hub: the timetable read / merge / conflict / swap engine

    A shallow embedding of the two timetable windows of the repository,
    [windows/temp_timetable.py] (class [TimetableApp]) and
    [windows/timetable_display_component.py] (class
    [TimetableDisplayComponent] and its module-level loaders), together with
    the properties their specification states about them.

    The SQLite file [files/timetable.db] is modelled as a record of tables,
    each table a list of rows in rowid order.  Queries are written out as list
    comprehensions over those tables; [ORDER BY] is a stable insertion sort,
    so rows with equal sort keys keep their table order.  SQLite leaves the
    order of such rows to its query plan; the properties below are stated
    for the rows a query returns, not for the place of a row among its
    equals. *)

From Stdlib Require Import ZArith QArith List String Ascii Bool Lia.
From stdpp Require Import gmap strings list fin_maps pretty.

Open Scope string_scope.
Open Scope Z_scope.

(** ** Python values and built-ins used by the two files *)

Module Py.

(** Truth value of a text column that may be SQL NULL: [None] and the empty
    string are false. *)
Definition truthy (o : option string) : bool :=
  match o with
  | Some s => negb (String.eqb s "")
  | None => false
  end.

(** [s.split(sep)] for a one-character separator. *)
Fixpoint split (sep : ascii) (s : string) : list string :=
  match s with
  | EmptyString => [EmptyString]
  | String c s' =>
      if Ascii.eqb c sep then EmptyString :: split sep s'
      else match split sep s' with
           | w :: ws => String c w :: ws
           | [] => [String c EmptyString]
           end
  end.

(** [sep in s]. *)
Fixpoint contains (sep : ascii) (s : string) : bool :=
  match s with
  | EmptyString => false
  | String c s' => Ascii.eqb c sep || contains sep s'
  end.

(** [s.split(sep, 1)]: the text before the first separator and the rest;
    [None] when the separator does not occur. *)
Fixpoint split_once (sep : ascii) (s : string) : option (string * string) :=
  match s with
  | EmptyString => None
  | String c s' =>
      if Ascii.eqb c sep then Some (EmptyString, s')
      else match split_once sep s' with
           | Some (a, b) => Some (String c a, b)
           | None => None
           end
  end.

(** Text is held as its UTF-8 bytes.  A byte [10xxxxxx] continues the
    character that the last byte outside that range began. *)
Definition is_continuation (c : ascii) : bool :=
  let n := nat_of_ascii c in (128 <=? n)%nat && (n <? 192)%nat.

(** [len(s)]: the number of characters. *)
Fixpoint len (s : string) : nat :=
  match s with
  | EmptyString => 0%nat
  | String c s' => if is_continuation c then len s' else S (len s')
  end.

(** [s[:n]]: the first [n] characters, each with all its bytes. *)
Fixpoint take_chars (n : nat) (s : string) : string :=
  match s with
  | EmptyString => EmptyString
  | String c s' =>
      if is_continuation c then String c (take_chars n s')
      else match n with
           | O => EmptyString
           | S n' => String c (take_chars n' s')
           end
  end.

(** [s[:2]]. *)
Definition first_two (s : string) : string := take_chars 2 s.

(** The white space that [int()] skips around an ASCII literal: tab, line
    feed, vertical tab, form feed, carriage return and space. *)
Definition is_space (c : ascii) : bool :=
  let n := nat_of_ascii c in
  ((9 <=? n)%nat && (n <=? 13)%nat) || (n =? 32)%nat.

Definition is_digit (c : ascii) : bool :=
  let n := nat_of_ascii c in (48 <=? n)%nat && (n <=? 57)%nat.

Definition digit_val (c : ascii) : Z := Z.of_nat (nat_of_ascii c) - 48.

Fixpoint lstrip (s : string) : string :=
  match s with
  | String c s' => if is_space c then lstrip s' else s
  | EmptyString => EmptyString
  end.

Fixpoint rstrip (s : string) : string :=
  match s with
  | EmptyString => EmptyString
  | String c s' =>
      match rstrip s' with
      | EmptyString => if is_space c then EmptyString else String c EmptyString
      | r => String c r
      end
  end.

(** Decimal digits with single underscores allowed between digits.
    [prev] records whether the previous character was a digit. *)
Fixpoint digits (acc : Z) (prev : bool) (s : string) : option Z :=
  match s with
  | EmptyString => if prev then Some acc else None
  | String c s' =>
      if is_digit c then digits (10 * acc + digit_val c) true s'
      else if Ascii.eqb c "_" then
             (if prev then digits acc false s' else None)
           else None
  end.

(** [int(s)] on the bytes of [s]; [None] stands for [ValueError].  This is
    [int()] of a [bytes] value, and [int()] of a [str] whose characters are
    all ASCII.  On other text [int()] also takes the decimal digits and the
    white space of other scripts, and recent interpreters refuse literals of
    more than 4300 digits; [plain_text] marks the text on which neither can
    happen, and the statements that depend on the outcome of [int()] are
    made for such text. *)
Definition int (s : string) : option Z :=
  match rstrip (lstrip s) with
  | String "+" r => digits 0 false r
  | String "-" r => option_map Z.opp (digits 0 false r)
  | r => digits 0 false r
  end.

Fixpoint is_ascii (s : string) : bool :=
  match s with
  | EmptyString => true
  | String c s' => (nat_of_ascii c <? 128)%nat && is_ascii s'
  end.

(** ASCII text of at most 4300 characters. *)
Definition plain_text (s : string) : bool :=
  is_ascii s && (String.length s <=? 4300)%nat.

(** A value as [sqlite3] hands it over, after the storage class of the
    cell, whatever type its column declares: [None], an [int], a [float],
    a [str] or a [bytes].  A float is given by a rational, or by [None] for
    an infinity. *)
Inductive value :=
| VNone
| VInt (n : Z)
| VFloat (x : option Q)
| VStr (s : string)
| VBytes (b : string).

(** The truth value of a fetched value, as [if v:] takes it. *)
Definition truth (v : value) : bool :=
  match v with
  | VNone => false
  | VInt n => negb (n =? 0)
  | VFloat (Some x) => negb (Qnum x =? 0)
  | VFloat None => true
  | VStr s => negb (String.eqb s "")
  | VBytes b => negb (String.eqb b "")
  end.

(** [int(v)]: a float is cut towards zero; [None] stands for the
    [ValueError], [OverflowError] or [TypeError] that [int()] raises. *)
Definition int_of (v : value) : option Z :=
  match v with
  | VNone => None
  | VInt n => Some n
  | VFloat (Some x) => Some (Z.quot (Qnum x) (Z.pos (Qden x)))
  | VFloat None => None
  | VStr s => int s
  | VBytes b => int b
  end.

(** The values on which [int_of] is [int()] in full: see [plain_text]. *)
Definition plain_value (v : value) : bool :=
  match v with
  | VStr s => plain_text s
  | VBytes b => (String.length b <=? 4300)%nat
  | _ => true
  end.

(** [l[i] = v] on a Python list: a negative index counts from the end;
    [None] stands for [IndexError]. *)
Definition list_set {A} (l : list A) (i : Z) (v : A) : option (list A) :=
  let n := Z.of_nat (length l) in
  if (0 <=? i) && (i <? n) then Some (<[Z.to_nat i := v]> l)
  else if (- n <=? i) && (i <? 0) then Some (<[Z.to_nat (n + i) := v]> l)
  else None.

(** [l[i]] on a Python list, with the same index rule. *)
Definition list_get {A} (l : list A) (i : Z) : option A :=
  let n := Z.of_nat (length l) in
  if (0 <=? i) && (i <? n) then l !! Z.to_nat i
  else if (- n <=? i) && (i <? 0) then l !! Z.to_nat (n + i)
  else None.

(** An insertion-ordered [dict] with integer keys: assigning to a key that
    is present keeps its position. *)
Fixpoint dict_set {V} (k : Z) (v : V) (d : list (Z * V)) : list (Z * V) :=
  match d with
  | [] => [(k, v)]
  | (k', v') :: d' =>
      if k' =? k then (k, v) :: d' else (k', v') :: dict_set k v d'
  end.

(** [l[:n]] on a Python list: a negative bound counts from the end. *)
Definition slice_to {A} (l : list A) (n : Z) : list A :=
  if 0 <=? n then take (Z.to_nat n) l
  else take (Z.to_nat (Z.of_nat (length l) + n)) l.

(** [x or alt] for a nullable text value. *)
Definition or_else (o : option string) (alt : string) : string :=
  match o with
  | Some s => if String.eqb s "" then alt else s
  | None => alt
  end.

End Py.

(** ** SQL fragments shared by the queries *)

Module Sql.

(** Stable insertion of [x] into a list sorted by [le]. *)
Fixpoint insert_by {A} (le : A -> A -> bool) (x : A) (l : list A) : list A :=
  match l with
  | [] => [x]
  | y :: l' => if le y x then y :: insert_by le x l' else x :: l
  end.

(** [ORDER BY]: a stable sort by the total preorder [le].  Rows that [le]
    does not tell apart stay in the order of the input. *)
Definition order_by {A} (le : A -> A -> bool) (l : list A) : list A :=
  foldl (fun acc x => insert_by le x acc) [] l.

(** [fetchone()] on a result list. *)
Definition fetchone {A} (rows : list A) : option A := head rows.

(** Comparison of text under the BINARY collation. *)
Definition text_le (a b : string) : bool :=
  match String.compare a b with Gt => false | _ => true end.

(** Equality of two nullable columns inside a join condition: false as
    soon as one side is NULL. *)
Definition eq_null (a b : option string) : bool :=
  match a, b with
  | Some x, Some y => String.eqb x y
  | _, _ => false
  end.

(** [LEFT JOIN]: every row of the right table that matches, or one
    result with NULL columns when none does. *)
Definition left_join {A B} (on : A -> B -> bool) (a : A) (right : list B)
  : list (A * option B) :=
  match List.filter (on a) right with
  | [] => [(a, None)]
  | ms => map (fun b => (a, Some b)) ms
  end.

(** A loop whose body may raise: the state reached so far is kept and the
    flag tells whether the loop ran to its end. *)
Fixpoint loop_until_raise {S X} (body : S -> X -> S * bool) (s : S)
    (xs : list X) : S * bool :=
  match xs with
  | [] => (s, true)
  | x :: rest =>
      let '(s', ok) := body s x in
      if ok then loop_until_raise body s' rest else (s', false)
  end.

(** Rows addressed by a key that need not be unique, carrying a group of
    value columns: [SELECT cols FROM t WHERE key = ?] and
    [UPDATE t SET cols = ? WHERE key = ?]. *)
Section Table.
Context {Row Key Val : Type} `{EqDecision Key}.
Variable key_of : Row -> Key.
Variable get : Row -> Val.
Variable set : Val -> Row -> Row.

Definition select_where (k : Key) (t : list Row) : list Val :=
  map get (List.filter (fun r => bool_decide (key_of r = k)) t).

Definition update_where (k : Key) (v : Val) (t : list Row) : list Row :=
  map (fun r => if bool_decide (key_of r = k) then set v r else r) t.

(** The statement sequence of a swap on one table: both rows are read
    first, and only when both exist are the two updates issued. *)
Definition swap_values (k1 k2 : Key) (t : list Row) : list Row :=
  let r1 := fetchone (select_where k1 t) in
  let r2 := fetchone (select_where k2 t) in
  match r1, r2 with
  | Some v1, Some v2 => update_where k2 v1 (update_where k1 v2 t)
  | _, _ => t
  end.
End Table.

End Sql.

(** ** The database file *)

Record ScheduleRow := {
  sch_id : string;
  sch_dayid : Z;
  sch_periodid : Z;
  sch_subcode : string;
  sch_section : string;
  sch_fini : string
}.

Record LessonRow := {
  sl_schedule_id : Z;
  sl_class_name : string;
  sl_day_of_week : string;
  sl_period_number : Z;
  sl_subject_code : option string;
  sl_teacher_id : option string
}.

Record SubjectRow := {
  sub_subcode : string;
  sub_subname : string;
  sub_color : option string
}.

Record FacultyRow := {
  fac_fid : string;
  fac_name : string;
  fac_ini : option string
}.

Record LessonTypeRow := {
  lt_class_name : string;
  lt_subject_code : string;
  lt_lesson_type : string
}.

(** [TIMETABLE_SETTINGS] is created by another module and may be missing;
    [SCHEDULE], [SCHEDULED_LESSONS], [SUBJECTS] and [FACULTY] are created by
    [_connect_db] and are always there.  A missing [LESSONS] or [CLASS] table
    makes its query fail; the failure is caught and leaves the same result as
    an empty table, so both are plain lists.

    [_connect_db] creates [SUBJECTS] with the columns [SUBCODE] and
    [SUBNAME] only; the [COLOR] column comes with the table of the subjects
    module.  [SUBJECTS_has_COLOR] tells which of the two tables the file
    holds: a query that names [s.COLOR] fails on the first, and the
    [sub_color] of its rows is never read. *)
Record Store := {
  TIMETABLE_SETTINGS : option (list (string * option string));
  SCHEDULE : list ScheduleRow;
  SCHEDULED_LESSONS : list LessonRow;
  SUBJECTS : list SubjectRow;
  SUBJECTS_has_COLOR : bool;
  FACULTY : list FacultyRow;
  LESSONS : list LessonTypeRow;
  CLASS : list string
}.

(** ** [windows/temp_timetable.py] *)

Module TimetableApp.

Definition DEFAULT_DAYS : list string := ["Mo"; "Tu"; "We"; "Th"; "Fr"; "Sa"].

Definition DEFAULT_PERIODS_INFO : list (Z * string) :=
  [ (1, "8:00 - 8:45"); (2, "9:00 - 9:45"); (3, "10:00 - 10:45");
    (4, "11:00 - 11:45"); (5, "12:00 - 12:45"); (6, "13:00 - 13:45") ].

(** [DAY_MAP.get(day_id, f"Day{day_id}")]. *)
Definition DAY_MAP_get (day_id : Z) : string :=
  match day_id with
  | 0 => "Mo" | 1 => "Tu" | 2 => "We" | 3 => "Th" | 4 => "Fr" | 5 => "Sa"
  | _ => "Day" +:+ pretty day_id
  end.

(** [SELECT setting_value FROM TIMETABLE_SETTINGS WHERE setting_name = ?]
    followed by [fetchone()]. *)
Definition setting (rows : list (string * option string)) (name : string)
  : option (option string) :=
  Sql.fetchone (map snd (List.filter (fun r => String.eqb (fst r) name) rows)).

(** [row and row[0]]: the value of a setting that is present, not NULL and
    not empty. *)
Definition setting_text (rows : list (string * option string)) (name : string)
  : option string :=
  match setting rows name with
  | Some (Some v) => if String.eqb v "" then None else Some v
  | _ => None
  end.

(** One turn of the loop over [periods_row[0].split(',')]; [None] stands
    for the [ValueError] of [int(period_num)]. *)
Definition parse_period_conf (periods_data : list (Z * string))
    (period_conf : string) : option (list (Z * string)) :=
  if Py.contains ":" period_conf then
    match Py.split_once ":" period_conf with
    | Some (period_num, time_range) =>
        match Py.int period_num with
        | Some k => Some (Py.dict_set k time_range periods_data)
        | None => None
        end
    | None => Some periods_data
    end
  else Some periods_data.

(** The whole loop, started from the empty dict. *)
Fixpoint parse_periods_from (periods_data : list (Z * string))
    (confs : list string) : option (list (Z * string)) :=
  match confs with
  | [] => Some periods_data
  | c :: cs =>
      match parse_period_conf periods_data c with
      | Some d => parse_periods_from d cs
      | None => None
      end
  end.

Definition parse_periods_config (v : string) : option (list (Z * string)) :=
  parse_periods_from [] (Py.split "," v).

(** The [PERIODS_CONFIG] block: the parsed dict replaces [periods_info]
    only when it is not empty; an exception inside the block leaves
    [periods_info] as it was. *)
Definition apply_periods_config (rows : list (string * option string))
    (periods_info : list (Z * string)) : list (Z * string) :=
  match setting_text rows "PERIODS_CONFIG" with
  | Some v =>
      match parse_periods_config v with
      | Some [] => periods_info
      | Some periods_data => periods_data
      | None => periods_info
      end
  | None => periods_info
  end.

(** The [NUM_PERIODS] block. *)
Definition apply_num_periods (rows : list (string * option string))
    (periods_info : list (Z * string)) : list (Z * string) :=
  match setting_text rows "NUM_PERIODS" with
  | Some v =>
      match Py.int v with
      | Some num_periods =>
          List.filter (fun kv => fst kv <=? num_periods) DEFAULT_PERIODS_INFO
      | None => periods_info
      end
  | None => periods_info
  end.

(** The [DAYS_ENABLED] block. *)
Definition apply_days_enabled (rows : list (string * option string))
    (days : list string) : list string :=
  match setting_text rows "DAYS_ENABLED" with
  | Some v =>
      let days_enabled := Py.split "," v in
      List.filter (fun day => existsb (String.eqb day) days_enabled) DEFAULT_DAYS
  | None => days
  end.

(** [_load_timetable_structure]; [conn] is [None] when [_connect_db]
    failed. *)
Definition _load_timetable_structure (conn : option Store)
  : list string * list (Z * string) :=
  let days := DEFAULT_DAYS in
  let periods_info := DEFAULT_PERIODS_INFO in
  match conn with
  | None => (days, periods_info)
  | Some db =>
      match TIMETABLE_SETTINGS db with
      | None => (days, periods_info)
      | Some rows =>
          let days := apply_days_enabled rows days in
          let periods_info := apply_periods_config rows periods_info in
          let periods_info := apply_num_periods rows periods_info in
          (days, periods_info)
      end
  end.

(** A conflict as the window reports it:
    (day code, 1-based period, faculty initials, section, other section). *)
Definition Conflict : Type := string * Z * option string * string * string.

(** The self-join of [SCHEDULE] restricted to [s1.SECTION = section],
    ordered by [(DAYID, PERIODID)]. *)
Definition conflicts_schedule (db : Store) (section : string)
  : list (ScheduleRow * ScheduleRow) :=
  Sql.order_by
    (fun a b =>
       (sch_dayid (fst a) <? sch_dayid (fst b))
       || ((sch_dayid (fst a) =? sch_dayid (fst b))
           && (sch_periodid (fst a) <=? sch_periodid (fst b))))
    (flat_map
       (fun s1 =>
          map (fun s2 => (s1, s2))
            (List.filter
               (fun s2 =>
                  (sch_dayid s1 =? sch_dayid s2)
                  && (sch_periodid s1 =? sch_periodid s2)
                  && String.eqb (sch_fini s1) (sch_fini s2)
                  && negb (String.eqb (sch_section s1) (sch_section s2)))
               (SCHEDULE db)))
       (List.filter (fun s1 => String.eqb (sch_section s1) section)
          (SCHEDULE db))).

(** The self-join of [SCHEDULED_LESSONS] joined with [FACULTY] on
    [TEACHER_ID = FID], restricted to [sl1.CLASS_NAME = section], ordered
    by [(DAY_OF_WEEK, PERIOD_NUMBER)]. *)
Definition conflicts_lessons (db : Store) (section : string)
  : list Conflict :=
  map
    (fun j : LessonRow * LessonRow * FacultyRow =>
       let '(sl1, sl2, f) := j in
       (sl_day_of_week sl1, sl_period_number sl1, fac_ini f,
        sl_class_name sl1, sl_class_name sl2))
    (Sql.order_by
       (fun a b : LessonRow * LessonRow * FacultyRow =>
          let x := fst (fst a) in
          let y := fst (fst b) in
          match String.compare (sl_day_of_week x) (sl_day_of_week y) with
          | Lt => true
          | Eq => sl_period_number x <=? sl_period_number y
          | Gt => false
          end)
       (flat_map
          (fun sl1 =>
             flat_map
               (fun sl2 =>
                  map (fun f => (sl1, sl2, f))
                    (List.filter
                       (fun f => Sql.eq_null (sl_teacher_id sl1) (Some (fac_fid f)))
                       (FACULTY db)))
               (List.filter
                  (fun sl2 =>
                     String.eqb (sl_day_of_week sl1) (sl_day_of_week sl2)
                     && (sl_period_number sl1 =? sl_period_number sl2)
                     && Sql.eq_null (sl_teacher_id sl1) (sl_teacher_id sl2)
                     && negb (String.eqb (sl_class_name sl1) (sl_class_name sl2)))
                  (SCHEDULED_LESSONS db)))
          (List.filter (fun sl1 => String.eqb (sl_class_name sl1) section)
             (SCHEDULED_LESSONS db)))).

(** [_check_faculty_conflicts(section)]: the [SCHEDULE] conflicts with the
    day id turned into a day code and the period made 1-based, then the
    [SCHEDULED_LESSONS] conflicts appended by [extend]. *)
Definition _check_faculty_conflicts (db : Store) (section : string)
  : list Conflict :=
  map
    (fun c : ScheduleRow * ScheduleRow =>
       (DAY_MAP_get (sch_dayid (fst c)), sch_periodid (fst c) + 1,
        Some (sch_fini (fst c)), sch_section (fst c), sch_section (snd c)))
    (conflicts_schedule db section)
  ++ conflicts_lessons db section.

Definition newline : string := String (ascii_of_nat 10) EmptyString.

(** [f"{x}"] of a nullable text value. *)
Definition fmt (o : option string) : string :=
  match o with Some s => s | None => "None" end.

(** The text written into a cell from a [SCHEDULE] row joined with
    [SUBJECTS]: [sub_name] and [subcode] come from the subject row, [fini]
    from the schedule row. *)
Definition schedule_lesson_text (sub_name subcode : option string)
    (fini : string) : string :=
  let subject_display :=
    if Py.truthy sub_name then sub_name
    else if negb (bool_decide (subcode = Some "NULL")) then subcode
         else Some "Free" in
  let faculty_display :=
    if negb (String.eqb fini "NULL") then fini else "-" in
  fmt subject_display +:+ newline +:+ faculty_display.

(** The [SCHEDULE] branch of [_load_and_display_timetable] for the section
    in [class_name_filter]: the texts set on the cells of the grid, keyed
    by (day code, 1-based period). *)
Definition display_schedule (db : Store) (class_name_filter : string)
    (days : list string) (periods_info : list (Z * string))
    (cells : gmap (string * Z) string) : gmap (string * Z) string * bool :=
  let lessons :=
    Sql.order_by
      (fun a b : ScheduleRow * option SubjectRow =>
         (sch_dayid (fst a) <? sch_dayid (fst b))
         || ((sch_dayid (fst a) =? sch_dayid (fst b))
             && (sch_periodid (fst a) <=? sch_periodid (fst b))))
      (flat_map
         (fun sch =>
            Sql.left_join
              (fun sch s => String.eqb (sch_subcode sch) (sub_subcode s))
              sch (SUBJECTS db))
         (List.filter
            (fun sch => String.eqb (sch_section sch) class_name_filter)
            (SCHEDULE db))) in
  (foldl
     (fun cells (lesson_data : ScheduleRow * option SubjectRow) =>
        let '(sch, s) := lesson_data in
        let day_code := DAY_MAP_get (sch_dayid sch) in
        let period_num := sch_periodid sch + 1 in
        if negb (existsb (String.eqb day_code) days)
           || negb (existsb (Z.eqb period_num) (map fst periods_info))
        then cells
        else
          <[(day_code, period_num) :=
              schedule_lesson_text (sub_subname <$> s) (sub_subcode <$> s)
                (sch_fini sch)]> cells)
     cells lessons,
   match lessons with [] => false | _ => true end).

(** SQL [UPPER]: the ASCII letters a..z are raised, everything else is
    kept. *)
Definition upper_char (c : ascii) : ascii :=
  let n := nat_of_ascii c in
  if (97 <=? n)%nat && (n <=? 122)%nat then ascii_of_nat (n - 32) else c.

Fixpoint UPPER (s : string) : string :=
  match s with
  | EmptyString => EmptyString
  | String c s' => String (upper_char c) (UPPER s')
  end.

(** [self.cells] as [_create_ui] builds it: one label per day and period
    number, with an empty text. *)
Definition grid_cells (days : list string) (periods_info : list (Z * string))
  : gmap (string * Z) string :=
  list_to_map
    (flat_map
       (fun day => map (fun kv : Z * string => ((day, fst kv), "")) periods_info)
       days).

(** The [SCHEDULED_LESSONS] branch of [_load_and_display_timetable]: the
    rows of the classes whose upper-cased name is [class_name_filter], each
    written into its cell when the grid has one. *)
Definition display_lessons (db : Store) (class_name_filter : string)
    (cells : gmap (string * Z) string) : gmap (string * Z) string :=
  let lessons :=
    Sql.order_by
      (fun a b : LessonRow * option SubjectRow * option FacultyRow =>
         let x := fst (fst a) in
         let y := fst (fst b) in
         match String.compare (sl_day_of_week x) (sl_day_of_week y) with
         | Lt => true
         | Eq => sl_period_number x <=? sl_period_number y
         | Gt => false
         end)
      (flat_map
         (fun sl =>
            flat_map
              (fun j : LessonRow * option SubjectRow =>
                 Sql.left_join
                   (fun (j : LessonRow * option SubjectRow) f =>
                      Sql.eq_null (sl_teacher_id (fst j)) (Some (fac_fid f)))
                   j (FACULTY db))
              (Sql.left_join
                 (fun sl s =>
                    Sql.eq_null (sl_subject_code sl) (Some (sub_subcode s)))
                 sl (SUBJECTS db)))
         (List.filter
            (fun sl => String.eqb (UPPER (sl_class_name sl)) class_name_filter)
            (SCHEDULED_LESSONS db))) in
  foldl
    (fun cells (lesson_data : LessonRow * option SubjectRow * option FacultyRow) =>
       let '(sl, s, f) := lesson_data in
       let cell_key := (sl_day_of_week sl, sl_period_number sl) in
       match cells !! cell_key with
       | Some _ =>
           <[cell_key :=
               Py.or_else (sub_subname <$> s) "N/A" +:+ newline
               +:+ Py.or_else (f ≫= fac_ini) "N/A"]> cells
       | None => cells
       end)
    cells lessons.

(** The cell texts after [_load_and_display_timetable]: all texts are
    cleared, the [SCHEDULE] rows of the section are shown, and the
    [SCHEDULED_LESSONS] rows are shown only when [SCHEDULE] has no row for
    the section. *)
Definition _load_and_display_timetable (db : Store)
    (class_name_filter : string) (days : list string)
    (periods_info : list (Z * string)) : gmap (string * Z) string :=
  let cells := (fun _ => "") <$> grid_cells days periods_info in
  let '(cells, has_schedule_data) :=
    display_schedule db class_name_filter days periods_info cells in
  if has_schedule_data then cells
  else display_lessons db class_name_filter cells.

End TimetableApp.


(** ** [windows/timetable_display_component.py] *)

Module DisplayComponent.

(** A grid cell [(class_idx, day_idx, period_idx)]; the keys of
    [self.timetable_cells] are built from [range], so the three indices
    are natural numbers. *)
Definition Cell : Type := nat * nat * nat.

(** The lesson-display record stored in a populated slot of the grid. *)
Record Lesson := {
  subject : string;
  teacher : option string;
  full_name : option string;
  subcode : option string;
  color : option string;
  lesson_type : string
}.

(** [timetable_data]: class name, then day name, then the list of slots of
    that day.  A slot is [None] for the empty dict and [Some] for a lesson
    record. *)
Abbreviation Grid := (gmap string (gmap string (list (option Lesson)))).

(** [load_subject_colors]: nothing when [SUBJECTS] has no [COLOR] column;
    else [SUBCODE -> COLOR] for the subject rows where both are set, a later
    row replacing an earlier one. *)
Definition load_subject_colors (db : option Store) : gmap string string :=
  match db with
  | None => ∅
  | Some st =>
      if SUBJECTS_has_COLOR st then
        foldl
          (fun subject_colors row =>
             match sub_color row with
             | Some c =>
                 if negb (String.eqb (sub_subcode row) "") && negb (String.eqb c "")
                 then <[sub_subcode row := c]> subject_colors
                 else subject_colors
             | None => subject_colors
             end)
          ∅ (SUBJECTS st)
      else ∅
  end.

(** [SELECT DISTINCT col FROM t ORDER BY col]. *)
Definition distinct_sorted (names : list string) : list string :=
  Sql.order_by Sql.text_le (remove_dups names).

(** [load_classes_from_db]. *)
Definition load_classes_from_db (db : option Store) : list string :=
  let default := ["Class 1"; "Class 2"; "Class 3"; "Class 4"; "Class 5"] in
  match db with
  | None => []
  | Some st =>
      let classes := distinct_sorted (map sch_section (SCHEDULE st)) in
      let classes :=
        match classes with
        | [] => distinct_sorted (map sl_class_name (SCHEDULED_LESSONS st))
        | _ => classes
        end in
      let classes :=
        match classes with
        | [] => distinct_sorted (CLASS st)
        | _ => classes
        end in
      match classes with [] => default | _ => classes end
  end.

(** [day_map.get(day_id, f"Day{day_id}")] of the [SCHEDULE] pass. *)
Definition day_name_of_id (day_id : Z) : string :=
  match day_id with
  | 0 => "Monday" | 1 => "Tuesday" | 2 => "Wednesday" | 3 => "Thursday"
  | 4 => "Friday" | 5 => "Saturday" | 6 => "Sunday"
  | _ => "Day" +:+ pretty day_id
  end.

(** [day_map.get(day_code, day_code)] of the [SCHEDULED_LESSONS] pass. *)
Definition day_name_of_code (day_code : string) : string :=
  if String.eqb day_code "Mo" then "Monday"
  else if String.eqb day_code "Tu" then "Tuesday"
  else if String.eqb day_code "We" then "Wednesday"
  else if String.eqb day_code "Th" then "Thursday"
  else if String.eqb day_code "Fr" then "Friday"
  else if String.eqb day_code "Sa" then "Saturday"
  else if String.eqb day_code "Su" then "Sunday"
  else day_code.

(** The [lesson_types] dict of one class, read from [LESSONS]. *)
Definition lesson_types_of (st : Store) (class_name : string)
  : gmap string string :=
  foldl
    (fun lesson_types row =>
       <[lt_subject_code row := lt_lesson_type row]> lesson_types)
    ∅
    (List.filter (fun row => String.eqb (lt_class_name row) class_name)
       (LESSONS st)).

(** One fetched row of either schedule query, after the joins:
    (day, period, SUBNAME, faculty initials, SUBCODE, COLOR), where the
    subject columns are those of the joined [SUBJECTS] row. *)
Record Entry (D : Type) := {
  e_day : D;
  e_period : Z;
  e_subject_name : option string;
  e_faculty_ini : option string;
  e_subject_code : option string;
  e_color : option string
}.
Arguments e_day {D}.
Arguments e_period {D}.
Arguments e_subject_name {D}.
Arguments e_faculty_ini {D}.
Arguments e_subject_code {D}.
Arguments e_color {D}.

(** The record built from a row, the same in both passes. *)
Definition lesson_of_entry {D} (subject_colors lesson_types : gmap string string)
    (entry : Entry D) : Lesson :=
  let color :=
    if Py.truthy (e_color entry) then e_color entry
    else match e_subject_code entry with
         | Some code => subject_colors !! code
         | None => None
         end in
  let subject_code_display :=
    if Py.truthy (e_subject_code entry)
    then Py.first_two (default "" (e_subject_code entry))
    else if Py.truthy (e_subject_name entry)
         then Py.first_two (default "" (e_subject_name entry))
         else "" in
  let lesson_type :=
    match e_subject_code entry with
    | Some code => default "Single" (lesson_types !! code)
    | None => "Single"
    end in
  {| subject := subject_code_display;
     teacher := e_faculty_ini entry;
     full_name := e_subject_name entry;
     subcode := e_subject_code entry;
     color := color;
     lesson_type := lesson_type |}.

(** [timetable_data[class_name][day_name][i]]; [None] stands for a
    [KeyError] or an [IndexError]. *)
Definition grid_get (timetable_data : Grid) (class_name day_name : string)
    (i : Z) : option (option Lesson) :=
  class_data ← timetable_data !! class_name;
  day_data ← class_data !! day_name;
  Py.list_get day_data i.

(** [timetable_data[class_name][day_name][i] = v]. *)
Definition grid_set (timetable_data : Grid) (class_name day_name : string)
    (i : Z) (v : option Lesson) : option Grid :=
  class_data ← timetable_data !! class_name;
  day_data ← class_data !! day_name;
  day_data' ← Py.list_set day_data i v;
  Some (<[class_name := <[day_name := day_data']> class_data]> timetable_data).

(** The initial structure: every class, every day, [periods_per_day]
    empty slots. *)
Definition init_grid (class_names days : list string) (periods_per_day : nat)
  : Grid :=
  foldl
    (fun timetable_data class_name =>
       <[class_name :=
           foldl
             (fun class_data day =>
                <[day := replicate periods_per_day None]> class_data)
             ∅ days]> timetable_data)
    ∅ class_names.

(** The rows of the [SCHEDULE] query of one class, on a [SUBJECTS] table
    that has the [COLOR] column the query names. *)
Definition schedule_entries (st : Store) (class_name : string)
  : list (Entry Z) :=
  map
    (fun j : ScheduleRow * option SubjectRow =>
       {| e_day := sch_dayid (fst j);
          e_period := sch_periodid (fst j);
          e_subject_name := sub_subname <$> snd j;
          e_faculty_ini := Some (sch_fini (fst j));
          e_subject_code := sub_subcode <$> snd j;
          e_color := snd j ≫= sub_color |})
    (Sql.order_by
       (fun a b : ScheduleRow * option SubjectRow =>
          (sch_dayid (fst a) <? sch_dayid (fst b))
          || ((sch_dayid (fst a) =? sch_dayid (fst b))
              && (sch_periodid (fst a) <=? sch_periodid (fst b))))
       (flat_map
          (fun sch =>
             Sql.left_join
               (fun sch s => String.eqb (sch_subcode sch) (sub_subcode s))
               sch (SUBJECTS st))
          (List.filter (fun sch => String.eqb (sch_section sch) class_name)
             (SCHEDULE st)))).

(** The body of the loop over the [SCHEDULE] rows of one class.  The
    second component is [false] when the slot assignment raises. *)
Definition schedule_step (subject_colors lesson_types : gmap string string)
    (days : list string) (periods_per_day : nat) (class_name : string)
    (timetable_data : Grid) (entry : Entry Z) : Grid * bool :=
  let day_name := day_name_of_id (e_day entry) in
  if negb (existsb (String.eqb day_name) days)
     || (Z.of_nat periods_per_day <=? e_period entry)
  then (timetable_data, true)
  else
    match grid_set timetable_data class_name day_name (e_period entry)
            (Some (lesson_of_entry subject_colors lesson_types entry)) with
    | Some timetable_data' => (timetable_data', true)
    | None => (timetable_data, false)
    end.

(** The first [try] block: the loop over the classes, left at the first
    exception.  The query of a class raises when [SUBJECTS] has no [COLOR]
    column. *)
Definition schedule_pass (st : Store) (subject_colors : gmap string string)
    (class_names days : list string) (periods_per_day : nat)
    (timetable_data : Grid) : Grid * bool :=
  Sql.loop_until_raise
    (fun timetable_data class_name =>
       if SUBJECTS_has_COLOR st then
         Sql.loop_until_raise
           (schedule_step subject_colors (lesson_types_of st class_name) days
              periods_per_day class_name)
           timetable_data (schedule_entries st class_name)
       else (timetable_data, false))
    timetable_data class_names.

(** The rows of the [SCHEDULED_LESSONS] query of one class, on a
    [SUBJECTS] table that has the [COLOR] column the query names. *)
Definition lesson_entries (st : Store) (class_name : string)
  : list (Entry string) :=
  map
    (fun j : LessonRow * option SubjectRow * option FacultyRow =>
       let '(sl, s, f) := j in
       {| e_day := sl_day_of_week sl;
          e_period := sl_period_number sl;
          e_subject_name := sub_subname <$> s;
          e_faculty_ini := f ≫= fac_ini;
          e_subject_code := sub_subcode <$> s;
          e_color := s ≫= sub_color |})
    (Sql.order_by
       (fun a b : LessonRow * option SubjectRow * option FacultyRow =>
          let x := fst (fst a) in
          let y := fst (fst b) in
          match String.compare (sl_day_of_week x) (sl_day_of_week y) with
          | Lt => true
          | Eq => sl_period_number x <=? sl_period_number y
          | Gt => false
          end)
       (flat_map
          (fun sl =>
             flat_map
               (fun j : LessonRow * option SubjectRow =>
                  Sql.left_join
                    (fun (j : LessonRow * option SubjectRow) f =>
                       Sql.eq_null (sl_teacher_id (fst j)) (Some (fac_fid f)))
                    j (FACULTY st))
               (Sql.left_join
                  (fun sl s =>
                     Sql.eq_null (sl_subject_code sl) (Some (sub_subcode s)))
                  sl (SUBJECTS st)))
          (List.filter (fun sl => String.eqb (sl_class_name sl) class_name)
             (SCHEDULED_LESSONS st)))).

(** The body of the loop over the [SCHEDULED_LESSONS] rows of one class. *)
Definition lesson_step (subject_colors lesson_types : gmap string string)
    (days : list string) (periods_per_day : nat) (class_name : string)
    (timetable_data : Grid) (entry : Entry string) : Grid * bool :=
  let day_name := day_name_of_code (e_day entry) in
  let period_idx := e_period entry - 1 in
  if negb (existsb (String.eqb day_name) days)
     || (Z.of_nat periods_per_day <=? period_idx)
     || (period_idx <? 0)
  then (timetable_data, true)
  else
    match grid_get timetable_data class_name day_name period_idx with
    | None => (timetable_data, false)
    | Some slot =>
        if Py.truthy (subject <$> slot) then (timetable_data, true)
        else
          match grid_set timetable_data class_name day_name period_idx
                  (Some (lesson_of_entry subject_colors lesson_types entry)) with
          | Some timetable_data' => (timetable_data', true)
          | None => (timetable_data, false)
          end
    end.

(** The second loop over the classes; an exception here is caught by the
    outer handler, which returns the data built so far.  The query of a
    class raises when [SUBJECTS] has no [COLOR] column. *)
Definition lesson_pass (st : Store) (subject_colors : gmap string string)
    (class_names days : list string) (periods_per_day : nat)
    (timetable_data : Grid) : Grid * bool :=
  Sql.loop_until_raise
    (fun timetable_data class_name =>
       if SUBJECTS_has_COLOR st then
         Sql.loop_until_raise
           (lesson_step subject_colors (lesson_types_of st class_name) days
              periods_per_day class_name)
           timetable_data (lesson_entries st class_name)
       else (timetable_data, false))
    timetable_data class_names.

(** [load_timetable_data(class_names, days, periods_per_day)]; [db] is
    [None] when the database file does not exist. *)
Definition load_timetable_data (db : option Store)
    (class_names days : list string) (periods_per_day : nat) : Grid :=
  match db with
  | None => ∅
  | Some st =>
      let subject_colors := load_subject_colors db in
      let timetable_data := init_grid class_names days periods_per_day in
      let timetable_data :=
        fst (schedule_pass st subject_colors class_names days periods_per_day
               timetable_data) in
      fst (lesson_pass st subject_colors class_names days periods_per_day
             timetable_data)
  end.

(** A conflict as this module reports it:
    (day id, period id, faculty initials, section, other section). *)
Definition Conflict : Type := Z * Z * string * string * string.

(** The self-join of [SCHEDULE] over the whole table, ordered by
    [(DAYID, PERIODID, FINI)]. *)
Definition conflicts_schedule (st : Store) : list Conflict :=
  map
    (fun c : ScheduleRow * ScheduleRow =>
       (sch_dayid (fst c), sch_periodid (fst c), sch_fini (fst c),
        sch_section (fst c), sch_section (snd c)))
    (Sql.order_by
       (fun a b : ScheduleRow * ScheduleRow =>
          let x := fst a in
          let y := fst b in
          (sch_dayid x <? sch_dayid y)
          || ((sch_dayid x =? sch_dayid y)
              && ((sch_periodid x <? sch_periodid y)
                  || ((sch_periodid x =? sch_periodid y)
                      && Sql.text_le (sch_fini x) (sch_fini y)))))
       (flat_map
          (fun s1 =>
             map (fun s2 => (s1, s2))
               (List.filter
                  (fun s2 =>
                     (sch_dayid s1 =? sch_dayid s2)
                     && (sch_periodid s1 =? sch_periodid s2)
                     && String.eqb (sch_fini s1) (sch_fini s2)
                     && negb (String.eqb (sch_section s1) (sch_section s2)))
                  (SCHEDULE st)))
          (SCHEDULE st))).

(** The cells added to [conflict_cells] for one conflict: the rows of the
    class list whose name is one of the two sections. *)
Definition cells_of_conflict (classes : list string) (c : Conflict)
  : gset (nat * Z * Z) :=
  let '(day_id, period_id, _, section1, section2) := c in
  list_to_set
    (omap
       (fun ic : nat * string =>
          if String.eqb (snd ic) section1 || String.eqb (snd ic) section2
          then Some (fst ic, day_id, period_id)
          else None)
       (imap (fun class_idx class_name => (class_idx, class_name)) classes)).

(** [check_faculty_conflicts()]: the conflict list and the set of grid
    cells involved.  Only the [SCHEDULE] table is read. *)
Definition check_faculty_conflicts (db : option Store)
  : list Conflict * gset (nat * Z * Z) :=
  match db with
  | None => ([], ∅)
  | Some st =>
      let conflicts := conflicts_schedule st in
      (conflicts,
       foldl
         (fun conflict_cells c =>
            conflict_cells ∪ cells_of_conflict (load_classes_from_db db) c)
         ∅ conflicts)
  end.

(** Key and value columns of a [SCHEDULE] row as the swap addresses them:
    [WHERE SECTION=? AND DAYID=? AND PERIODID=?] and [SUBCODE, FINI]. *)
Definition schedule_key (r : ScheduleRow) : string * Z * Z :=
  (sch_section r, sch_dayid r, sch_periodid r).

Definition schedule_get (r : ScheduleRow) : string * string :=
  (sch_subcode r, sch_fini r).

Definition schedule_set (v : string * string) (r : ScheduleRow) : ScheduleRow :=
  {| sch_id := sch_id r;
     sch_dayid := sch_dayid r;
     sch_periodid := sch_periodid r;
     sch_subcode := fst v;
     sch_section := sch_section r;
     sch_fini := snd v |}.

(** The same for [SCHEDULED_LESSONS]:
    [WHERE CLASS_NAME=? AND DAY_OF_WEEK=? AND PERIOD_NUMBER=?] and
    [SUBJECT_CODE, TEACHER_ID]. *)
Definition lesson_key (r : LessonRow) : string * string * Z :=
  (sl_class_name r, sl_day_of_week r, sl_period_number r).

Definition lesson_get (r : LessonRow) : option string * option string :=
  (sl_subject_code r, sl_teacher_id r).

Definition lesson_set (v : option string * option string) (r : LessonRow)
  : LessonRow :=
  {| sl_schedule_id := sl_schedule_id r;
     sl_class_name := sl_class_name r;
     sl_day_of_week := sl_day_of_week r;
     sl_period_number := sl_period_number r;
     sl_subject_code := fst v;
     sl_teacher_id := snd v |}.

(** [day_codes[day_idx] if day_idx < len(day_codes) else None]. *)
Definition day_code_of_idx (day_idx : nat) : option string :=
  ["Mo"; "Tu"; "We"; "Th"; "Fr"; "Sa"; "Su"] !! day_idx.

(** [self.class_names[class_idx] if class_idx < len(self.class_names) else
    None], followed by the test [if not class_name]. *)
Definition class_name_of_idx (class_names : list string) (class_idx : nat)
  : option string :=
  match class_names !! class_idx with
  | Some name => if String.eqb name "" then None else Some name
  | None => None
  end.

(** The parameters bound to the [WHERE] clause of the [SCHEDULE] statements
    for a cell of class [class_name]. *)
Definition schedule_cell_key (class_name : string) (cell : Cell)
  : string * Z * Z :=
  let '(_, day_idx, period_idx) := cell in
  (class_name, Z.of_nat day_idx, Z.of_nat period_idx).

(** The same for [SCHEDULED_LESSONS]: the day code instead of the day index
    and the period counted from 1; [None] when the day index has no code. *)
Definition lesson_cell_key (class_name : string) (cell : Cell)
  : option (string * string * Z) :=
  let '(_, day_idx, period_idx) := cell in
  day_code ← day_code_of_idx day_idx;
  Some (class_name, day_code, Z.of_nat period_idx + 1).

(** The [SCHEDULE] block of the swap. *)
Definition swap_schedule (class1_name class2_name : string)
    (cell1 cell2 : Cell) (t : list ScheduleRow) : list ScheduleRow :=
  Sql.swap_values schedule_key schedule_get schedule_set
    (schedule_cell_key class1_name cell1)
    (schedule_cell_key class2_name cell2) t.

(** The [SCHEDULED_LESSONS] block of the swap, entered only when both day
    indices have a day code. *)
Definition swap_lessons (class1_name class2_name : string)
    (cell1 cell2 : Cell) (t : list LessonRow) : list LessonRow :=
  match lesson_cell_key class1_name cell1, lesson_cell_key class2_name cell2 with
  | Some k1, Some k2 =>
      Sql.swap_values lesson_key lesson_get lesson_set k1 k2 t
  | _, _ => t
  end.

(** [update_db_with_cell_swap(cell1, cell2)]: the database file after the
    call.  Nothing is done when a class index has no name or the file is
    missing. *)
Definition update_db_with_cell_swap (class_names : list string)
    (cell1 cell2 : Cell) (db : option Store) : option Store :=
  match class_name_of_idx class_names (fst (fst cell1)),
        class_name_of_idx class_names (fst (fst cell2)) with
  | Some class1_name, Some class2_name =>
      match db with
      | None => None
      | Some st =>
          Some
            {| TIMETABLE_SETTINGS := TIMETABLE_SETTINGS st;
               SCHEDULE :=
                 swap_schedule class1_name class2_name cell1 cell2 (SCHEDULE st);
               SCHEDULED_LESSONS :=
                 swap_lessons class1_name class2_name cell1 cell2
                   (SCHEDULED_LESSONS st);
               SUBJECTS := SUBJECTS st;
               SUBJECTS_has_COLOR := SUBJECTS_has_COLOR st;
               FACULTY := FACULTY st;
               LESSONS := LESSONS st;
               CLASS := CLASS st |}
      end
  | _, _ => db
  end.

(** The conflicts reported after a swap: those of the whole store that sit
    on one of the two cells. *)
Definition new_conflicts (class_names : list string) (cell1 cell2 : Cell)
    (db : option Store) : list Conflict :=
  match class_name_of_idx class_names (fst (fst cell1)),
        class_name_of_idx class_names (fst (fst cell2)) with
  | Some class1_name, Some class2_name =>
      List.filter
        (fun c : Conflict =>
           let '(day_id, period_id, _, section1, section2) := c in
           ((day_id =? Z.of_nat (snd (fst cell1)))
            && (period_id =? Z.of_nat (snd cell1))
            && (String.eqb section1 class1_name || String.eqb section2 class1_name))
           || ((day_id =? Z.of_nat (snd (fst cell2)))
               && (period_id =? Z.of_nat (snd cell2))
               && (String.eqb section1 class2_name || String.eqb section2 class2_name)))
        (fst (check_faculty_conflicts (update_db_with_cell_swap class_names cell1 cell2 db)))
  | _, _ => []
  end.

(** A lesson cell drawn by [load_data]: the key of the cell frame, the
    number of period columns given to it, the lesson it shows, and the
    [row] and [column] of the last [grid()] call made on the frame, which
    is where the toolkit puts it on the screen. *)
Record Span := {
  sp_class : nat;
  sp_day : nat;
  sp_period : nat;
  sp_colspan : nat;
  sp_lesson : Lesson;
  sp_row : nat;
  sp_col : nat
}.

(** What [load_data] leaves behind: the set [processed_cells], the cells
    taken off the grid by [grid_forget] inside a merged span, and the lesson
    cells drawn, in the order they were drawn. *)
Record Rendered := {
  processed_cells : gset Cell;
  forgotten : gset Cell;
  spans : list Span
}.

(** The number of columns of a lesson that starts at [period_idx] when the
    day has [num_periods] columns. *)
Definition colspan_of (lesson_type : string) (period_idx num_periods : nat) : nat :=
  if String.eqb lesson_type "Double" && (period_idx <? num_periods - 1)%nat then 2%nat
  else if String.eqb lesson_type "Triple" && (period_idx <? num_periods - 2)%nat then 3%nat
  else 1%nat.

(** The loops that put every cell frame back on the grid before the data
    is drawn, for what they leave in the variable [row]: [2 + class_idx] of
    the last turn, and nothing ([None]) when no turn is made. *)
Definition regrid_row (num_classes num_days num_periods : nat) : option nat :=
  foldl
    (fun row class_idx =>
       foldl
         (fun row _ =>
            foldl (fun _ _ => Some (2 + class_idx)%nat) row (seq 0 num_periods))
         row (seq 0 num_days))
    None (seq 0 num_classes).

(** The body of the loop over [enumerate(day_data)].  [row] is the
    variable that the loops of [regrid_row] have left: the loop over the
    data computes [col] anew before it grids a merged frame, but not [row].
    A frame of one column is not gridded again and stays where those loops
    put it, in the row of its class. *)
Definition render_period (num_periods row class_idx day_idx period_idx : nat)
    (period_data : option Lesson) (r : Rendered) : Rendered :=
  match period_data with
  | Some lesson =>
      if (period_idx <? num_periods)%nat
         && negb (bool_decide ((class_idx, day_idx, period_idx) ∈ processed_cells r))
      then
        let colspan := colspan_of (lesson_type lesson) period_idx num_periods in
        let following : gset Cell :=
          list_to_set
            (map (fun i => (class_idx, day_idx, (period_idx + i)%nat))
               (seq 1 (colspan - 1))) in
        let col := (1 + day_idx * num_periods + period_idx)%nat in
        {| processed_cells :=
             processed_cells r ∪ following ∪ {[ (class_idx, day_idx, period_idx) ]};
           forgotten := forgotten r ∪ following;
           spans :=
             spans r ++
             [ {| sp_class := class_idx; sp_day := day_idx;
                  sp_period := period_idx; sp_colspan := colspan;
                  sp_lesson := lesson;
                  sp_row := if (1 <? colspan)%nat then row
                            else (2 + class_idx)%nat;
                  sp_col := col |} ] |}
      else r
  | None => r
  end.

(** [for period_idx, period_data in enumerate(day_data)], from index
    [period_idx] on. *)
Fixpoint render_day (num_periods row class_idx day_idx period_idx : nat)
    (day_data : list (option Lesson)) (r : Rendered) : Rendered :=
  match day_data with
  | [] => r
  | period_data :: rest =>
      render_day num_periods row class_idx day_idx (S period_idx) rest
        (render_period num_periods row class_idx day_idx period_idx
           period_data r)
  end.

(** [for day_idx, day in enumerate(self.days)], from index [day_idx] on. *)
Fixpoint render_class (num_periods row class_idx day_idx : nat)
    (days : list string) (class_data : gmap string (list (option Lesson)))
    (r : Rendered) : Rendered :=
  match days with
  | [] => r
  | day :: rest =>
      render_class num_periods row class_idx (S day_idx) rest class_data
        (match class_data !! day with
         | Some day_data =>
             render_day num_periods row class_idx day_idx 0 day_data r
         | None => r
         end)
  end.

(** [for class_idx, class_name in enumerate(self.class_names)], from index
    [class_idx] on. *)
Fixpoint render_classes (num_periods row class_idx : nat)
    (class_names days : list string) (timetable_data : Grid)
    (r : Rendered) : Rendered :=
  match class_names with
  | [] => r
  | class_name :: rest =>
      render_classes num_periods row (S class_idx) rest days timetable_data
        (match timetable_data !! class_name with
         | Some class_data =>
             render_class num_periods row class_idx 0 days class_data r
         | None => r
         end)
  end.

(** The span bookkeeping of [load_data(timetable_data)] for a component
    with [self.class_names], [self.days] and [len(self.periods)] period
    columns.  [self.timetable_cells] has a frame for every class, day and
    period index in range, as [create_timetable_grid_cells] fills it: when
    there are classes, days and periods, every visited cell with a period in
    range is a key of it; when one of the three is missing it is empty, the
    loops of [regrid_row] make no turn, and nothing is drawn. *)
Definition load_data (class_names days : list string) (num_periods : nat)
    (timetable_data : Grid) : Rendered :=
  let nothing := {| processed_cells := ∅; forgotten := ∅; spans := [] |} in
  match regrid_row (length class_names) (length days) num_periods with
  | Some row =>
      render_classes num_periods row 0 class_names days timetable_data nothing
  | None => nothing
  end.

(** *** Vocabulary of the statements about the swap *)

(** The rows a schema stores for a grid cell. *)
Definition schedule_rows_of (class_names : list string) (cell : Cell)
    (st : Store) : list ScheduleRow :=
  match class_name_of_idx class_names (fst (fst cell)) with
  | Some name =>
      List.filter
        (fun r => bool_decide (schedule_key r = schedule_cell_key name cell))
        (SCHEDULE st)
  | None => []
  end.

Definition lesson_rows_of (class_names : list string) (cell : Cell)
    (st : Store) : list LessonRow :=
  match class_name_of_idx class_names (fst (fst cell)) with
  | Some name =>
      List.filter
        (fun r => bool_decide (Some (lesson_key r) = lesson_cell_key name cell))
        (SCHEDULED_LESSONS st)
  | None => []
  end.

(** All rows of a list carry the same value columns. *)
Definition same_values {Row Val} (get : Row -> Val) (rows : list Row) : Prop :=
  match rows with
  | [] => True
  | r :: rest => Forall (fun r' => get r' = get r) rest
  end.

(** In both schemas the rows stored for [cell] agree on their subject and
    faculty columns; this holds in particular when the cell has at most one
    row in each schema. *)
Definition cell_single_valued (class_names : list string) (cell : Cell)
    (st : Store) : Prop :=
  same_values schedule_get (schedule_rows_of class_names cell st)
  /\ same_values lesson_get (lesson_rows_of class_names cell st).

(** A span covers period column [q] of the row [(class_idx, day_idx)]. *)
Definition covers (class_idx day_idx q : nat) (sp : Span) : bool :=
  bool_decide (sp_class sp = class_idx)
  && bool_decide (sp_day sp = day_idx)
  && (sp_period sp <=? q)%nat
  && (q <? sp_period sp + sp_colspan sp)%nat.

(** *** The grid dimensions of the component *)

(** The row [config_id = 1] of [SCHOOL_CONFIG], a table written by another
    module of the application.  The two loaders take the truth value of what
    they fetch and then its [int()], so the cells are held as fetched
    values, of whatever storage class. *)
Record SchoolConfigRow := {
  cfg_num_days : Py.value;
  cfg_periods_per_day : Py.value
}.

(** What a query on [SCHOOL_CONFIG] meets: no such table, no such row, or
    the row. *)
Inductive SchoolConfig :=
| NoConfigTable
| NoConfigRow
| ConfigRow (row : SchoolConfigRow).

(** [[f"P{i+1}" for i in range(n)]]. *)
Definition period_labels (n : Z) : list string :=
  map (fun i : nat => "P" +:+ pretty (S i)) (seq 0 (Z.to_nat n)).

(** [SELECT MAX(PERIODID) FROM SCHEDULE]: NULL on an empty table. *)
Definition max_periodid (t : list ScheduleRow) : option Z :=
  match t with
  | [] => None
  | r :: t' => Some (foldl Z.max (sch_periodid r) (map sch_periodid t'))
  end.

(** [load_periods_from_db()].  Any failing query leaves [periods] empty, and
    an empty list is replaced by eight default labels. *)
Definition load_periods_from_db (db : option Store) (config : SchoolConfig)
  : list string :=
  match db with
  | None => period_labels 8
  | Some st =>
      let periods :=
        match config with
        | NoConfigTable => []
        | NoConfigRow | ConfigRow _ =>
            (* [result and result[0]]: a missing row counts as [None] *)
            let result0 :=
              match config with
              | ConfigRow row => cfg_periods_per_day row
              | _ => Py.VNone
              end in
            if Py.truth result0 then
              match Py.int_of result0 with
              | Some num_periods => period_labels num_periods
              | None => []
              end
            else
              match TIMETABLE_SETTINGS st with
              | None => []
              | Some rows =>
                  match TimetableApp.setting_text rows "NUM_PERIODS" with
                  | Some v =>
                      match Py.int v with
                      | Some num_periods => period_labels num_periods
                      | None => []
                      end
                  | None =>
                      match max_periodid (SCHEDULE st) with
                      | Some max_period => period_labels (max_period + 1)
                      | None => []
                      end
                  end
              end
        end in
      match periods with [] => period_labels 8 | _ => periods end
  end.

(** [load_days_from_db()].  A failing query and a failing [int()] both end
    in the five default days. *)
Definition load_days_from_db (db : option Store) (config : SchoolConfig)
  : list string :=
  let five := ["Monday"; "Tuesday"; "Wednesday"; "Thursday"; "Friday"] in
  let default_days :=
    ["Monday"; "Tuesday"; "Wednesday"; "Thursday"; "Friday"; "Saturday";
     "Sunday"] in
  match db with
  | None => five
  | Some st =>
      match TIMETABLE_SETTINGS st with
      | None => five
      | Some rows =>
          match TimetableApp.setting_text rows "DAYS_ENABLED" with
          | Some v => map day_name_of_code (Py.split "," v)
          | None =>
              match config with
              | NoConfigTable => five
              | NoConfigRow | ConfigRow _ =>
                  let result0 :=
                    match config with
                    | ConfigRow row => cfg_num_days row
                    | _ => Py.VNone
                    end in
                  if Py.truth result0 then
                    match Py.int_of result0 with
                    | Some num_days => Py.slice_to default_days num_days
                    | None => five
                    end
                  else five
              end
          end
      end
  end.

(** *** The background colour of a drawn cell *)

Definition default_subject_colors : gmap string string :=
  list_to_map
    [ ("Ma", "#ADD8E6"); ("En", "#90EE90"); ("Hi", "#FFB6C1");
      ("Sc", "#FFFFE0"); ("Ph", "#E6E6FA"); ("Ch", "#FFA07A");
      ("Bi", "#98FB98"); ("Cs", "#D8BFD8"); ("Pe", "#FFDAB9");
      ("Ar", "#F0FFF0"); ("Mu", "#F5DEB3"); ("Sp", "#DDA0DD");
      ("Ge", "#B0E0E6"); ("Ec", "#F5F5DC"); ("Py", "#FAEBD7");
      ("Ja", "#E0FFFF"); ("Na", "#FFF8DC"); ("Op", "#FFE4E1");
      ("Et", "#F5FFFA"); ("Pa", "#F0F8FF") ].

(** [bg_color] as [load_data] settles it for a lesson record: the colour
    of the record, else the database colour of the full subject code, else
    that of the abbreviation, else the built-in colour of the abbreviation,
    else white. *)
Definition cell_bg_color (subject_colors_db : gmap string string)
    (period_data : Lesson) : string :=
  let bg_color := color period_data in
  if Py.truthy bg_color then default "" bg_color
  else
    let by_subcode :=
      if Py.truthy (subcode period_data)
      then subject_colors_db !! default "" (subcode period_data)
      else None in
    match by_subcode with
    | Some c => c
    | None =>
        match subject_colors_db !! subject period_data with
        | Some c => c
        | None =>
            default "#FFFFFF" (default_subject_colors !! subject period_data)
        end
    end.

End DisplayComponent.

(** * Example databases and the vocabulary of the statements *)

Import DisplayComponent.

(** The example databases hold the [SUBJECTS] table of the subjects module,
    with its [COLOR] column. *)
Definition with_settings (rows : list (string * option string)) : Store :=
  {| TIMETABLE_SETTINGS := Some rows; SCHEDULE := []; SCHEDULED_LESSONS := [];
     SUBJECTS := []; SUBJECTS_has_COLOR := true; FACULTY := []; LESSONS := [];
     CLASS := [] |}.

Definition with_lessons (sched : list ScheduleRow) (lessons : list LessonRow)
    (subjects : list SubjectRow) (faculty : list FacultyRow) : Store :=
  {| TIMETABLE_SETTINGS := None; SCHEDULE := sched;
     SCHEDULED_LESSONS := lessons; SUBJECTS := subjects;
     SUBJECTS_has_COLOR := true; FACULTY := faculty;
     LESSONS := []; CLASS := [] |}.


Definition sched_row (id : string) (section : string) (day period : Z)
    (subcode fini : string) : ScheduleRow :=
  {| sch_id := id; sch_dayid := day; sch_periodid := period;
     sch_subcode := subcode; sch_section := section; sch_fini := fini |}.

Definition lesson_row (id : Z) (class_name day : string) (period : Z)
    (subject teacher : option string) : LessonRow :=
  {| sl_schedule_id := id; sl_class_name := class_name; sl_day_of_week := day;
     sl_period_number := period; sl_subject_code := subject;
     sl_teacher_id := teacher |}.

Definition maths : SubjectRow :=
  {| sub_subcode := "MA"; sub_subname := "Maths"; sub_color := None |}.

Definition physics : SubjectRow :=
  {| sub_subcode := "PH"; sub_subname := "Physics"; sub_color := None |}.

Definition teacher_jd : FacultyRow :=
  {| fac_fid := "T1"; fac_name := "Jane Doe"; fac_ini := Some "JD" |}.

(** A store whose only double booking is in the legacy schema: teacher T1
    (initials JD) has classes A and B on Monday, first period. *)
Definition legacy_double_booking : Store :=
  with_lessons []
    [lesson_row 1 "A" "Mo" 1 (Some "MA") (Some "T1");
     lesson_row 2 "B" "Mo" 1 (Some "PH") (Some "T1")]
    [maths; physics] [teacher_jd].

(** A cell stored in both schemas with different subjects, both known to
    [SUBJECTS]. *)
Definition both_schemas_resolved : Store :=
  with_lessons
    [sched_row "1" "A" 0 0 "PH" "JD"]
    [lesson_row 1 "A" "Mo" 1 (Some "MA") (Some "T1")]
    [maths; physics] [teacher_jd].

(** The same cell when the [SCHEDULE] row names a subject code that
    [SUBJECTS] does not have: the join leaves the subject columns NULL, the
    slot gets an empty abbreviation, and the legacy row takes the slot. *)
Definition both_schemas_unresolved : Store :=
  with_lessons
    [sched_row "1" "A" 0 0 "PH" "JD"]
    [lesson_row 1 "A" "Mo" 1 (Some "MA") (Some "T1")]
    [maths] [teacher_jd].

(** The slots of one day of one class. *)
Definition day_slots (td : Grid) (class_name day_name : string)
  : option (list (option Lesson)) :=
  td !! class_name ≫= fun class_data => class_data !! day_name.

Definition maths_with (fini : string) : Lesson :=
  {| subject := "MA"; teacher := Some fini; full_name := Some "Maths";
     subcode := Some "MA"; color := None; lesson_type := "Single" |}.

(** A [SCHEDULE] row with period -1 next to a [SCHEDULED_LESSONS] row with
    period 0, which is index -1 as well. *)
Definition negative_period_rows : Store :=
  with_lessons
    [sched_row "1" "A" 0 (-1) "MA" "JD"]
    [lesson_row 1 "A" "Tu" 0 (Some "PH") (Some "T1")]
    [maths; physics] [teacher_jd].

(** A [SCHEDULE] row with period -4 followed by a row that is in range. *)
Definition far_negative_period_rows : Store :=
  with_lessons
    [sched_row "1" "A" 0 (-4) "MA" "JD"; sched_row "2" "A" 1 0 "MA" "JD"]
    [] [maths] [].

(** A [SCHEDULE] row whose faculty column holds the text NULL. *)
Definition null_faculty_row : Store :=
  with_lessons [sched_row "1" "A" 0 0 "MA" "NULL"] [] [maths] [].

(** Two sections with one lesson each in the current schema only. *)
Definition current_only : Store :=
  with_lessons
    [sched_row "1" "A" 0 0 "MA" "JD"; sched_row "2" "B" 1 2 "PH" "XY"]
    [lesson_row 1 "A" "Mo" 1 (Some "MA") (Some "T1")]
    [maths; physics] [teacher_jd].

(** The database that the swap of (A, Monday, 0) and (B, Tuesday, 2) leaves:
    the two [SCHEDULE] rows have exchanged subject and faculty, and the
    legacy table, where only the first cell has a row, is as before. *)
Definition current_only_swapped : Store :=
  with_lessons
    [sched_row "1" "A" 0 0 "PH" "XY"; sched_row "2" "B" 1 2 "MA" "JD"]
    [lesson_row 1 "A" "Mo" 1 (Some "MA") (Some "T1")]
    [maths; physics] [teacher_jd].

(** Section A has two [SCHEDULE] rows for Monday, first period, with
    different lessons; section B has one. *)
Definition duplicate_rows : Store :=
  with_lessons
    [sched_row "1" "A" 0 0 "MA" "JD"; sched_row "2" "A" 0 0 "PH" "XY";
     sched_row "3" "B" 0 0 "CH" "ZZ"]
    [] [] [].

(** Every day list of the grid has [periods_per_day] slots. *)
Definition grid_shape (periods_per_day : nat) (timetable_data : Grid) : Prop :=
  forall class_name class_data day day_data,
    timetable_data !! class_name = Some class_data ->
    class_data !! day = Some day_data ->
    length day_data = periods_per_day.

(** The grid has one entry per class name, each with one list per day, each
    of [periods_per_day] slots. *)
Definition grid_frame (class_names days : list string) (periods_per_day : nat)
    (timetable_data : Grid) : Prop :=
  dom timetable_data = list_to_set class_names
  /\ forall class_name class_data,
       timetable_data !! class_name = Some class_data ->
       dom class_data = list_to_set days
       /\ forall day day_data,
            class_data !! day = Some day_data ->
            length day_data = periods_per_day.

(** Every populated slot was built from a fetched row of its class: a
    [SCHEDULE] row of that day whose period is the slot index, directly or
    counted from the end, or a [SCHEDULED_LESSONS] row of that day whose
    period is the slot index plus one. *)
Definition slots_have_rows (st : Store) (periods_per_day : nat)
    (timetable_data : Grid) : Prop :=
  forall class_name day (q : nat) lesson,
    grid_get timetable_data class_name day (Z.of_nat q) = Some (Some lesson) ->
    (exists entry,
        In entry (schedule_entries st class_name)
        /\ lesson = lesson_of_entry (load_subject_colors (Some st))
                      (lesson_types_of st class_name) entry
        /\ day_name_of_id (e_day entry) = day
        /\ (e_period entry = Z.of_nat q
            \/ e_period entry = Z.of_nat q - Z.of_nat periods_per_day))
    \/ (exists entry,
          In entry (lesson_entries st class_name)
          /\ lesson = lesson_of_entry (load_subject_colors (Some st))
                        (lesson_types_of st class_name) entry
          /\ day_name_of_code (e_day entry) = day
          /\ e_period entry - 1 = Z.of_nat q).

(** The key [cell] is one of the keys that follow the key of a drawn frame
    within the number of columns given to that frame: same class, same day,
    one of the next periods. *)
Definition follows_a_merged_key (r : Rendered) (cell : Cell) : Prop :=
  exists sp k,
    In sp (spans r) /\ (1 <= k < sp_colspan sp)%nat
    /\ cell = (sp_class sp, sp_day sp, (sp_period sp + k)%nat).

(** The frame of a drawn cell lies over the screen position
    [(row, col)]. *)
Definition on_screen (row col : nat) (sp : Span) : bool :=
  bool_decide (sp_row sp = row)
  && (sp_col sp <=? col)%nat
  && (col <? sp_col sp + sp_colspan sp)%nat.

(** A lesson record of the given subject code, faculty and lesson type. *)
Definition lesson_of_kind (code fini kind : string) : Lesson :=
  {| subject := code; teacher := Some fini; full_name := None;
     subcode := Some code; color := None; lesson_type := kind |}.

(** Two classes on one day of three periods: a Double in the first period
    of class A, and two single lessons in the first two periods of
    class B. *)
Definition double_above_singles : Grid :=
  {[ "A" := {[ "Monday" := [Some (lesson_of_kind "MA" "JD" "Double"); None; None] ]};
     "B" := {[ "Monday" := [Some (lesson_of_kind "PH" "XY" "Single");
                            Some (lesson_of_kind "EN" "ZW" "Single"); None] ]} ]}.

(** The lesson that the frame of a drawn cell shows is the one that
    [timetable_data] holds under the key of the frame. *)
Definition stored_at (class_names days : list string) (timetable_data : Grid)
    (sp : Span) : Prop :=
  exists class_name class_data day day_data,
    class_names !! sp_class sp = Some class_name
    /\ timetable_data !! class_name = Some class_data
    /\ days !! sp_day sp = Some day
    /\ class_data !! day = Some day_data
    /\ day_data !! sp_period sp = Some (Some (sp_lesson sp)).

(** ** The scan of [load_data] *)

Open Scope nat_scope.

(** The scan order: classes, then days, then periods. *)
Definition before (a b : Cell) : Prop :=
  let '(c, d, p) := a in
  let '(c', d', p') := b in
  c < c' \/ (c = c' /\ (d < d' \/ (d = d' /\ p < p'))).

Definition start_of (sp : Span) : Cell := (sp_class sp, sp_day sp, sp_period sp).

(** What holds of the bookkeeping when the scan stands at cell [pos]. *)
Record scan_invariant (num_periods : nat) (pos : Cell) (r : Rendered) : Prop := {
  inv_colspan : forall sp, In sp (spans r) ->
    sp_period sp < num_periods
    /\ sp_colspan sp
       = colspan_of (lesson_type (sp_lesson sp)) (sp_period sp) num_periods;
  inv_processed : forall sp q, In sp (spans r) ->
    sp_period sp <= q < sp_period sp + sp_colspan sp ->
    (sp_class sp, sp_day sp, q) ∈ processed_cells r;
  inv_forgotten : forall sp k, In sp (spans r) ->
    1 <= k < sp_colspan sp ->
    (sp_class sp, sp_day sp, sp_period sp + k) ∈ forgotten r;
  inv_before : forall sp, In sp (spans r) -> before (start_of sp) pos;
  inv_covered : forall c d q, (c, d, q) ∈ processed_cells r ->
    exists sp, In sp (spans r) /\ covers c d q sp = true;
  inv_single : forall c d q,
    length (List.filter (covers c d q) (spans r)) <= 1
}.

Close Scope nat_scope.

(** * Properties *)

(** ** The settings resolver, [_load_timetable_structure] *)

Section Settings.

Import TimetableApp.

Lemma structure_without_connection :
  _load_timetable_structure None = (DEFAULT_DAYS, DEFAULT_PERIODS_INFO).
Proof. reflexivity. Qed.

Lemma structure_without_settings_table st :
  TIMETABLE_SETTINGS st = None ->
  _load_timetable_structure (Some st) = (DEFAULT_DAYS, DEFAULT_PERIODS_INFO).
Proof. intros H. unfold _load_timetable_structure. now rewrite H. Qed.

Lemma structure_without_rows st :
  TIMETABLE_SETTINGS st = Some [] ->
  _load_timetable_structure (Some st) = (DEFAULT_DAYS, DEFAULT_PERIODS_INFO).
Proof. intros H. unfold _load_timetable_structure. now rewrite H. Qed.

(** The scenario of the specification: with only [PERIODS_CONFIG] set, the
    period map is the parsed one. *)
Example periods_config_scenario :
  snd (_load_timetable_structure
         (Some (with_settings
                  [("PERIODS_CONFIG", Some "1:8:00-8:45,2:9:00-9:45")])))
  = [(1, "8:00-8:45"); (2, "9:00-9:45")].
Proof. reflexivity. Qed.

(** Whatever [PERIODS_CONFIG] holds, a [NUM_PERIODS] value that [int]
    accepts decides the period map on its own. *)
Lemma num_periods_decides rows v n conn :
  TIMETABLE_SETTINGS conn = Some rows ->
  setting_text rows "NUM_PERIODS" = Some v ->
  Py.int v = Some n ->
  snd (_load_timetable_structure (Some conn))
  = List.filter (fun kv => fst kv <=? n) DEFAULT_PERIODS_INFO.
Proof.
  intros Hrows Hset Hint. unfold _load_timetable_structure.
  rewrite Hrows. cbn [snd]. unfold apply_num_periods.
  now rewrite Hset, Hint.
Qed.

(** [PERIODS_CONFIG] reaches the result only when [NUM_PERIODS] is absent,
    empty or not an integer. *)
Lemma periods_config_decides rows v d conn :
  TIMETABLE_SETTINGS conn = Some rows ->
  (setting_text rows "NUM_PERIODS" ≫= Py.int) = None ->
  setting_text rows "PERIODS_CONFIG" = Some v ->
  parse_periods_config v = Some d -> d <> [] ->
  snd (_load_timetable_structure (Some conn)) = d.
Proof.
  intros Hrows Hnum Hset Hparse Hne. unfold _load_timetable_structure.
  rewrite Hrows. cbn [snd]. unfold apply_num_periods, apply_periods_config.
  rewrite Hset, Hparse.
  destruct (setting_text rows "NUM_PERIODS") as [w|]; cbn in Hnum.
  - rewrite Hnum. now destruct d.
  - now destruct d.
Qed.

(** C2 (the code departs from the claim).  With [PERIODS_CONFIG] set to the
    two pairs of the specification's scenario, which parse, and [NUM_PERIODS]
    set to 3, [_load_timetable_structure] does not return the parsed pairs:
    the [NUM_PERIODS] block runs unconditionally after the [PERIODS_CONFIG]
    block and replaces the period map by the first three default periods. *)
Theorem num_periods_overrides_periods_config :
  let rows := [("PERIODS_CONFIG", Some "1:8:00-8:45,2:9:00-9:45");
               ("NUM_PERIODS", Some "3")] in
  parse_periods_config "1:8:00-8:45,2:9:00-9:45"
  = Some [(1, "8:00-8:45"); (2, "9:00-9:45")]
  /\ apply_periods_config rows DEFAULT_PERIODS_INFO
     = [(1, "8:00-8:45"); (2, "9:00-9:45")]
  /\ snd (_load_timetable_structure (Some (with_settings rows)))
     = [(1, "8:00 - 8:45"); (2, "9:00 - 9:45"); (3, "10:00 - 10:45")].
Proof. repeat split; reflexivity. Qed.

(** The day list is always drawn from the six default days, in their
    order. *)
Lemma days_sublist_of_default conn :
  sublist (fst (_load_timetable_structure conn)) DEFAULT_DAYS.
Proof.
  destruct conn as [st|]; [|reflexivity].
  unfold _load_timetable_structure.
  destruct (TIMETABLE_SETTINGS st) as [rows|]; [|reflexivity].
  cbn [fst]. unfold apply_days_enabled.
  destruct (setting_text rows "DAYS_ENABLED"); [|reflexivity].
  generalize DEFAULT_DAYS. intros l.
  induction l as [|x l IH]; cbn; [constructor|].
  destruct (existsb _ _); now constructor.
Qed.

(** C5 (the code departs from the claim).  A [DAYS_ENABLED] value that
    names none of Mo..Sa leaves an empty day list, and [NUM_PERIODS] set to 0
    leaves an empty period map: neither block has the guard that the
    [PERIODS_CONFIG] block has against replacing the defaults by nothing. *)
Theorem structure_can_be_empty :
  fst (_load_timetable_structure
         (Some (with_settings [("DAYS_ENABLED", Some "Su")]))) = []
  /\ snd (_load_timetable_structure
            (Some (with_settings [("NUM_PERIODS", Some "0")]))) = []
  /\ snd (_load_timetable_structure
            (Some (with_settings [("PERIODS_CONFIG", Some "x,y")])))
     = DEFAULT_PERIODS_INFO.
Proof. repeat split; reflexivity. Qed.

End Settings.

(** ** The conflict detectors *)

Section Conflicts.

(** The conflict list of the whole-store detector is the [SCHEDULE]
    self-join and nothing else. *)
Lemma check_faculty_conflicts_list st :
  fst (check_faculty_conflicts (Some st)) = conflicts_schedule st.
Proof. reflexivity. Qed.

Lemma check_faculty_conflicts_reads_schedule_only st st' :
  SCHEDULE st = SCHEDULE st' ->
  fst (check_faculty_conflicts (Some st)) = fst (check_faculty_conflicts (Some st')).
Proof.
  intros H. rewrite !check_faculty_conflicts_list.
  unfold conflicts_schedule. now rewrite H.
Qed.

(** The per-section detector of the other window lists the [SCHEDULE]
    conflicts first and the [SCHEDULED_LESSONS] conflicts after them, keeping
    every row of both. *)
Lemma section_conflicts_concatenated db section :
  length (TimetableApp._check_faculty_conflicts db section)
  = (length (TimetableApp.conflicts_schedule db section)
     + length (TimetableApp.conflicts_lessons db section))%nat.
Proof.
  unfold TimetableApp._check_faculty_conflicts.
  now rewrite length_app, length_map.
Qed.

(** The scenario of the specification: two sections share faculty JD on
    Monday, first period, in the current schema. *)
Example current_schema_double_booking :
  let st := with_lessons
              [sched_row "1" "CSE" 0 0 "Ma" "JD"; sched_row "2" "ECE" 0 0 "Ph" "JD"]
              [] [] [] in
  fst (check_faculty_conflicts (Some st))
  ≡ₚ [(0, 0, "JD", "CSE", "ECE"); (0, 0, "JD", "ECE", "CSE")]
  /\ elements (snd (check_faculty_conflicts (Some st)))
     ≡ₚ [(0%nat, 0, 0); (1%nat, 0, 0)].
Proof. split; vm_compute; reflexivity. Qed.

(** C1 (the code departs from the claim).  On a store whose only double
    booking is in [SCHEDULED_LESSONS], [check_faculty_conflicts] returns no
    conflict and no cell, although the legacy self-join is not empty: the
    per-section detector [_check_faculty_conflicts] of [temp_timetable.py]
    reports it for section A and for section B. *)
Theorem whole_store_detector_skips_legacy :
  check_faculty_conflicts (Some legacy_double_booking) = ([], ∅)
  /\ TimetableApp._check_faculty_conflicts legacy_double_booking "A"
     = [("Mo", 1, Some "JD", "A", "B")]
  /\ TimetableApp._check_faculty_conflicts legacy_double_booking "B"
     = [("Mo", 1, Some "JD", "B", "A")].
Proof. repeat split; reflexivity. Qed.

End Conflicts.

(** ** The schema-merging loader, [load_timetable_data] *)

Section Loader.

Lemma loop_until_raise_invariant {S X} (P : S -> Prop)
    (body : S -> X -> S * bool) (xs : list X) :
  (forall s x, P s -> P (fst (body s x))) ->
  forall s, P s -> P (fst (Sql.loop_until_raise body s xs)).
Proof.
  intros Hbody. induction xs as [|x xs IH]; intros s Hs; [exact Hs|].
  cbn. specialize (Hbody s x Hs).
  destruct (body s x) as [s' ok]. destruct ok; [now apply IH|exact Hbody].
Qed.

Lemma list_set_get_other {A} (l l' : list A) (i : Z) (x : A) (p : nat) :
  Py.list_set l i x = Some l' -> 0 <= i -> i <> Z.of_nat p ->
  Py.list_get l' (Z.of_nat p) = Py.list_get l (Z.of_nat p).
Proof.
  unfold Py.list_set, Py.list_get. intros Hset Hi Hne.
  destruct ((0 <=? i) && (i <? Z.of_nat (length l))) eqn:Hin.
  - injection Hset as <-. rewrite length_insert.
    replace (Z.of_nat p <? 0) with false by (symmetry; apply Z.ltb_ge; lia).
    rewrite andb_false_r.
    destruct ((0 <=? Z.of_nat p) && (Z.of_nat p <? Z.of_nat (length l)));
      [|reflexivity].
    apply list_lookup_insert_ne. lia.
  - destruct ((- Z.of_nat (length l) <=? i) && (i <? 0)) eqn:Hneg; [|discriminate].
    apply andb_true_iff in Hneg as [_ Hneg]. lia.
Qed.

(** Assigning one slot leaves every other slot as it was. *)
Lemma grid_set_get_other (td td' : Grid) c' d' (i' : Z) x c d (p : nat) :
  grid_set td c' d' i' x = Some td' -> 0 <= i' ->
  (c', d', i') <> (c, d, Z.of_nat p) ->
  grid_get td' c d (Z.of_nat p) = grid_get td c d (Z.of_nat p).
Proof.
  unfold grid_set, grid_get. intros Hset Hi Hne.
  destruct (td !! c') as [cd|] eqn:Hc'; cbn in Hset; [|discriminate].
  destruct (cd !! d') as [l|] eqn:Hd'; cbn in Hset; [|discriminate].
  destruct (Py.list_set l i' x) as [l'|] eqn:Hl; cbn in Hset; [|discriminate].
  injection Hset as <-.
  destruct (decide (c' = c)) as [->|Hc].
  - rewrite lookup_insert_eq, Hc'. cbn.
    destruct (decide (d' = d)) as [->|Hd].
    + rewrite lookup_insert_eq, Hd'. cbn.
      apply (list_set_get_other l l' i' x p Hl Hi). congruence.
    + now rewrite lookup_insert_ne.
  - now rewrite lookup_insert_ne.
Qed.

(** One row of the legacy pass never changes a slot that already shows a
    subject. *)
Lemma lesson_step_keeps subject_colors lesson_types days periods_per_day
    class_name (td : Grid) entry c d (p : nat) slot :
  grid_get td c d (Z.of_nat p) = Some slot ->
  Py.truthy (subject <$> slot) = true ->
  grid_get
    (fst (lesson_step subject_colors lesson_types days periods_per_day
            class_name td entry)) c d (Z.of_nat p)
  = Some slot.
Proof.
  intros Hget Htruthy. unfold lesson_step.
  destruct (_ || _ || _) eqn:Hskip; [exact Hget|].
  apply orb_false_iff in Hskip as [_ Hneg]. apply Z.ltb_ge in Hneg.
  set (day_name := day_name_of_code (e_day entry)) in *.
  set (period_idx := e_period entry - 1) in *.
  destruct (grid_get td class_name day_name period_idx) as [old|] eqn:Hold;
    [|exact Hget].
  destruct (Py.truthy (subject <$> old)) eqn:Hempty; [exact Hget|].
  destruct (grid_set td class_name day_name period_idx _) as [td'|] eqn:Hset;
    [|exact Hget].
  cbn [fst]. rewrite <- Hget.
  apply (grid_set_get_other _ _ _ _ _ _ _ _ _ Hset Hneg).
  intros Heq. injection Heq as -> -> Hp. rewrite Hp in Hold. congruence.
Qed.

Lemma lesson_pass_keeps st subject_colors class_names days periods_per_day
    (td : Grid) c d (p : nat) slot :
  grid_get td c d (Z.of_nat p) = Some slot ->
  Py.truthy (subject <$> slot) = true ->
  grid_get
    (fst (lesson_pass st subject_colors class_names days periods_per_day td))
    c d (Z.of_nat p)
  = Some slot.
Proof.
  intros Hget Htruthy. unfold lesson_pass.
  apply (loop_until_raise_invariant
           (fun td : Grid => grid_get td c d (Z.of_nat p) = Some slot));
    [|exact Hget].
  intros td1 class_name H1.
  destruct (SUBJECTS_has_COLOR st); [|exact H1].
  apply (loop_until_raise_invariant
           (fun td : Grid => grid_get td c d (Z.of_nat p) = Some slot));
    [|exact H1].
  intros td2 entry H2. now apply lesson_step_keeps.
Qed.

(** What the test of the [SCHEDULED_LESSONS] pass does protect: a slot that
    shows a subject abbreviation after the [SCHEDULE] pass is the loader's
    output for that cell. *)
Lemma current_schema_wins st class_names days periods_per_day c d (p : nat) slot :
  grid_get
    (fst (schedule_pass st (load_subject_colors (Some st)) class_names days
            periods_per_day (init_grid class_names days periods_per_day)))
    c d (Z.of_nat p) = Some slot ->
  Py.truthy (subject <$> slot) = true ->
  grid_get (load_timetable_data (Some st) class_names days periods_per_day)
    c d (Z.of_nat p) = Some slot.
Proof.
  intros Hget Htruthy. unfold load_timetable_data.
  now apply lesson_pass_keeps.
Qed.

Example current_schema_wins_when_resolved :
  grid_get (load_timetable_data (Some both_schemas_resolved) ["A"] ["Monday"] 2)
    "A" "Monday" (Z.of_nat 0)
  = Some (Some {| subject := "PH"; teacher := Some "JD";
                  full_name := Some "Physics"; subcode := Some "PH";
                  color := None; lesson_type := "Single" |}).
Proof.
  apply (current_schema_wins both_schemas_resolved ["A"] ["Monday"] 2
           "A" "Monday" 0%nat); reflexivity.
Qed.

(** C3 (the code departs from the claim).  The cell (A, Monday, 0) has the
    subject PH in [SCHEDULE] and the subject MA in [SCHEDULED_LESSONS], and
    [SUBJECTS] has no row for PH.  The [SCHEDULE] pass writes a record into
    the slot, with the faculty of the row and an empty abbreviation; the
    [SCHEDULED_LESSONS] pass, which is to add its row "if slot is empty",
    tests the abbreviation instead of the slot and puts the legacy record
    in its place. *)
Theorem legacy_row_replaces_current_row :
  let st := both_schemas_unresolved in
  let after_schedule :=
    fst (schedule_pass st (load_subject_colors (Some st)) ["A"] ["Monday"] 2
           (init_grid ["A"] ["Monday"] 2)) in
  map schedule_get (schedule_rows_of ["A"] (0, 0, 0)%nat st) = [("PH", "JD")]
  /\ map lesson_get (lesson_rows_of ["A"] (0, 0, 0)%nat st)
     = [(Some "MA", Some "T1")]
  /\ grid_get after_schedule "A" "Monday" 0
     = Some (Some {| subject := ""; teacher := Some "JD"; full_name := None;
                     subcode := None; color := None; lesson_type := "Single" |})
  /\ grid_get (load_timetable_data (Some st) ["A"] ["Monday"] 2) "A" "Monday" 0
     = Some (Some {| subject := "MA"; teacher := Some "JD";
                     full_name := Some "Maths"; subcode := Some "MA";
                     color := None; lesson_type := "Single" |})
  /\ grid_get (load_timetable_data (Some st) ["A"] ["Monday"] 2) "A" "Monday" 0
     <> grid_get after_schedule "A" "Monday" 0.
Proof.
  split; [reflexivity|]. split; [reflexivity|]. split; [reflexivity|].
  split; [reflexivity|]. vm_compute. discriminate.
Qed.

(** The legacy pass only writes slots whose index is in range: it tests the
    index on both sides before the assignment. *)
Lemma lesson_step_in_range subject_colors lesson_types days periods_per_day
    class_name (td : Grid) entry :
  fst (lesson_step subject_colors lesson_types days periods_per_day
         class_name td entry) <> td ->
  0 <= e_period entry - 1 < Z.of_nat periods_per_day
  /\ In (day_name_of_code (e_day entry)) days.
Proof.
  unfold lesson_step. intros Hchanged.
  destruct (_ || _ || _) eqn:Hskip; [now destruct Hchanged|].
  apply orb_false_iff in Hskip as [Hskip Hneg].
  apply orb_false_iff in Hskip as [Hday Hhigh].
  apply Z.ltb_ge in Hneg. apply Z.leb_gt in Hhigh.
  split; [lia|].
  apply negb_false_iff, existsb_exists in Hday as (x & Hin & Heq).
  apply String.eqb_eq in Heq. now subst.
Qed.

(** The passes keep the shape of the grid, so a populated slot always has
    an index from 0 to [periods_per_day - 1]. *)
Lemma foldl_insert_invariant {X V} (P : V -> Prop) (key : X -> string)
    (val : X -> V) (xs : list X) : forall acc : gmap string V,
  (forall k v, acc !! k = Some v -> P v) ->
  (forall x, P (val x)) ->
  forall k v,
    foldl (fun m x => <[key x := val x]> m) acc xs !! k = Some v -> P v.
Proof.
  induction xs as [|x xs IH]; intros acc Hacc Hval k v; cbn; [apply Hacc|].
  apply IH; [|exact Hval].
  intros k' v' Hk. destruct (decide (key x = k')) as [<-|Hne].
  - rewrite lookup_insert_eq in Hk. injection Hk as <-. apply Hval.
  - rewrite lookup_insert_ne in Hk by exact Hne. now apply (Hacc k').
Qed.

Lemma init_grid_shape class_names days periods_per_day :
  grid_shape periods_per_day (init_grid class_names days periods_per_day).
Proof.
  intros class_name class_data day day_data Hclass Hday.
  unfold init_grid in Hclass.
  set (empty_class :=
         foldl (fun (class_data : gmap string (list (option Lesson))) day =>
                  <[day := replicate periods_per_day None]> class_data)
           ∅ days) in Hclass.
  assert (forall day day_data,
            empty_class !! day = Some day_data ->
            length day_data = periods_per_day) as Hinner.
  { apply (foldl_insert_invariant
             (fun day_data : list (option Lesson) =>
                length day_data = periods_per_day)
             (fun day : string => day)
             (fun _ : string => replicate periods_per_day None) days ∅).
    - intros k v Hk. now rewrite lookup_empty in Hk.
    - intros _. apply length_replicate. }
  apply (foldl_insert_invariant
           (fun class_data : gmap string (list (option Lesson)) =>
              forall day day_data,
                class_data !! day = Some day_data ->
                length day_data = periods_per_day)
           (fun class_name : string => class_name)
           (fun _ : string => empty_class) class_names ∅
           ltac:(intros k v Hk; now rewrite lookup_empty in Hk)
           (fun _ => Hinner) class_name class_data Hclass day day_data Hday).
Qed.

Lemma list_set_length {A} (l l' : list A) i v :
  Py.list_set l i v = Some l' -> length l' = length l.
Proof.
  unfold Py.list_set. intros Hset.
  destruct (_ && _); [|destruct (_ && _); [|discriminate]];
    injection Hset as <-; apply length_insert.
Qed.

Lemma grid_set_shape periods_per_day (td td' : Grid) c d i v :
  grid_shape periods_per_day td -> grid_set td c d i v = Some td' ->
  grid_shape periods_per_day td'.
Proof.
  unfold grid_set. intros Hshape Hset.
  destruct (td !! c) as [cd|] eqn:Hc; cbn in Hset; [|discriminate].
  destruct (cd !! d) as [l|] eqn:Hd; cbn in Hset; [|discriminate].
  destruct (Py.list_set l i v) as [l'|] eqn:Hl; cbn in Hset; [|discriminate].
  injection Hset as <-.
  intros c0 cd0 d0 l0 Hc0 Hd0.
  destruct (decide (c = c0)) as [<-|Hne].
  - rewrite lookup_insert_eq in Hc0. injection Hc0 as <-.
    destruct (decide (d = d0)) as [<-|Hne].
    + rewrite lookup_insert_eq in Hd0. injection Hd0 as <-.
      rewrite (list_set_length _ _ _ _ Hl). now apply (Hshape c cd d).
    + rewrite lookup_insert_ne in Hd0 by exact Hne. now apply (Hshape c cd d0).
  - rewrite lookup_insert_ne in Hc0 by exact Hne. now apply (Hshape c0 cd0 d0).
Qed.

Lemma lesson_step_shape subject_colors lesson_types days periods_per_day
    class_name (td : Grid) entry :
  grid_shape periods_per_day td ->
  grid_shape periods_per_day
    (fst (lesson_step subject_colors lesson_types days periods_per_day
            class_name td entry)).
Proof.
  intros Hshape. unfold lesson_step.
  destruct (_ || _ || _); [assumption|].
  destruct (grid_get _ _ _ _) as [slot|]; [|assumption].
  destruct (Py.truthy _); [assumption|].
  destruct (grid_set _ _ _ _ _) eqn:Hset; [|assumption].
  now apply (grid_set_shape _ _ _ _ _ _ _ Hshape Hset).
Qed.

Lemma schedule_step_shape subject_colors lesson_types days periods_per_day
    class_name (td : Grid) entry :
  grid_shape periods_per_day td ->
  grid_shape periods_per_day
    (fst (schedule_step subject_colors lesson_types days periods_per_day
            class_name td entry)).
Proof.
  intros Hshape. unfold schedule_step.
  destruct (_ || _); [assumption|].
  destruct (grid_set _ _ _ _ _) eqn:Hset; [|assumption].
  now apply (grid_set_shape _ _ _ _ _ _ _ Hshape Hset).
Qed.

Lemma load_timetable_data_shape st class_names days periods_per_day :
  grid_shape periods_per_day
    (load_timetable_data (Some st) class_names days periods_per_day).
Proof.
  unfold load_timetable_data, lesson_pass, schedule_pass.
  apply (loop_until_raise_invariant (grid_shape periods_per_day)).
  { intros td class_name Htd.
    destruct (SUBJECTS_has_COLOR st); [|exact Htd].
    apply (loop_until_raise_invariant (grid_shape periods_per_day)); [|exact Htd].
    intros td' entry Htd'. now apply lesson_step_shape. }
  apply (loop_until_raise_invariant (grid_shape periods_per_day)).
  { intros td class_name Htd.
    destruct (SUBJECTS_has_COLOR st); [|exact Htd].
    apply (loop_until_raise_invariant (grid_shape periods_per_day)); [|exact Htd].
    intros td' entry Htd'. now apply schedule_step_shape. }
  apply init_grid_shape.
Qed.

(** C4 (the code departs from the claim).  For a grid of three periods, the
    [SCHEDULE] pass writes the row with period -1 into the last slot of its
    day, whereas the [SCHEDULED_LESSONS] pass drops the row with the same
    index; a [SCHEDULE] row with period -4 raises inside the pass, which is
    left at once, so that the row after it, which is in range, is not loaded
    although the pass loads it when it comes alone. *)
Theorem schedule_pass_takes_negative_periods :
  let td := load_timetable_data (Some negative_period_rows)
              ["A"] ["Monday"; "Tuesday"] 3 in
  let td' := load_timetable_data (Some far_negative_period_rows)
               ["A"] ["Monday"; "Tuesday"] 3 in
  let alone := with_lessons [sched_row "2" "A" 1 0 "MA" "JD"] [] [maths] [] in
  day_slots td "A" "Monday" = Some [None; None; Some (maths_with "JD")]
  /\ day_slots td "A" "Tuesday" = Some [None; None; None]
  /\ day_slots td' "A" "Tuesday" = Some [None; None; None]
  /\ day_slots (load_timetable_data (Some alone) ["A"] ["Monday"; "Tuesday"] 3)
       "A" "Tuesday"
     = Some [Some (maths_with "JD"); None; None].
Proof. repeat split; reflexivity. Qed.

(** C6 (the code departs from the claim).  The loader copies the faculty
    column of a [SCHEDULE] row into the ["teacher"] entry as it is, so the
    text NULL reaches the grid and the teacher label drawn by [load_data];
    the window of [temp_timetable.py] shows a dash for the same row. *)
Theorem loader_keeps_null_faculty :
  let td := load_timetable_data (Some null_faculty_row) ["A"] ["Monday"] 1 in
  grid_get td "A" "Monday" 0 = Some (Some (maths_with "NULL"))
  /\ map (fun sp => teacher (sp_lesson sp)) (spans (load_data ["A"] ["Monday"] 1 td))
     = [Some "NULL"]
  /\ fst (TimetableApp.display_schedule null_faculty_row "A" ["Mo"]
            [(1, "8:00 - 8:45")] ∅) !! ("Mo", 1)
     = Some ("Maths" +:+ TimetableApp.newline +:+ "-").
Proof. repeat split; reflexivity. Qed.

End Loader.

(** ** Reading and updating rows by key *)

Section TableFacts.

Context {Row Key Val : Type} `{EqDecision Key}.
Variable key_of : Row -> Key.
Variable get : Row -> Val.
Variable set : Val -> Row -> Row.

(** The columns written by [UPDATE ... SET] are not key columns, and they
    are exactly the columns read by the [SELECT]. *)
Hypothesis key_set : forall v r, key_of (set v r) = key_of r.
Hypothesis get_set : forall v r, get (set v r) = v.
Hypothesis set_get : forall r, set (get r) r = r.
Hypothesis set_set : forall v w r, set v (set w r) = set v r.

Local Notation "'rows_of' k t" :=
  (List.filter (fun r => bool_decide (key_of r = k)) t)
  (at level 10, k at level 9, t at level 9, only parsing).
Local Abbreviation select := (Sql.select_where key_of get).
Local Abbreviation update := (Sql.update_where key_of set).
Local Abbreviation swap := (Sql.swap_values key_of get set).

(** Settle the key tests of the goal from the hypotheses at hand. *)
Local Ltac settle_keys :=
  repeat match goal with
         | |- context [key_of (set ?v ?r)] => rewrite (key_set v r)
         | H : ?P |- context [bool_decide ?P] =>
             rewrite (bool_decide_eq_true_2 P H)
         | H : not ?P |- context [bool_decide ?P] =>
             rewrite (bool_decide_eq_false_2 P H)
         end.

(** A column that the update does not write keeps its values, row by row. *)
Lemma update_where_column {B} (col : Row -> B) k v t :
  (forall w r, col (set w r) = col r) ->
  map col (update k v t) = map col t.
Proof.
  intros Hcol. unfold Sql.update_where. rewrite map_map. apply map_ext.
  intros r. case_bool_decide; [apply Hcol|reflexivity].
Qed.

Lemma update_where_other k v t i r :
  t !! i = Some r -> key_of r <> k -> update k v t !! i = Some r.
Proof.
  intros Hi Hk. unfold Sql.update_where.
  rewrite list_lookup_fmap, Hi. cbn.
  now rewrite bool_decide_eq_false_2.
Qed.

Lemma update_where_untouched k v t :
  rows_of k t = [] -> update k v t = t.
Proof.
  intros Hnone. unfold Sql.update_where.
  rewrite <- (map_id t) at 2. apply map_ext_in.
  intros r Hr. case_bool_decide as Hk; [|reflexivity].
  assert (In r (rows_of k t)) as Hin.
  { apply filter_In. split; [exact Hr|]. now apply bool_decide_eq_true_2. }
  rewrite Hnone in Hin. destruct Hin.
Qed.

Lemma fetchone_select_none k t :
  Sql.fetchone (select k t) = None <-> rows_of k t = [].
Proof.
  unfold Sql.fetchone, Sql.select_where.
  destruct (rows_of k t); cbn; split; intros; congruence.
Qed.

(** Rows come and go nowhere: every column outside the [SET] list, the key
    columns among them, reads the same before and after, row by row. *)
Lemma swap_values_column {B} (col : Row -> B) k1 k2 t :
  (forall w r, col (set w r) = col r) ->
  map col (swap k1 k2 t) = map col t.
Proof.
  intros Hcol. unfold Sql.swap_values.
  destruct (Sql.fetchone (select k1 t)); [|reflexivity].
  destruct (Sql.fetchone (select k2 t)); [|reflexivity].
  now rewrite !update_where_column.
Qed.

(** Whether a key has rows can be read off the key column. *)
Lemma rows_of_nil k t : rows_of k t = [] <-> ~ In k (map key_of t).
Proof.
  induction t as [|r t IH]; cbn; [tauto|].
  case_bool_decide as Hk.
  - split; [discriminate|]. intros Hno. destruct Hno. now left.
  - rewrite IH. tauto.
Qed.

(** Rows stored under other keys are not written. *)
Lemma swap_values_other k1 k2 t i r :
  t !! i = Some r -> key_of r <> k1 -> key_of r <> k2 ->
  swap k1 k2 t !! i = Some r.
Proof.
  intros Hi H1 H2. unfold Sql.swap_values.
  destruct (Sql.fetchone (select k1 t)); [|exact Hi].
  destruct (Sql.fetchone (select k2 t)); [|exact Hi].
  apply update_where_other; [|exact H2].
  now apply update_where_other.
Qed.

(** Both keys must have a row, or nothing is written at all. *)
Lemma swap_values_needs_both k1 k2 t :
  rows_of k1 t = [] \/ rows_of k2 t = [] -> swap k1 k2 t = t.
Proof.
  intros Hnone. unfold Sql.swap_values.
  destruct (Sql.fetchone (select k1 t)) as [v1|] eqn:H1; [|reflexivity].
  destruct (Sql.fetchone (select k2 t)) as [v2|] eqn:H2; [|reflexivity].
  destruct Hnone as [Hnone|Hnone]; apply fetchone_select_none in Hnone; congruence.
Qed.

(** When the rows of a key agree on their values, every one of them holds
    the value that [fetchone] returns. *)
Lemma same_values_fetchone k t v :
  DisplayComponent.same_values get (rows_of k t) ->
  Sql.fetchone (select k t) = Some v ->
  forall r, In r t -> key_of r = k -> get r = v.
Proof.
  unfold Sql.fetchone, Sql.select_where, DisplayComponent.same_values.
  intros Hsame Hhead r Hr Hk.
  assert (In r (rows_of k t)) as Hin.
  { apply filter_In. split; [exact Hr|]. now apply bool_decide_eq_true_2. }
  destruct (rows_of k t) as [|r0 rest]; [destruct Hin|].
  cbn in Hhead. injection Hhead as <-.
  destruct Hin as [->|Hin]; [reflexivity|].
  rewrite Forall_forall in Hsame. apply Hsame. now apply list_elem_of_In.
Qed.

(** The first value under a key after a key-preserving rewrite of the
    rows. *)
Lemma fetchone_select_map (g : Row -> Row) k t :
  (forall r, key_of (g r) = key_of r) ->
  Sql.fetchone (select k (map g t))
  = (fun r => get (g r)) <$> head (rows_of k t).
Proof.
  intros Hg. unfold Sql.fetchone, Sql.select_where.
  induction t as [|r t IH]; [reflexivity|].
  cbn [map List.filter]. rewrite Hg.
  destruct (bool_decide (key_of r = k)); [reflexivity|exact IH].
Qed.

Lemma fetchone_select_head k t :
  Sql.fetchone (select k t) = get <$> head (rows_of k t).
Proof.
  unfold Sql.fetchone, Sql.select_where. now destruct (rows_of k t).
Qed.

(** Swapping twice gives the table back, provided the rows of each of the
    two keys agree on their values. *)
Lemma swap_values_twice k1 k2 t :
  DisplayComponent.same_values get (rows_of k1 t) ->
  DisplayComponent.same_values get (rows_of k2 t) ->
  swap k1 k2 (swap k1 k2 t) = t.
Proof.
  intros Hs1 Hs2. unfold Sql.swap_values at 2.
  destruct (Sql.fetchone (select k1 t)) as [v1|] eqn:H1;
    [|unfold Sql.swap_values; now rewrite H1].
  destruct (Sql.fetchone (select k2 t)) as [v2|] eqn:H2;
    [|unfold Sql.swap_values; now rewrite H1, H2].
  pose proof (same_values_fetchone k1 t v1 Hs1 H1) as U1.
  pose proof (same_values_fetchone k2 t v2 Hs2 H2) as U2.
  set (f := fun r =>
              let r' := if bool_decide (key_of r = k1) then set v2 r else r in
              if bool_decide (key_of r' = k2) then set v1 r' else r').
  assert (update k2 v1 (update k1 v2 t) = map f t) as ->.
  { unfold Sql.update_where. now rewrite map_map. }
  assert (forall r, key_of (f r) = key_of r) as Hf.
  { intros r. unfold f. cbn.
    repeat case_bool_decide; rewrite ?key_set; reflexivity. }
  unfold Sql.swap_values.
  rewrite !(fetchone_select_map f) by exact Hf.
  rewrite fetchone_select_head in H1, H2.
  destruct (head (rows_of k1 t)) as [r1|] eqn:Hr1; [|discriminate].
  destruct (head (rows_of k2 t)) as [r2|] eqn:Hr2; [|discriminate].
  injection H1 as H1. injection H2 as H2.
  assert (key_of r1 = k1) as Hk1.
  { apply head_Some_elem_of, list_elem_of_In, filter_In in Hr1 as [_ Hk].
    now apply bool_decide_eq_true_1 in Hk. }
  assert (key_of r2 = k2) as Hk2.
  { apply head_Some_elem_of, list_elem_of_In, filter_In in Hr2 as [_ Hk].
    now apply bool_decide_eq_true_1 in Hk. }
  cbn [fmap option_fmap option_map].
  unfold Sql.update_where. rewrite !map_map.
  rewrite <- (map_id t) at 2. apply map_ext_in. intros r Hr.
  destruct (decide (k1 = k2)) as [Hsame|Hne].
  - (* one key: every row under it already holds the value read *)
    assert (key_of r1 = k2) as Hk1' by congruence.
    assert (key_of r2 = k1) as Hk2' by congruence.
    assert (v2 = v1) as Hv.
    { rewrite <- H2. apply U1; [|exact Hk2'].
      apply head_Some_elem_of, list_elem_of_In, filter_In in Hr2 as [Hin _].
      exact Hin. }
    assert (get (f r1) = v1) as ->.
    { unfold f. cbn. settle_keys. apply get_set. }
    assert (get (f r2) = v1) as ->.
    { unfold f. cbn. settle_keys. apply get_set. }
    unfold f. cbn.
    destruct (decide (key_of r = k1)) as [Hk|Hk].
    + assert (key_of r = k2) by congruence. settle_keys.
      rewrite !set_set, <- (U1 r Hr Hk). apply set_get.
    + assert (key_of r <> k2) by congruence. now settle_keys.
  - (* two keys: the values have changed places, and change back *)
    assert (key_of r1 <> k2) as Hk1' by congruence.
    assert (key_of r2 <> k1) as Hk2' by congruence.
    assert (get (f r1) = v2) as ->.
    { unfold f. cbn. settle_keys. apply get_set. }
    assert (get (f r2) = v1) as ->.
    { unfold f. cbn. settle_keys. apply get_set. }
    unfold f. cbn.
    destruct (decide (key_of r = k1)) as [Hk|Hk];
      destruct (decide (key_of r = k2)) as [Hk'|Hk']; try congruence.
    + settle_keys. rewrite !set_set, <- (U1 r Hr Hk). apply set_get.
    + settle_keys. rewrite !set_set, <- (U2 r Hr Hk'). apply set_get.
    + now settle_keys.
Qed.

End TableFacts.

(** ** The cell swap, [update_db_with_cell_swap] *)

Section Swap.

Lemma schedule_key_set v r : schedule_key (schedule_set v r) = schedule_key r.
Proof. reflexivity. Qed.

Lemma schedule_get_set v r : schedule_get (schedule_set v r) = v.
Proof. now destruct v. Qed.

Lemma schedule_set_get r : schedule_set (schedule_get r) r = r.
Proof. now destruct r. Qed.

Lemma schedule_set_set v w r :
  schedule_set v (schedule_set w r) = schedule_set v r.
Proof. reflexivity. Qed.

Lemma lesson_key_set v r : lesson_key (lesson_set v r) = lesson_key r.
Proof. reflexivity. Qed.

Lemma lesson_get_set v r : lesson_get (lesson_set v r) = v.
Proof. now destruct v. Qed.

Lemma lesson_set_get r : lesson_set (lesson_get r) r = r.
Proof. now destruct r. Qed.

Lemma lesson_set_set v w r : lesson_set v (lesson_set w r) = lesson_set v r.
Proof. reflexivity. Qed.

(** The database after a swap whose two class indices have names. *)
Lemma swap_with_names class_names cell1 cell2 st name1 name2 :
  class_name_of_idx class_names (fst (fst cell1)) = Some name1 ->
  class_name_of_idx class_names (fst (fst cell2)) = Some name2 ->
  update_db_with_cell_swap class_names cell1 cell2 (Some st)
  = Some {| TIMETABLE_SETTINGS := TIMETABLE_SETTINGS st;
            SCHEDULE := swap_schedule name1 name2 cell1 cell2 (SCHEDULE st);
            SCHEDULED_LESSONS :=
              swap_lessons name1 name2 cell1 cell2 (SCHEDULED_LESSONS st);
            SUBJECTS := SUBJECTS st;
            SUBJECTS_has_COLOR := SUBJECTS_has_COLOR st;
            FACULTY := FACULTY st;
            LESSONS := LESSONS st;
            CLASS := CLASS st |}.
Proof. intros H1 H2. unfold update_db_with_cell_swap. now rewrite H1, H2. Qed.

Lemma swap_without_names class_names cell1 cell2 db :
  class_name_of_idx class_names (fst (fst cell1)) = None
  \/ class_name_of_idx class_names (fst (fst cell2)) = None ->
  update_db_with_cell_swap class_names cell1 cell2 db = db.
Proof.
  unfold update_db_with_cell_swap. intros [H|H]; rewrite H; [reflexivity|].
  now destruct (class_name_of_idx class_names (fst (fst cell1))).
Qed.

(** A swap always yields a database when there is one. *)
Lemma swap_total class_names cell1 cell2 st :
  exists st', update_db_with_cell_swap class_names cell1 cell2 (Some st) = Some st'.
Proof.
  unfold update_db_with_cell_swap.
  destruct (class_name_of_idx class_names (fst (fst cell1))); [|eauto].
  destruct (class_name_of_idx class_names (fst (fst cell2))); eauto.
Qed.

Lemma schedule_rows_named class_names cell st name :
  class_name_of_idx class_names (fst (fst cell)) = Some name ->
  schedule_rows_of class_names cell st
  = List.filter
      (fun r => bool_decide (schedule_key r = schedule_cell_key name cell))
      (SCHEDULE st).
Proof. intros H. unfold schedule_rows_of. now rewrite H. Qed.

Lemma lesson_rows_named class_names cell st name k :
  class_name_of_idx class_names (fst (fst cell)) = Some name ->
  lesson_cell_key name cell = Some k ->
  lesson_rows_of class_names cell st
  = List.filter (fun r => bool_decide (lesson_key r = k)) (SCHEDULED_LESSONS st).
Proof.
  intros H Hk. unfold lesson_rows_of. rewrite H, Hk.
  apply filter_ext. intros r. apply bool_decide_ext.
  split; congruence.
Qed.

(** The [SCHEDULE] table after a swap, whatever the class indices. *)
Lemma swap_schedule_cases class_names cell1 cell2 st st' :
  update_db_with_cell_swap class_names cell1 cell2 (Some st) = Some st' ->
  SCHEDULE st' = SCHEDULE st
  \/ exists name1 name2,
       class_name_of_idx class_names (fst (fst cell1)) = Some name1
       /\ class_name_of_idx class_names (fst (fst cell2)) = Some name2
       /\ SCHEDULE st'
          = Sql.swap_values schedule_key schedule_get schedule_set
              (schedule_cell_key name1 cell1) (schedule_cell_key name2 cell2)
              (SCHEDULE st).
Proof.
  unfold update_db_with_cell_swap.
  destruct (class_name_of_idx class_names (fst (fst cell1))) as [name1|];
    [|left; congruence].
  destruct (class_name_of_idx class_names (fst (fst cell2))) as [name2|];
    [|left; congruence].
  intros Heq. apply (inj Some) in Heq. subst st'. right. now exists name1, name2.
Qed.

(** The [SCHEDULED_LESSONS] table after a swap. *)
Lemma swap_lessons_cases class_names cell1 cell2 st st' :
  update_db_with_cell_swap class_names cell1 cell2 (Some st) = Some st' ->
  SCHEDULED_LESSONS st' = SCHEDULED_LESSONS st
  \/ exists name1 name2 k1 k2,
       class_name_of_idx class_names (fst (fst cell1)) = Some name1
       /\ class_name_of_idx class_names (fst (fst cell2)) = Some name2
       /\ lesson_cell_key name1 cell1 = Some k1
       /\ lesson_cell_key name2 cell2 = Some k2
       /\ SCHEDULED_LESSONS st'
          = Sql.swap_values lesson_key lesson_get lesson_set k1 k2
              (SCHEDULED_LESSONS st).
Proof.
  unfold update_db_with_cell_swap.
  destruct (class_name_of_idx class_names (fst (fst cell1))) as [name1|];
    [|left; congruence].
  destruct (class_name_of_idx class_names (fst (fst cell2))) as [name2|];
    [|left; congruence].
  intros Heq. apply (inj Some) in Heq. subst st'. cbn. unfold swap_lessons.
  destruct (lesson_cell_key name1 cell1) as [k1|] eqn:Hk1; [|now left].
  destruct (lesson_cell_key name2 cell2) as [k2|] eqn:Hk2; [|now left].
  right. now exists name1, name2, k1, k2.
Qed.

(** C10.  A schema in which one of the two cells has no row is left exactly
    as it was: the two updates of a schema are issued only when both reads
    returned a row. *)
Theorem swap_needs_both_rows class_names cell1 cell2 st st' :
  update_db_with_cell_swap class_names cell1 cell2 (Some st) = Some st' ->
  (schedule_rows_of class_names cell1 st = []
   \/ schedule_rows_of class_names cell2 st = [] ->
   SCHEDULE st' = SCHEDULE st)
  /\ (lesson_rows_of class_names cell1 st = []
      \/ lesson_rows_of class_names cell2 st = [] ->
      SCHEDULED_LESSONS st' = SCHEDULED_LESSONS st).
Proof.
  intros Hswap. split; intros Hnone.
  - destruct (swap_schedule_cases _ _ _ _ _ Hswap)
      as [Hsame|(name1 & name2 & H1 & H2 & ->)]; [exact Hsame|].
    rewrite (schedule_rows_named _ _ _ _ H1) in Hnone.
    rewrite (schedule_rows_named _ _ _ _ H2) in Hnone.
    now apply swap_values_needs_both.
  - destruct (swap_lessons_cases _ _ _ _ _ Hswap)
      as [Hsame|(name1 & name2 & k1 & k2 & H1 & H2 & Hk1 & Hk2 & ->)];
      [exact Hsame|].
    rewrite (lesson_rows_named _ _ _ _ _ H1 Hk1) in Hnone.
    rewrite (lesson_rows_named _ _ _ _ _ H2 Hk2) in Hnone.
    now apply swap_values_needs_both.
Qed.

Lemma swap_needs_both_rows_witness :
  update_db_with_cell_swap ["A"; "B"] (0, 0, 0)%nat (1, 1, 2)%nat (Some current_only)
  = Some current_only_swapped
  /\ length (lesson_rows_of ["A"; "B"] (0, 0, 0)%nat current_only) = 1%nat
  /\ lesson_rows_of ["A"; "B"] (1, 1, 2)%nat current_only = []
  /\ SCHEDULED_LESSONS current_only_swapped = SCHEDULED_LESSONS current_only.
Proof.
  assert (update_db_with_cell_swap ["A"; "B"] (0, 0, 0)%nat (1, 1, 2)%nat
            (Some current_only) = Some current_only_swapped) as Hswap
    by reflexivity.
  destruct (swap_needs_both_rows _ _ _ _ _ Hswap) as [_ Hlessons].
  split; [exact Hswap|]. split; [reflexivity|]. split; [reflexivity|].
  apply Hlessons. right. reflexivity.
Defined.

(** Rows matching a test on a column stay none when the column is
    unchanged. *)
Lemma filter_nil_by_column {Row B} (col : Row -> B) (P : B -> bool)
    (t t' : list Row) :
  map col t' = map col t ->
  List.filter (fun r => P (col r)) t = [] ->
  List.filter (fun r => P (col r)) t' = [].
Proof.
  revert t'. induction t as [|r t IH]; intros [|r' t'] Hcol;
    try discriminate; [reflexivity|].
  cbn in *. injection Hcol as Hr Hrest. rewrite Hr.
  destruct (P (col r)); [discriminate|]. now apply IH.
Qed.

Lemma swap_schedule_column {B} (col : ScheduleRow -> B)
    class_names cell1 cell2 st st' :
  (forall w r, col (schedule_set w r) = col r) ->
  update_db_with_cell_swap class_names cell1 cell2 (Some st) = Some st' ->
  map col (SCHEDULE st') = map col (SCHEDULE st).
Proof.
  intros Hcol Hswap.
  destruct (swap_schedule_cases _ _ _ _ _ Hswap)
    as [->|(name1 & name2 & _ & _ & ->)]; [reflexivity|].
  now apply swap_values_column.
Qed.

Lemma swap_lessons_column {B} (col : LessonRow -> B)
    class_names cell1 cell2 st st' :
  (forall w r, col (lesson_set w r) = col r) ->
  update_db_with_cell_swap class_names cell1 cell2 (Some st) = Some st' ->
  map col (SCHEDULED_LESSONS st') = map col (SCHEDULED_LESSONS st).
Proof.
  intros Hcol Hswap.
  destruct (swap_lessons_cases _ _ _ _ _ Hswap)
    as [->|(name1 & name2 & k1 & k2 & _ & _ & _ & _ & ->)]; [reflexivity|].
  now apply swap_values_column.
Qed.

(** C8.  A swap writes value columns of rows that exist and nothing else:
    both schedule tables keep their rows, identified by id and by
    (section, day, period), position by position; a row that belongs to
    neither of the two cells is unchanged; a cell that has no row in a schema
    has none afterwards; and the other tables are not touched. *)
Theorem swap_only_overwrites class_names cell1 cell2 st :
  exists st',
    update_db_with_cell_swap class_names cell1 cell2 (Some st) = Some st'
    /\ map (fun r => (sch_id r, schedule_key r)) (SCHEDULE st')
       = map (fun r => (sch_id r, schedule_key r)) (SCHEDULE st)
    /\ map (fun r => (sl_schedule_id r, lesson_key r)) (SCHEDULED_LESSONS st')
       = map (fun r => (sl_schedule_id r, lesson_key r)) (SCHEDULED_LESSONS st)
    /\ (forall i r,
          SCHEDULE st !! i = Some r ->
          ~ In r (schedule_rows_of class_names cell1 st) ->
          ~ In r (schedule_rows_of class_names cell2 st) ->
          SCHEDULE st' !! i = Some r)
    /\ (forall i r,
          SCHEDULED_LESSONS st !! i = Some r ->
          ~ In r (lesson_rows_of class_names cell1 st) ->
          ~ In r (lesson_rows_of class_names cell2 st) ->
          SCHEDULED_LESSONS st' !! i = Some r)
    /\ (forall cell,
          schedule_rows_of class_names cell st = [] ->
          schedule_rows_of class_names cell st' = [])
    /\ (forall cell,
          lesson_rows_of class_names cell st = [] ->
          lesson_rows_of class_names cell st' = [])
    /\ (TIMETABLE_SETTINGS st', SUBJECTS st', FACULTY st', LESSONS st', CLASS st')
       = (TIMETABLE_SETTINGS st, SUBJECTS st, FACULTY st, LESSONS st, CLASS st).
Proof.
  destruct (swap_total class_names cell1 cell2 st) as [st' Hswap].
  exists st'. split; [exact Hswap|].
  split.
  { exact (swap_schedule_column (fun r => (sch_id r, schedule_key r))
             _ _ _ _ _ (fun _ _ => eq_refl) Hswap). }
  split.
  { exact (swap_lessons_column (fun r => (sl_schedule_id r, lesson_key r))
             _ _ _ _ _ (fun _ _ => eq_refl) Hswap). }
  split; [|split; [|split; [|split]]].
  - intros i r Hi Hn1 Hn2.
    destruct (swap_schedule_cases _ _ _ _ _ Hswap)
      as [->|(name1 & name2 & H1 & H2 & ->)]; [exact Hi|].
    assert (In r (SCHEDULE st)) as Hin
      by (apply list_elem_of_In, list_elem_of_lookup; eauto).
    rewrite (schedule_rows_named _ _ _ _ H1) in Hn1.
    rewrite (schedule_rows_named _ _ _ _ H2) in Hn2.
    apply swap_values_other; [exact Hi| |].
    + intros Hk. apply Hn1, filter_In. split; [exact Hin|].
      now apply bool_decide_eq_true_2.
    + intros Hk. apply Hn2, filter_In. split; [exact Hin|].
      now apply bool_decide_eq_true_2.
  - intros i r Hi Hn1 Hn2.
    destruct (swap_lessons_cases _ _ _ _ _ Hswap)
      as [->|(name1 & name2 & k1 & k2 & H1 & H2 & Hk1 & Hk2 & ->)];
      [exact Hi|].
    assert (In r (SCHEDULED_LESSONS st)) as Hin
      by (apply list_elem_of_In, list_elem_of_lookup; eauto).
    rewrite (lesson_rows_named _ _ _ _ _ H1 Hk1) in Hn1.
    rewrite (lesson_rows_named _ _ _ _ _ H2 Hk2) in Hn2.
    apply swap_values_other; [exact Hi| |].
    + intros Hk. apply Hn1, filter_In. split; [exact Hin|].
      now apply bool_decide_eq_true_2.
    + intros Hk. apply Hn2, filter_In. split; [exact Hin|].
      now apply bool_decide_eq_true_2.
  - intros cell. unfold schedule_rows_of.
    destruct (class_name_of_idx class_names (fst (fst cell))) as [name|];
      [|reflexivity].
    pose (P := fun k : string * Z * Z =>
                 bool_decide (k = schedule_cell_key name cell)).
    apply (filter_nil_by_column schedule_key P).
    exact (swap_schedule_column schedule_key _ _ _ _ _ (fun _ _ => eq_refl) Hswap).
  - intros cell. unfold lesson_rows_of.
    destruct (class_name_of_idx class_names (fst (fst cell))) as [name|];
      [|reflexivity].
    pose (P := fun k : string * string * Z =>
                 bool_decide (Some k = lesson_cell_key name cell)).
    apply (filter_nil_by_column lesson_key P).
    exact (swap_lessons_column lesson_key _ _ _ _ _ (fun _ _ => eq_refl) Hswap).
  - unfold update_db_with_cell_swap in Hswap.
    destruct (class_name_of_idx class_names (fst (fst cell1)));
      [|now injection Hswap as <-].
    destruct (class_name_of_idx class_names (fst (fst cell2)));
      now injection Hswap as <-.
Qed.

(** The scenario of the specification: the second cell has no legacy row, so
    only the current-schema rows exchange their values and no legacy row
    appears. *)
Example swap_can_be_partial :
  update_db_with_cell_swap ["A"; "B"] (0, 0, 0)%nat (1, 1, 2)%nat (Some current_only)
  = Some current_only_swapped.
Proof. reflexivity. Qed.

(** C7 (amended).  Swapping the same two cells twice gives the database
    back, provided that in each schema the rows stored for each of the two
    cells agree on their subject and faculty columns, as they do when a cell
    has at most one row per schema. *)
Theorem swap_twice_restores class_names cell1 cell2 st :
  cell_single_valued class_names cell1 st ->
  cell_single_valued class_names cell2 st ->
  update_db_with_cell_swap class_names cell1 cell2
    (update_db_with_cell_swap class_names cell1 cell2 (Some st))
  = Some st.
Proof.
  intros [Hs1 Hl1] [Hs2 Hl2].
  destruct (class_name_of_idx class_names (fst (fst cell1))) as [name1|] eqn:H1;
    [|now rewrite !swap_without_names by now left].
  destruct (class_name_of_idx class_names (fst (fst cell2))) as [name2|] eqn:H2;
    [|now rewrite !swap_without_names by now right].
  rewrite (swap_with_names _ _ _ st _ _ H1 H2).
  rewrite (swap_with_names _ _ _ _ _ _ H1 H2). cbn.
  rewrite (schedule_rows_named _ _ _ _ H1) in Hs1.
  rewrite (schedule_rows_named _ _ _ _ H2) in Hs2.
  assert (swap_schedule name1 name2 cell1 cell2
            (swap_schedule name1 name2 cell1 cell2 (SCHEDULE st))
          = SCHEDULE st) as ->.
  { unfold swap_schedule.
    apply swap_values_twice;
      auto using schedule_key_set, schedule_get_set, schedule_set_get,
        schedule_set_set. }
  assert (swap_lessons name1 name2 cell1 cell2
            (swap_lessons name1 name2 cell1 cell2 (SCHEDULED_LESSONS st))
          = SCHEDULED_LESSONS st) as ->.
  { unfold swap_lessons.
    destruct (lesson_cell_key name1 cell1) as [k1|] eqn:Hk1; [|reflexivity].
    destruct (lesson_cell_key name2 cell2) as [k2|] eqn:Hk2; [|reflexivity].
    rewrite (lesson_rows_named _ _ _ _ _ H1 Hk1) in Hl1.
    rewrite (lesson_rows_named _ _ _ _ _ H2 Hk2) in Hl2.
    apply swap_values_twice;
      auto using lesson_key_set, lesson_get_set, lesson_set_get,
        lesson_set_set. }
  now destruct st.
Qed.

Lemma swap_twice_restores_witness :
  update_db_with_cell_swap ["A"; "B"] (0, 0, 0)%nat (1, 1, 2)%nat
    (Some current_only) = Some current_only_swapped
  /\ update_db_with_cell_swap ["A"; "B"] (0, 0, 0)%nat (1, 1, 2)%nat
       (update_db_with_cell_swap ["A"; "B"] (0, 0, 0)%nat (1, 1, 2)%nat
          (Some current_only))
     = Some current_only.
Proof.
  split; [reflexivity|].
  apply (swap_twice_restores ["A"; "B"] (0, 0, 0)%nat (1, 1, 2)%nat current_only);
    vm_compute; split; constructor.
Defined.

(** C7 (counterexample).  The cells (A, Monday, 0) and (B, Monday, 0) are
    distinct and valid.  The first swap overwrites both rows of A with the
    lesson of B, the second gives both the lesson that B received, and the
    lesson PH/XY of the second row is lost. *)
Lemma swap_twice_loses_duplicate_row :
  update_db_with_cell_swap ["A"; "B"] (0, 0, 0)%nat (1, 0, 0)%nat
    (update_db_with_cell_swap ["A"; "B"] (0, 0, 0)%nat (1, 0, 0)%nat
       (Some duplicate_rows))
  = Some (with_lessons
            [sched_row "1" "A" 0 0 "MA" "JD"; sched_row "2" "A" 0 0 "MA" "JD";
             sched_row "3" "B" 0 0 "CH" "ZZ"]
            [] [] [])
  /\ update_db_with_cell_swap ["A"; "B"] (0, 0, 0)%nat (1, 0, 0)%nat
       (update_db_with_cell_swap ["A"; "B"] (0, 0, 0)%nat (1, 0, 0)%nat
          (Some duplicate_rows))
     <> Some duplicate_rows.
Proof. split; [reflexivity|]. vm_compute. discriminate. Qed.

End Swap.

(** ** The span bookkeeping of [load_data] *)

Section Spans.

Open Scope nat_scope.

Lemma colspan_of_cases lesson_type p n :
  (colspan_of lesson_type p n = 2 /\ lesson_type = "Double" /\ p + 1 < n)
  \/ (colspan_of lesson_type p n = 3 /\ lesson_type = "Triple" /\ p + 2 < n)
  \/ (colspan_of lesson_type p n = 1
      /\ ~ (lesson_type = "Double" /\ p + 1 < n)
      /\ ~ (lesson_type = "Triple" /\ p + 2 < n)).
Proof.
  unfold colspan_of.
  destruct (String.eqb_spec lesson_type "Double") as [Hd|Hd];
    destruct (String.eqb_spec lesson_type "Triple") as [Ht|Ht];
    destruct (Nat.ltb_spec p (n - 1)); destruct (Nat.ltb_spec p (n - 2));
    cbn; try (exfalso; congruence); try (exfalso; lia);
    first
      [ left; repeat split; (reflexivity || assumption || lia)
      | right; left; repeat split; (reflexivity || assumption || lia)
      | right; right; split;
        [ reflexivity | split; intros [? ?]; (lia || congruence) ] ].
Qed.

Lemma colspan_of_bounds lesson_type p n :
  p < n -> 1 <= colspan_of lesson_type p n /\ p + colspan_of lesson_type p n <= n.
Proof.
  intros Hp.
  destruct (colspan_of_cases lesson_type p n)
    as [(-> & _ & ?)|[(-> & _ & ?)|(-> & _ & _)]]; lia.
Qed.

Lemma covers_spec c d q sp :
  covers c d q sp = true
  <-> sp_class sp = c /\ sp_day sp = d
      /\ sp_period sp <= q < sp_period sp + sp_colspan sp.
Proof.
  unfold covers. rewrite !andb_true_iff, !bool_decide_eq_true.
  rewrite Nat.leb_le, Nat.ltb_lt. tauto.
Qed.

Lemma scan_invariant_start num_periods :
  scan_invariant num_periods (0, 0, 0)
    {| processed_cells := ∅; forgotten := ∅; spans := [] |}.
Proof.
  split; cbn; intros; try contradiction; try lia.
  now apply not_elem_of_empty in H.
Qed.

(** The scan may move on to any later position. *)
Lemma scan_invariant_advance num_periods pos pos' r :
  (forall a, before a pos -> before a pos') ->
  scan_invariant num_periods pos r -> scan_invariant num_periods pos' r.
Proof.
  intros Hpos [H1 H2 H3 H4 H6 H5]. split; auto.
Qed.

Lemma following_cells c d p n q :
  (c, d, q) ∈ (list_to_set
                 (map (fun i => (c, d, p + i)) (seq 1 (n - 1))) : gset Cell)
  <-> exists k, 1 <= k < n /\ q = p + k.
Proof.
  rewrite elem_of_list_to_set, list_elem_of_In, in_map_iff.
  split.
  - intros (k & Heq & Hk). apply in_seq in Hk. exists k.
    split; [lia|congruence].
  - intros (k & Hk & ->). exists k. split; [reflexivity|].
    apply in_seq. lia.
Qed.

(** One turn of the loop over the periods of a day. *)
Lemma render_period_invariant num_periods row c d p period_data r :
  scan_invariant num_periods (c, d, p) r ->
  scan_invariant num_periods (c, d, S p)
    (render_period num_periods row c d p period_data r).
Proof.
  intros Hinv.
  assert (scan_invariant num_periods (c, d, S p) r) as Hskip.
  { apply (scan_invariant_advance _ (c, d, p)); [|exact Hinv].
    intros [[a b] q]. cbn. lia. }
  unfold render_period.
  destruct period_data as [lesson|]; [|exact Hskip].
  destruct (Nat.ltb_spec p num_periods) as [Hp|]; [|exact Hskip].
  case_bool_decide as Hseen; [exact Hskip|]. cbn [negb andb].
  destruct Hinv as [H1 H2 H3 H4 H6 H5].
  pose proof (colspan_of_bounds (lesson_type lesson) p num_periods Hp) as [Hlo Hhi].
  split; cbn [spans processed_cells forgotten].
  - intros sp Hsp. apply in_app_or in Hsp as [Hsp|[<-|[]]]; [auto|].
    cbn. split; [exact Hp|reflexivity].
  - intros sp q Hsp Hq. apply in_app_or in Hsp as [Hsp|[<-|[]]].
    + apply elem_of_union_l, elem_of_union_l. now apply H2.
    + cbn in *. destruct (decide (q = p)) as [->|Hne].
      * now apply elem_of_union_r, elem_of_singleton.
      * apply elem_of_union_l, elem_of_union_r, following_cells.
        exists (q - p). lia.
  - intros sp k Hsp Hk. apply in_app_or in Hsp as [Hsp|[<-|[]]].
    + apply elem_of_union_l. now apply H3.
    + cbn in *. apply elem_of_union_r, following_cells. now exists k.
  - intros sp Hsp. apply in_app_or in Hsp as [Hsp|[<-|[]]].
    + specialize (H4 sp Hsp). destruct sp as [a b q ? ?].
      unfold start_of, before in *. cbn in *. lia.
    + cbn. lia.
  - intros c' d' q Hq.
    apply elem_of_union in Hq as [Hq|Hq]; [apply elem_of_union in Hq as [Hq|Hq]|].
    + destruct (H6 c' d' q Hq) as (sp & Hsp & Hcov).
      exists sp. split; [apply in_or_app; now left|exact Hcov].
    + eexists. split; [apply in_or_app; right; now left|].
      assert ((c', d') = (c, d)) as Hcd.
      { apply elem_of_list_to_set, list_elem_of_In, in_map_iff in Hq
          as (k & Heq & _). congruence. }
      injection Hcd as -> ->.
      apply following_cells in Hq as (k & Hk & ->).
      apply covers_spec. cbn. lia.
    + apply elem_of_singleton in Hq. injection Hq as -> -> ->.
      eexists. split; [apply in_or_app; right; now left|].
      apply covers_spec. cbn. lia.
  - intros c' d' q. rewrite List.filter_app, length_app. cbn [List.filter].
    destruct (covers c' d' q _) eqn:Hnew; [|cbn; specialize (H5 c' d' q); lia].
    apply covers_spec in Hnew. cbn in Hnew. destruct Hnew as (<- & <- & Hq).
    assert (List.filter (covers c d q) (spans r) = []) as ->; [|cbn; lia].
    destruct (List.filter (covers c d q) (spans r)) as [|sp rest] eqn:Hold;
      [reflexivity|].
    assert (In sp (List.filter (covers c d q) (spans r))) as Hin
      by (rewrite Hold; now left).
    apply filter_In in Hin as [Hsp Hcov].
    apply covers_spec in Hcov as (Hc & Hd & Hq').
    pose proof (H4 sp Hsp) as Hbefore.
    unfold start_of, before in Hbefore. rewrite Hc, Hd in Hbefore.
    assert (sp_period sp <= p < sp_period sp + sp_colspan sp) as Hp' by lia.
    specialize (H2 sp p Hsp Hp'). rewrite Hc, Hd in H2. contradiction.
Qed.

Lemma render_day_invariant num_periods row c d day_data : forall p r,
  scan_invariant num_periods (c, d, p) r ->
  scan_invariant num_periods (c, d, p + length day_data)
    (render_day num_periods row c d p day_data r).
Proof.
  induction day_data as [|period_data rest IH]; intros p r Hinv; cbn.
  - now rewrite Nat.add_0_r.
  - replace (p + S (length rest)) with (S p + length rest) by lia.
    apply IH. now apply render_period_invariant.
Qed.

(** One turn of the loop over the days of a class. *)
Lemma render_class_step_invariant num_periods row c d day
    (class_data : gmap string (list (option Lesson))) r :
  scan_invariant num_periods (c, d, 0) r ->
  scan_invariant num_periods (c, S d, 0)
    (match class_data !! day with
     | Some day_data => render_day num_periods row c d 0 day_data r
     | None => r
     end).
Proof.
  intros Hinv. destruct (class_data !! day) as [day_data|].
  - apply (scan_invariant_advance _ (c, d, 0 + length day_data)).
    + intros [[a b] q]. cbn. lia.
    + now apply render_day_invariant.
  - apply (scan_invariant_advance _ (c, d, 0)); [|exact Hinv].
    intros [[a b] q]. cbn. lia.
Qed.

Lemma render_class_invariant num_periods row c days class_data : forall d r,
  scan_invariant num_periods (c, d, 0) r ->
  scan_invariant num_periods (c, d + length days, 0)
    (render_class num_periods row c d days class_data r).
Proof.
  induction days as [|day rest IH]; intros d r Hinv; cbn.
  - now rewrite Nat.add_0_r.
  - replace (d + S (length rest)) with (S d + length rest) by lia.
    apply IH. now apply render_class_step_invariant.
Qed.

(** One turn of the loop over the classes. *)
Lemma render_classes_step_invariant num_periods row c class_name days
    (timetable_data : Grid) r :
  scan_invariant num_periods (c, 0, 0) r ->
  scan_invariant num_periods (S c, 0, 0)
    (match timetable_data !! class_name with
     | Some class_data => render_class num_periods row c 0 days class_data r
     | None => r
     end).
Proof.
  intros Hinv. destruct (timetable_data !! class_name) as [class_data|].
  - apply (scan_invariant_advance _ (c, 0 + length days, 0)).
    + intros [[a b] q]. cbn. lia.
    + now apply render_class_invariant.
  - apply (scan_invariant_advance _ (c, 0, 0)); [|exact Hinv].
    intros [[a b] q]. cbn. lia.
Qed.

Lemma render_classes_invariant num_periods row days (timetable_data : Grid)
    class_names : forall c r,
  scan_invariant num_periods (c, 0, 0) r ->
  scan_invariant num_periods (c + length class_names, 0, 0)
    (render_classes num_periods row c class_names days timetable_data r).
Proof.
  induction class_names as [|class_name rest IH]; intros c r Hinv; cbn.
  - now rewrite Nat.add_0_r.
  - replace (c + S (length rest)) with (S c + length rest) by lia.
    apply IH. now apply render_classes_step_invariant.
Qed.

Lemma load_data_invariant class_names days num_periods (timetable_data : Grid) :
  scan_invariant num_periods (length class_names, 0, 0)
    (load_data class_names days num_periods timetable_data).
Proof.
  unfold load_data.
  destruct (regrid_row _ _ _) as [row|].
  - apply (render_classes_invariant _ _ _ _ class_names 0).
    apply scan_invariant_start.
  - apply (scan_invariant_advance _ (0, 0, 0)); [|apply scan_invariant_start].
    intros [[a b] q]. cbn. lia.
Qed.

(** Cells once drawn stay drawn. *)
Lemma render_period_grows num_periods row c d p period_data r sp :
  In sp (spans r) -> In sp (spans (render_period num_periods row c d p period_data r)).
Proof.
  intros Hsp. unfold render_period.
  destruct period_data; [|exact Hsp].
  destruct (_ && _); [|exact Hsp].
  cbn. apply in_or_app. now left.
Qed.

Lemma render_day_grows num_periods row c d day_data sp : forall p r,
  In sp (spans r) -> In sp (spans (render_day num_periods row c d p day_data r)).
Proof.
  induction day_data as [|period_data rest IH]; intros p r Hsp; [exact Hsp|].
  cbn. apply IH. now apply render_period_grows.
Qed.

Lemma render_class_grows num_periods row c days class_data sp : forall d r,
  In sp (spans r) -> In sp (spans (render_class num_periods row c d days class_data r)).
Proof.
  induction days as [|day rest IH]; intros d r Hsp; [exact Hsp|].
  cbn. apply IH. destruct (class_data !! day); [|exact Hsp].
  now apply render_day_grows.
Qed.

Lemma render_classes_grows num_periods row days (timetable_data : Grid)
    class_names sp : forall c r,
  In sp (spans r) ->
  In sp (spans (render_classes num_periods row c class_names days timetable_data r)).
Proof.
  induction class_names as [|class_name rest IH]; intros c r Hsp; [exact Hsp|].
  cbn. apply IH. destruct (timetable_data !! class_name); [|exact Hsp].
  now apply render_class_grows.
Qed.

(** A lesson slot inside the grid lies under a drawn cell once the scan has
    passed it: its own, or one that started to its left. *)
Lemma render_period_covers num_periods row c d p lesson r :
  scan_invariant num_periods (c, d, p) r -> p < num_periods ->
  exists sp,
    In sp (spans (render_period num_periods row c d p (Some lesson) r))
    /\ covers c d p sp = true.
Proof.
  intros Hinv Hp. unfold render_period.
  destruct (Nat.ltb_spec p num_periods) as [_|]; [|lia].
  case_bool_decide as Hseen; cbn [negb andb].
  - now apply (inv_covered _ _ _ Hinv).
  - eexists. split; [cbn; apply in_or_app; right; now left|].
    apply covers_spec. cbn.
    pose proof (colspan_of_bounds (lesson_type lesson) p num_periods Hp). lia.
Qed.

Lemma render_day_covers num_periods row c d day_data : forall p r j lesson,
  scan_invariant num_periods (c, d, p) r ->
  day_data !! j = Some (Some lesson) -> p + j < num_periods ->
  exists sp,
    In sp (spans (render_day num_periods row c d p day_data r))
    /\ covers c d (p + j) sp = true.
Proof.
  induction day_data as [|period_data rest IH]; intros p r j lesson Hinv Hj Hp;
    [discriminate|].
  destruct j as [|j]; cbn in *.
  - injection Hj as ->. rewrite Nat.add_0_r.
    destruct (render_period_covers num_periods row c d p lesson r Hinv)
      as (sp & Hsp & Hcov); [lia|].
    exists sp. split; [now apply render_day_grows|exact Hcov].
  - replace (p + S j) with (S p + j) by lia.
    apply (IH (S p) _ j lesson); [|exact Hj|lia].
    now apply render_period_invariant.
Qed.

Lemma render_class_covers num_periods row c days
    (class_data : gmap string (list (option Lesson))) :
  forall d r j day day_data q lesson,
  scan_invariant num_periods (c, d, 0) r ->
  days !! j = Some day -> class_data !! day = Some day_data ->
  day_data !! q = Some (Some lesson) -> q < num_periods ->
  exists sp,
    In sp (spans (render_class num_periods row c d days class_data r))
    /\ covers c (d + j) q sp = true.
Proof.
  induction days as [|day0 rest IH];
    intros d r j day day_data q lesson Hinv Hj Hday Hq Hlt; [discriminate|].
  destruct j as [|j]; cbn in *.
  - injection Hj as ->. rewrite Hday, Nat.add_0_r.
    destruct (render_day_covers num_periods row c d day_data 0 r q lesson Hinv Hq)
      as (sp & Hsp & Hcov); [lia|].
    exists sp. split; [now apply render_class_grows|exact Hcov].
  - replace (d + S j) with (S d + j) by lia.
    apply (IH (S d) _ j day day_data q lesson); auto.
    now apply render_class_step_invariant.
Qed.

Lemma render_classes_covers num_periods row days (timetable_data : Grid)
    class_names :
  forall c r i class_name class_data j day day_data q lesson,
  scan_invariant num_periods (c, 0, 0) r ->
  class_names !! i = Some class_name ->
  timetable_data !! class_name = Some class_data ->
  days !! j = Some day -> class_data !! day = Some day_data ->
  day_data !! q = Some (Some lesson) -> q < num_periods ->
  exists sp,
    In sp (spans (render_classes num_periods row c class_names days timetable_data r))
    /\ covers (c + i) j q sp = true.
Proof.
  induction class_names as [|class0 rest IH];
    intros c r i class_name class_data j day day_data q lesson
      Hinv Hi Hclass Hj Hday Hq Hlt; [discriminate|].
  destruct i as [|i]; cbn in *.
  - injection Hi as ->. rewrite Hclass, Nat.add_0_r.
    destruct (render_class_covers num_periods row c days class_data 0 r j day
                day_data q lesson Hinv Hj Hday Hq Hlt) as (sp & Hsp & Hcov).
    exists sp. split; [now apply render_classes_grows|exact Hcov].
  - replace (c + S i) with (S c + i) by lia.
    apply (IH (S c) _ i class_name class_data j day day_data q lesson); auto.
    now apply render_classes_step_invariant.
Qed.

(** Two different spans that pass a test make two entries of the filtered
    list. *)
Lemma filter_two {A} (f : A -> bool) (x y : A) (l : list A) :
  In x l -> In y l -> x <> y -> f x = true -> f y = true ->
  2 <= length (List.filter f l).
Proof.
  intros Hx Hy Hne Hfx Hfy.
  induction l as [|a l IH]; [destruct Hx|]. cbn.
  destruct Hx as [->|Hx]; destruct Hy as [->|Hy].
  - congruence.
  - rewrite Hfx. cbn.
    assert (In y (List.filter f l)) as Hin by (apply filter_In; auto).
    destruct (List.filter f l); [destruct Hin|cbn; lia].
  - rewrite Hfy. cbn.
    assert (In x (List.filter f l)) as Hin by (apply filter_In; auto).
    destruct (List.filter f l); [destruct Hin|cbn; lia].
  - specialize (IH Hx Hy). destruct (f a); cbn; lia.
Qed.

(** The variable [row] after the loops that grid every frame anew: the row
    of the last class, when there is a class, a day and a period. *)
Lemma regrid_row_spec num_classes num_days num_periods :
  regrid_row num_classes num_days num_periods
  = if (0 <? num_classes) && (0 <? num_days) && (0 <? num_periods)
    then Some (2 + (num_classes - 1)) else None.
Proof.
  unfold regrid_row.
  assert (forall v row n,
             foldl (fun (_ : option nat) (_ : nat) => Some v) row (seq 0 n)
             = if 0 <? n then Some v else row) as Hinner.
  { intros v row n. induction n as [|n IH]; [reflexivity|].
    rewrite seq_S, foldl_app. reflexivity. }
  assert (forall v row n,
             foldl
               (fun row (_ : nat) =>
                  foldl (fun (_ : option nat) (_ : nat) => Some v) row
                    (seq 0 num_periods))
               row (seq 0 n)
             = if (0 <? n) && (0 <? num_periods) then Some v else row)
    as Hmiddle.
  { intros v row n. induction n as [|n IH]; [reflexivity|].
    rewrite seq_S, foldl_app, IH. cbn [foldl]. rewrite Hinner.
    destruct num_periods; [now rewrite andb_false_r|].
    cbn. now destruct n. }
  induction num_classes as [|n IH]; [reflexivity|].
  rewrite seq_S, foldl_app, IH. cbn [foldl]. rewrite Hmiddle.
  replace (S n - 1) with n by lia. cbn [Nat.ltb Nat.leb andb Nat.add].
  destruct num_days, num_periods; cbn;
    rewrite ?andb_false_r; cbn; try reflexivity.
Qed.

(** A lesson slot inside the grid lies under the key span of a drawn
    cell. *)
Lemma load_data_covers class_names days num_periods (timetable_data : Grid)
    c class_name class_data d day day_data q lesson :
  class_names !! c = Some class_name ->
  timetable_data !! class_name = Some class_data ->
  days !! d = Some day -> class_data !! day = Some day_data ->
  day_data !! q = Some (Some lesson) -> q < num_periods ->
  exists sp,
    In sp (spans (load_data class_names days num_periods timetable_data))
    /\ covers c d q sp = true.
Proof.
  intros Hc Hclass Hd Hday Hq Hlt. unfold load_data.
  rewrite regrid_row_spec.
  apply lookup_lt_Some in Hc as Hnc. apply lookup_lt_Some in Hd as Hnd.
  destruct (Nat.ltb_spec 0 (length class_names)); [|lia].
  destruct (Nat.ltb_spec 0 (length days)); [|lia].
  destruct (Nat.ltb_spec 0 num_periods); [|lia].
  cbn [andb].
  apply (render_classes_covers num_periods _ days timetable_data class_names
           0 _ c class_name class_data d day day_data q lesson
           (scan_invariant_start num_periods) Hc Hclass Hd Hday Hq Hlt).
Qed.

(** In terms of frame keys the bookkeeping of the scan is sound: every
    drawn cell starts inside the grid and is given two columns when its
    lesson is a Double with one more period left, three when it is a Triple
    with two more periods left, and one otherwise; it ends inside the grid;
    the keys it runs over are marked as processed, taken off the grid, and
    start no cell of their own; no period of a class and day lies in the
    column span of two drawn cells; and a slot of the grid that holds a
    lesson lies in exactly one. *)
Lemma span_keys_do_not_overlap class_names days num_periods (timetable_data : Grid) :
  let r := load_data class_names days num_periods timetable_data in
  (forall sp, In sp (spans r) ->
     let kind := lesson_type (sp_lesson sp) in
     let p := sp_period sp in
     p < num_periods
     /\ ((sp_colspan sp = 2 /\ kind = "Double" /\ p + 1 < num_periods)
         \/ (sp_colspan sp = 3 /\ kind = "Triple" /\ p + 2 < num_periods)
         \/ (sp_colspan sp = 1
             /\ ~ (kind = "Double" /\ p + 1 < num_periods)
             /\ ~ (kind = "Triple" /\ p + 2 < num_periods)))
     /\ p + sp_colspan sp <= num_periods
     /\ (forall k, 1 <= k < sp_colspan sp ->
           (sp_class sp, sp_day sp, p + k) ∈ processed_cells r
           /\ (sp_class sp, sp_day sp, p + k) ∈ forgotten r
           /\ forall sp', In sp' (spans r) ->
                start_of sp' <> (sp_class sp, sp_day sp, p + k)))
  /\ (forall c d q, length (List.filter (covers c d q) (spans r)) <= 1)
  /\ (forall c class_name class_data d day day_data q lesson,
        class_names !! c = Some class_name ->
        timetable_data !! class_name = Some class_data ->
        days !! d = Some day -> class_data !! day = Some day_data ->
        day_data !! q = Some (Some lesson) -> q < num_periods ->
        length (List.filter (covers c d q) (spans r)) = 1).
Proof.
  cbn zeta.
  destruct (load_data_invariant class_names days num_periods timetable_data)
    as [H1 H2 H3 H4 H6 H5].
  split; [|split; [exact H5|]]; cycle 1.
  { intros c class_name class_data d day day_data q lesson Hc Hclass Hd Hday Hq Hlt.
    destruct (load_data_covers class_names days num_periods timetable_data
                c class_name class_data d day day_data q lesson
                Hc Hclass Hd Hday Hq Hlt) as (sp & Hsp & Hcov).
    specialize (H5 c d q).
    assert (In sp (List.filter (covers c d q)
                     (spans (load_data class_names days num_periods timetable_data))))
      as Hin by (apply filter_In; auto).
    destruct (List.filter (covers c d q) _); [destruct Hin|cbn in *; lia]. }
  intros sp Hsp. destruct (H1 sp Hsp) as [Hp Hspan].
  split; [exact Hp|].
  split; [rewrite Hspan; apply colspan_of_cases|].
  split; [rewrite Hspan; now apply colspan_of_bounds|].
  intros k Hk.
  split; [apply H2; [exact Hsp|lia]|].
  split; [now apply H3|].
  intros sp' Hsp' Hstart. unfold start_of in Hstart.
  injection Hstart as Hc Hd Hq.
  destruct (H1 sp' Hsp') as [Hp' Hspan'].
  pose proof (colspan_of_bounds (lesson_type (sp_lesson sp')) _ _ Hp') as [Hlo _].
  rewrite <- Hspan' in Hlo.
  assert (sp <> sp') as Hne by (intros ->; lia).
  pose proof (filter_two (covers (sp_class sp) (sp_day sp) (sp_period sp + k))
                sp sp' (spans _) Hsp Hsp' Hne) as Htwo.
  specialize (H5 (sp_class sp) (sp_day sp) (sp_period sp + k)).
  enough (2 <= 1) by lia.
  etransitivity; [apply Htwo|exact H5].
  - apply covers_spec. lia.
  - apply covers_spec. lia.
Qed.

(** C9 (the code departs from the claim).  Two classes on a day of three
    periods, class A with a Double in the first period and class B below
    it with single lessons in the first two periods.  The merged frame of A
    is given two columns and its follower is taken off the grid, as the
    claim says; but the frame is gridded in screen row 3, the row of B, the
    last class, so that both period columns of B lie under two drawn cells,
    A's and B's own, while the row of A shows no drawn cell at all. *)
Theorem merged_cell_is_drawn_in_the_last_row :
  let r := load_data ["A"; "B"] ["Monday"] 3 double_above_singles in
  let key sp := (sp_class sp, sp_day sp, sp_period sp) in
  map (fun sp => (key sp, sp_colspan sp, (sp_row sp, sp_col sp))) (spans r)
  = [((0, 0, 0), 2, (3, 1)); ((1, 0, 0), 1, (3, 1)); ((1, 0, 1), 1, (3, 2))]
  /\ elements (forgotten r) = [(0, 0, 1)]
  /\ map key (List.filter (on_screen 3 1) (spans r)) = [(0, 0, 0); (1, 0, 0)]
  /\ map key (List.filter (on_screen 3 2) (spans r)) = [(0, 0, 0); (1, 0, 1)]
  /\ List.filter (on_screen 2 1) (spans r) = []
  /\ List.filter (on_screen 2 2) (spans r) = [].
Proof. cbn zeta. repeat split; vm_compute; reflexivity. Qed.

(** The scenario of the specification: a Double at period 3 of 6 takes
    periods 3 and 4, and the lesson stored at period 4 is not drawn; a Double
    at period 5 has no period left and is drawn as a single cell. *)
Example double_lesson_scenario :
  let lesson kind :=
    Some {| subject := "Ma"; teacher := Some "JD"; full_name := None;
            subcode := Some "MA"; color := None; lesson_type := kind |} in
  let grid day_data : Grid := {[ "CSE" := {[ "Monday" := day_data ]} ]} in
  map (fun sp => (sp_period sp, sp_colspan sp))
    (spans (load_data ["CSE"] ["Monday"] 6
              (grid [None; None; None; lesson "Double"; lesson "Single"; None])))
  = [(3, 2)]
  /\ map (fun sp => (sp_period sp, sp_colspan sp))
       (spans (load_data ["CSE"] ["Monday"] 6
                 (grid [None; None; None; None; None; lesson "Double"])))
     = [(5, 1)].
Proof. split; reflexivity. Qed.

Close Scope nat_scope.

End Spans.

(** ** Query results as sets of rows *)

Section QueryFacts.

Lemma insert_by_perm {A} (le : A -> A -> bool) x l :
  Sql.insert_by le x l ≡ₚ x :: l.
Proof.
  induction l as [|y l IH]; cbn; [reflexivity|].
  destruct (le y x); [|reflexivity].
  rewrite IH. apply perm_swap.
Qed.

(** [ORDER BY] neither drops nor repeats a row. *)
Lemma order_by_perm {A} (le : A -> A -> bool) l : Sql.order_by le l ≡ₚ l.
Proof.
  unfold Sql.order_by.
  enough (forall acc, foldl (fun acc x => Sql.insert_by le x acc) acc l ≡ₚ acc ++ l)
    as H by apply (H []).
  induction l as [|x l IH]; intros acc; cbn.
  - now rewrite app_nil_r.
  - rewrite IH, insert_by_perm. cbn. apply Permutation_middle.
Qed.

Lemma In_order_by {A} (le : A -> A -> bool) l x :
  In x (Sql.order_by le l) <-> In x l.
Proof.
  split; apply Permutation_in; [|symmetry]; apply order_by_perm.
Qed.

Lemma In_distinct_sorted names x :
  In x (distinct_sorted names) <-> In x names.
Proof.
  unfold distinct_sorted. rewrite In_order_by.
  rewrite <- !list_elem_of_In. apply elem_of_remove_dups.
Qed.

Lemma NoDup_distinct_sorted names : NoDup (distinct_sorted names).
Proof.
  unfold distinct_sorted.
  rewrite (order_by_perm Sql.text_le (remove_dups names)).
  apply NoDup_remove_dups.
Qed.

Lemma distinct_sorted_nil names : distinct_sorted names = [] <-> names = [].
Proof.
  split; [|now intros ->].
  intros Hnil. destruct names as [|x names]; [reflexivity|].
  assert (In x (distinct_sorted (x :: names))) as Hin
    by (apply In_distinct_sorted; now left).
  rewrite Hnil in Hin. destruct Hin.
Qed.

End QueryFacts.

(** ** What the conflict detectors report *)

Section ConflictFacts.

(** The rows behind an entry of the conflict list. *)
Lemma In_schedule_conflicts st d p f a b :
  In (d, p, f, a, b) (fst (check_faculty_conflicts (Some st)))
  <-> a <> b
      /\ (exists r1, In r1 (SCHEDULE st)
                     /\ schedule_key r1 = (a, d, p) /\ sch_fini r1 = f)
      /\ (exists r2, In r2 (SCHEDULE st)
                     /\ schedule_key r2 = (b, d, p) /\ sch_fini r2 = f).
Proof.
  cbn [fst check_faculty_conflicts]. unfold conflicts_schedule.
  rewrite in_map_iff. split.
  - intros ([r1 r2] & Heq & Hin). cbn in Heq.
    apply In_order_by, in_flat_map in Hin as (s1 & Hs1 & Hin).
    apply in_map_iff in Hin as (s2 & Hpair & Hin).
    apply filter_In in Hin as [Hs2 Hcond].
    injection Hpair as <- <-. injection Heq as <- <- <- <- <-.
    rewrite !andb_true_iff, !Z.eqb_eq, String.eqb_eq, negb_true_iff,
      String.eqb_neq in Hcond.
    destruct Hcond as [[[Hd Hp] Hf] Hsec].
    split; [exact Hsec|]. split.
    + exists s1. now repeat split.
    + exists s2. unfold schedule_key. rewrite <- Hd, <- Hp, <- Hf.
      now repeat split.
  - intros (Hne & (r1 & Hr1 & Hk1 & Hf1) & (r2 & Hr2 & Hk2 & Hf2)).
    unfold schedule_key in Hk1, Hk2.
    injection Hk1 as Ha Hd Hp. injection Hk2 as Hb Hd' Hp'.
    exists (r1, r2). cbn. split; [congruence|].
    apply In_order_by, in_flat_map. exists r1. split; [exact Hr1|].
    apply in_map_iff. exists r2. split; [reflexivity|].
    apply filter_In. split; [exact Hr2|].
    rewrite !andb_true_iff, !Z.eqb_eq, String.eqb_eq, negb_true_iff,
      String.eqb_neq.
    repeat split; congruence.
Qed.

(** X1.  [check_faculty_conflicts] lists [(d, p, f, a, b)] exactly when
    [SCHEDULE] has a row of section [a] and a row of section [b], both on day
    [d], period [p], with faculty [f], and [a] differs from [b]. *)
Theorem schedule_conflicts_characterised st d p f a b :
  In (d, p, f, a, b) (fst (check_faculty_conflicts (Some st)))
  <-> a <> b
      /\ (exists r1, In r1 (SCHEDULE st)
                     /\ schedule_key r1 = (a, d, p) /\ sch_fini r1 = f)
      /\ (exists r2, In r2 (SCHEDULE st)
                     /\ schedule_key r2 = (b, d, p) /\ sch_fini r2 = f).
Proof. apply In_schedule_conflicts. Qed.

(** X2.  The conflict list is symmetric: it holds [(d, p, f, a, b)] exactly
    when it holds [(d, p, f, b, a)], so every double booking is reported
    once from each of its two sections. *)
Theorem schedule_conflicts_symmetric st d p f a b :
  In (d, p, f, a, b) (fst (check_faculty_conflicts (Some st)))
  <-> In (d, p, f, b, a) (fst (check_faculty_conflicts (Some st))).
Proof.
  rewrite !In_schedule_conflicts. split; intros (Hne & H1 & H2);
    (split; [congruence|now split]).
Qed.

Lemma elem_of_foldl_union {A} (g : A -> gset (nat * Z * Z)) (l : list A) x :
  forall acc,
    x ∈ foldl (fun acc c => acc ∪ g c) acc l
    <-> x ∈ acc \/ exists c, In c l /\ x ∈ g c.
Proof.
  induction l as [|c l IH]; intros acc; cbn.
  - split; [now left|]. intros [H|(c & [] & _)]. exact H.
  - rewrite IH, elem_of_union. split.
    + intros [[H|H]|(c' & Hc' & H)]; [now left| |]; right; eauto.
    + intros [H|(c' & [<-|Hc'] & H)]; [left; now left|left; now right|].
      right. eauto.
Qed.

Lemma elem_of_cells_of_conflict classes d p f a b i d' p' :
  (i, d', p') ∈ cells_of_conflict classes (d, p, f, a, b)
  <-> d' = d /\ p' = p
      /\ exists name, classes !! i = Some name /\ (name = a \/ name = b).
Proof.
  unfold cells_of_conflict.
  rewrite elem_of_list_to_set, list_elem_of_omap. split.
  - intros ([j name] & Hin & Hsome). cbn in Hsome.
    apply list_elem_of_lookup in Hin as [k Hk].
    rewrite list_lookup_imap in Hk.
    destruct (classes !! k) as [name'|] eqn:Hname; [|discriminate].
    cbn in Hk. injection Hk as <- <-.
    destruct (String.eqb_spec name' a) as [->|Ha]; cbn in Hsome.
    + injection Hsome as <- <- <-. eauto 6.
    + destruct (String.eqb_spec name' b) as [->|Hb]; [|discriminate].
      injection Hsome as <- <- <-. eauto 6.
  - intros (-> & -> & name & Hname & Hor). exists (i, name). split.
    + apply list_elem_of_lookup. exists i.
      rewrite list_lookup_imap, Hname. reflexivity.
    + cbn. destruct Hor as [->| ->].
      * now rewrite String.eqb_refl.
      * rewrite String.eqb_refl. now rewrite orb_true_r.
Qed.

(** The conflict behind a cell of the conflict set. *)
Lemma elem_of_conflict_cells st i d p :
  (i, d, p) ∈ snd (check_faculty_conflicts (Some st))
  <-> exists f a b name,
        In (d, p, f, a, b) (fst (check_faculty_conflicts (Some st)))
        /\ load_classes_from_db (Some st) !! i = Some name
        /\ (name = a \/ name = b).
Proof.
  cbn [fst snd check_faculty_conflicts].
  rewrite elem_of_foldl_union. split.
  - intros [H|(c & Hc & Hin)]; [now apply not_elem_of_empty in H|].
    destruct c as [[[[d' p'] f] a] b].
    apply elem_of_cells_of_conflict in Hin as (-> & -> & name & Hname & Hor).
    now exists f, a, b, name.
  - intros (f & a & b & name & Hc & Hname & Hor). right.
    exists (d, p, f, a, b). split; [exact Hc|].
    apply elem_of_cells_of_conflict. eauto.
Qed.

(** X3.  A grid cell is in the conflict set exactly when its class, by the
    position of its name in [load_classes_from_db()], is one of the two
    sections of a conflict on that day and period. *)
Theorem conflict_cells_characterised st i d p :
  (i, d, p) ∈ snd (check_faculty_conflicts (Some st))
  <-> exists f a b name,
        In (d, p, f, a, b) (fst (check_faculty_conflicts (Some st)))
        /\ load_classes_from_db (Some st) !! i = Some name
        /\ (name = a \/ name = b).
Proof. apply elem_of_conflict_cells. Qed.

(** When [SCHEDULE] has rows, the class list is the list of its sections. *)
Lemma classes_of_schedule st name r :
  In r (SCHEDULE st) ->
  (In name (load_classes_from_db (Some st))
   <-> exists r', In r' (SCHEDULE st) /\ sch_section r' = name).
Proof.
  intros Hr. unfold load_classes_from_db.
  destruct (distinct_sorted (map sch_section (SCHEDULE st))) as [|c cs] eqn:Hcs.
  - apply (proj1 (distinct_sorted_nil _)) in Hcs.
    destruct (SCHEDULE st); [destruct Hr|cbn in Hcs; discriminate].
  - rewrite <- Hcs, In_distinct_sorted, in_map_iff.
    split; intros (r' & H1 & H2); now exists r'.
Qed.

(** X4.  Both sections of every reported conflict have a row in the class
    list, and the cells of both rows on the day and period of the conflict
    are in the conflict set. *)
Theorem conflict_marks_both_cells st d p f a b :
  In (d, p, f, a, b) (fst (check_faculty_conflicts (Some st))) ->
  exists i j,
    load_classes_from_db (Some st) !! i = Some a
    /\ load_classes_from_db (Some st) !! j = Some b
    /\ (i, d, p) ∈ snd (check_faculty_conflicts (Some st))
    /\ (j, d, p) ∈ snd (check_faculty_conflicts (Some st)).
Proof.
  intros Hc.
  pose proof Hc as (Hne & (r1 & Hr1 & Hk1 & _) & (r2 & Hr2 & Hk2 & _))
    %In_schedule_conflicts.
  unfold schedule_key in Hk1, Hk2.
  injection Hk1 as Ha _ _. injection Hk2 as Hb _ _.
  assert (In a (load_classes_from_db (Some st))) as Hina
    by (apply (classes_of_schedule st a r1 Hr1); eauto).
  assert (In b (load_classes_from_db (Some st))) as Hinb
    by (apply (classes_of_schedule st b r1 Hr1); eauto).
  apply list_elem_of_In, list_elem_of_lookup in Hina as [i Hi].
  apply list_elem_of_In, list_elem_of_lookup in Hinb as [j Hj].
  exists i, j. repeat split; try assumption;
    apply elem_of_conflict_cells; eauto 8.
Qed.

Lemma conflict_marks_both_cells_witness :
  let st := with_lessons
              [sched_row "1" "CSE" 0 0 "Ma" "JD"; sched_row "2" "ECE" 0 0 "Ph" "JD"]
              [] [] [] in
  exists i j,
    load_classes_from_db (Some st) !! i = Some "CSE"
    /\ load_classes_from_db (Some st) !! j = Some "ECE"
    /\ (i, 0, 0) ∈ snd (check_faculty_conflicts (Some st))
    /\ (j, 0, 0) ∈ snd (check_faculty_conflicts (Some st)).
Proof.
  apply (conflict_marks_both_cells _ 0 0 "JD"). vm_compute. now left.
Defined.

(** X5.  Every conflict that [_check_faculty_conflicts(section)] reports has
    the queried section as its first section and another one as its second,
    in the part read from [SCHEDULE] and in the part read from
    [SCHEDULED_LESSONS] alike. *)
Theorem section_conflicts_name_the_section db section :
  Forall
    (fun c : TimetableApp.Conflict =>
       snd (fst c) = section /\ snd c <> section)
    (TimetableApp._check_faculty_conflicts db section).
Proof.
  apply Forall_forall. intros [[[[day p] f] a] b] Hin. cbn [fst snd].
  apply list_elem_of_In in Hin.
  unfold TimetableApp._check_faculty_conflicts in Hin.
  apply in_app_or in Hin as [Hin|Hin].
  - apply in_map_iff in Hin as ([s1 s2] & Heq & Hin). cbn in Heq.
    injection Heq as <- <- <- <- <-.
    unfold TimetableApp.conflicts_schedule in Hin.
    apply In_order_by, in_flat_map in Hin as (r1 & Hr1 & Hin).
    apply in_map_iff in Hin as (r2 & Hpair & Hin). injection Hpair as <- <-.
    apply filter_In in Hr1 as [_ Hsec]. apply String.eqb_eq in Hsec.
    apply filter_In in Hin as [_ Hcond].
    rewrite !andb_true_iff, negb_true_iff, String.eqb_neq in Hcond.
    destruct Hcond as [_ Hne]. split; congruence.
  - unfold TimetableApp.conflicts_lessons in Hin.
    apply in_map_iff in Hin as ([[sl1 sl2] fac] & Heq & Hin).
    injection Heq as <- <- <- <- <-.
    apply In_order_by, in_flat_map in Hin as (r1 & Hr1 & Hin).
    apply in_flat_map in Hin as (r2 & Hr2 & Hin).
    apply in_map_iff in Hin as (fac' & Htriple & _).
    injection Htriple as <- <- <-.
    apply filter_In in Hr1 as [_ Hsec]. apply String.eqb_eq in Hsec.
    apply filter_In in Hr2 as [_ Hcond].
    rewrite !andb_true_iff, negb_true_iff, String.eqb_neq in Hcond.
    destruct Hcond as [_ Hne]. split; congruence.
Qed.

End ConflictFacts.

(** ** More on the settings resolver *)

Section SettingsFacts.

Import TimetableApp.

(** X6.  Whatever the settings hold, the resolved day list is drawn from
    the six default days and keeps their order, so it has no day twice and
    no day outside Mo..Sa. *)
Theorem resolved_days_in_default_order conn :
  sublist (fst (_load_timetable_structure conn)) DEFAULT_DAYS
  /\ NoDup (fst (_load_timetable_structure conn))
  /\ (length (fst (_load_timetable_structure conn)) <= 6)%nat.
Proof.
  pose proof (days_sublist_of_default conn) as Hsub.
  split; [exact Hsub|]. split.
  - eapply sublist_NoDup; [|exact Hsub]. vm_compute.
    repeat (constructor; [set_unfold; intuition discriminate|]). constructor.
  - apply sublist_length in Hsub. exact Hsub.
Qed.

Lemma load_days_enabled st rows v :
  TIMETABLE_SETTINGS st = Some rows ->
  setting_text rows "DAYS_ENABLED" = Some v ->
  fst (_load_timetable_structure (Some st))
  = List.filter (fun day => existsb (String.eqb day) (Py.split "," v)) DEFAULT_DAYS.
Proof.
  intros Hrows Hv. unfold _load_timetable_structure. rewrite Hrows.
  cbn [fst]. unfold apply_days_enabled. now rewrite Hv.
Qed.

(** X7.  [DAYS_ENABLED] acts as a set of day codes: two values that list
    the same codes, in any order and with any repetition, resolve to the
    same day list. *)
Theorem days_enabled_is_a_set st st' rows rows' v v' :
  TIMETABLE_SETTINGS st = Some rows ->
  TIMETABLE_SETTINGS st' = Some rows' ->
  setting_text rows "DAYS_ENABLED" = Some v ->
  setting_text rows' "DAYS_ENABLED" = Some v' ->
  (forall code, In code (Py.split "," v) <-> In code (Py.split "," v')) ->
  fst (_load_timetable_structure (Some st))
  = fst (_load_timetable_structure (Some st')).
Proof.
  intros Hrows Hrows' Hv Hv' Hsame.
  rewrite (load_days_enabled st rows v Hrows Hv).
  rewrite (load_days_enabled st' rows' v' Hrows' Hv').
  apply filter_ext. intros day.
  destruct (existsb (String.eqb day) (Py.split "," v)) eqn:H1;
    destruct (existsb (String.eqb day) (Py.split "," v')) eqn:H2;
    try reflexivity.
  - apply existsb_exists in H1 as (code & Hin & Heq).
    apply Hsame in Hin.
    assert (existsb (String.eqb day) (Py.split "," v') = true) as H
      by (apply existsb_exists; eauto).
    congruence.
  - apply existsb_exists in H2 as (code & Hin & Heq).
    apply Hsame in Hin.
    assert (existsb (String.eqb day) (Py.split "," v) = true) as H
      by (apply existsb_exists; eauto).
    congruence.
Qed.

Lemma days_enabled_is_a_set_witness :
  fst (_load_timetable_structure
         (Some (with_settings [("DAYS_ENABLED", Some "We,Mo")])))
  = fst (_load_timetable_structure
           (Some (with_settings [("DAYS_ENABLED", Some "Mo,We,Mo")]))).
Proof.
  apply (days_enabled_is_a_set _ _
           [("DAYS_ENABLED", Some "We,Mo")] [("DAYS_ENABLED", Some "Mo,We,Mo")]
           "We,Mo" "Mo,We,Mo"); try reflexivity.
  intros code. vm_compute. tauto.
Defined.

Lemma contains_split_once sep s :
  Py.contains sep s = true <-> Py.split_once sep s <> None.
Proof.
  induction s as [|c s IH]; cbn; [split; congruence|].
  destruct (Ascii.eqb c sep); cbn; [split; congruence|].
  rewrite IH. destruct (Py.split_once sep s) as [[a b]|]; split; congruence.
Qed.

(** X8.  In [PERIODS_CONFIG], entries without a colon are passed over: the
    loop gives the same result on the entries that have one. *)
Theorem entries_without_colon_are_skipped confs : forall periods_data,
  parse_periods_from periods_data confs
  = parse_periods_from periods_data (List.filter (Py.contains ":") confs).
Proof.
  induction confs as [|conf confs IH]; intros periods_data; [reflexivity|].
  cbn [List.filter parse_periods_from].
  destruct (Py.contains ":" conf) eqn:Hcolon.
  - cbn [parse_periods_from].
    destruct (parse_period_conf periods_data conf); [apply IH|reflexivity].
  - unfold parse_period_conf. rewrite Hcolon. apply IH.
Qed.

Lemma parse_aborts confs conf num range : forall periods_data,
  In conf confs ->
  Py.split_once ":" conf = Some (num, range) -> Py.int num = None ->
  parse_periods_from periods_data confs = None.
Proof.
  induction confs as [|c confs IH]; intros periods_data Hin Hsplit Hint;
    [destruct Hin|].
  cbn. destruct Hin as [->|Hin].
  - unfold parse_period_conf.
    assert (Py.contains ":" conf = true) as ->
      by (apply contains_split_once; congruence).
    now rewrite Hsplit, Hint.
  - destruct (parse_period_conf periods_data c); [|reflexivity].
    now apply IH.
Qed.

(** X9.  One entry of [PERIODS_CONFIG] whose text before the first colon is
    plain text that [int()] refuses makes the whole setting void: the period
    map is left as it was, also for the entries that are well formed. *)
Theorem bad_period_number_voids_the_config rows v conf num range periods_info :
  setting_text rows "PERIODS_CONFIG" = Some v ->
  In conf (Py.split "," v) ->
  Py.split_once ":" conf = Some (num, range) ->
  Py.plain_text num = true -> Py.int num = None ->
  apply_periods_config rows periods_info = periods_info.
Proof.
  intros Hv Hin Hsplit _ Hint. unfold apply_periods_config, parse_periods_config.
  rewrite Hv. now rewrite (parse_aborts _ conf num range [] Hin Hsplit Hint).
Qed.

Lemma bad_period_number_voids_the_config_witness :
  apply_periods_config [("PERIODS_CONFIG", Some "1:8:00-8:45,II:9:00-9:45")]
    DEFAULT_PERIODS_INFO
  = DEFAULT_PERIODS_INFO.
Proof.
  apply (bad_period_number_voids_the_config _ "1:8:00-8:45,II:9:00-9:45"
           "II:9:00-9:45" "II" "9:00-9:45"); try reflexivity.
  vm_compute. tauto.
Defined.

(** X10.  When [NUM_PERIODS] is plain text that [int()] reads as [n], the
    period map is made of the first [n] default periods: none for [n <= 0],
    all six for [n >= 6]. *)
Theorem num_periods_takes_first_periods st rows v n :
  TIMETABLE_SETTINGS st = Some rows ->
  setting_text rows "NUM_PERIODS" = Some v ->
  Py.plain_text v = true -> Py.int v = Some n ->
  snd (_load_timetable_structure (Some st))
  = take (Z.to_nat n) DEFAULT_PERIODS_INFO.
Proof.
  intros Hrows Hv _ Hint.
  rewrite (num_periods_decides rows v n st Hrows Hv Hint).
  unfold DEFAULT_PERIODS_INFO. cbn [List.filter fst].
  assert (n <= 0 \/ n = 1 \/ n = 2 \/ n = 3 \/ n = 4 \/ n = 5 \/ 6 <= n)
    as Hcases by lia.
  destruct Hcases as [H|[->|[->|[->|[->|[->|H]]]]]]; try reflexivity.
  - replace (Z.to_nat n) with 0%nat by lia.
    repeat (rewrite (proj2 (Z.leb_gt _ n)) by lia). reflexivity.
  - repeat (rewrite (proj2 (Z.leb_le _ n)) by lia).
    rewrite take_ge by (cbn; lia). reflexivity.
Qed.

Lemma num_periods_takes_first_periods_witness :
  snd (_load_timetable_structure
         (Some (with_settings [("NUM_PERIODS", Some "4")])))
  = take (Z.to_nat 4) DEFAULT_PERIODS_INFO.
Proof.
  apply (num_periods_takes_first_periods _ [("NUM_PERIODS", Some "4")] "4");
    reflexivity.
Defined.

Lemma dict_set_keys {V} k (v : V) d :
  NoDup (map fst d) ->
  NoDup (map fst (Py.dict_set k v d))
  /\ forall k', k' ∈ map fst (Py.dict_set k v d) <-> k' = k \/ k' ∈ map fst d.
Proof.
  induction d as [|[k0 v0] d IH]; cbn; intros Hnd.
  - split; [apply NoDup_singleton|]. intros k'.
    rewrite list_elem_of_singleton, elem_of_nil. intuition.
  - apply NoDup_cons in Hnd as [Hk0 Hnd].
    destruct (Z.eqb_spec k0 k) as [->|Hne]; cbn.
    + split; [now apply NoDup_cons|]. intros k'.
      rewrite !elem_of_cons. intuition.
    + destruct (IH Hnd) as [IH1 IH2]. split.
      * apply NoDup_cons. split; [|exact IH1]. rewrite IH2. intuition.
      * intros k'. rewrite !elem_of_cons, IH2. intuition.
Qed.

Lemma parse_periods_keys confs : forall periods_data d,
  NoDup (map fst periods_data) ->
  parse_periods_from periods_data confs = Some d ->
  NoDup (map fst d).
Proof.
  induction confs as [|conf confs IH]; intros periods_data d Hnd; cbn.
  - now intros [= <-].
  - destruct (parse_period_conf periods_data conf) as [d'|] eqn:Hconf;
      [|discriminate].
    apply IH. unfold parse_period_conf in Hconf.
    destruct (Py.contains ":" conf); [|now injection Hconf as <-].
    destruct (Py.split_once ":" conf) as [[num range]|];
      [|now injection Hconf as <-].
    destruct (Py.int num) as [k|]; [|discriminate].
    injection Hconf as <-. now apply dict_set_keys.
Qed.

(** The resolved period map is a dict: it never has a period number twice,
    however often [PERIODS_CONFIG] repeats one. *)
Lemma resolved_period_numbers_distinct conn :
  NoDup (map fst (snd (_load_timetable_structure conn))).
Proof.
  assert (NoDup (map fst DEFAULT_PERIODS_INFO)) as Hdefault.
  { vm_compute. repeat (constructor; [set_unfold; intuition discriminate|]).
    constructor. }
  destruct conn as [st|]; [|exact Hdefault].
  unfold _load_timetable_structure.
  destruct (TIMETABLE_SETTINGS st) as [rows|]; [|exact Hdefault].
  cbn [snd]. unfold apply_num_periods.
  assert (NoDup (map fst (apply_periods_config rows DEFAULT_PERIODS_INFO)))
    as Hconfig.
  { unfold apply_periods_config.
    destruct (setting_text rows "PERIODS_CONFIG") as [v|]; [|exact Hdefault].
    destruct (parse_periods_config v) as [d|] eqn:Hparse; [|exact Hdefault].
    apply (parse_periods_keys _ [] d) in Hparse; [|apply NoDup_nil_2].
    now destruct d. }
  destruct (setting_text rows "NUM_PERIODS") as [v|]; [|exact Hconfig].
  destruct (Py.int v) as [n|]; [|exact Hconfig].
  replace (map fst (List.filter (fun kv => fst kv <=? n) DEFAULT_PERIODS_INFO))
    with (List.filter (fun k => k <=? n) (map fst DEFAULT_PERIODS_INFO)).
  - apply NoDup_ListNoDup, List.NoDup_filter, NoDup_ListNoDup, Hdefault.
  - clear. induction DEFAULT_PERIODS_INFO as [|x l IH]; cbn; [reflexivity|].
    destruct (fst x <=? n); cbn; now rewrite IH.
Qed.

End SettingsFacts.

(** ** More on the loader *)

Section LoaderFacts.

Lemma dom_foldl_insert {V} (val : string -> V) (xs : list string) :
  forall acc : gmap string V,
    dom (foldl (fun m x => <[x := val x]> m) acc xs) = dom acc ∪ list_to_set xs.
Proof.
  induction xs as [|x xs IH]; intros acc; cbn.
  - symmetry. apply (right_id_L ∅ (∪)).
  - rewrite IH, dom_insert_L.
    rewrite (comm_L (∪) {[x]} (dom acc)). symmetry. apply (assoc_L (∪)).
Qed.

Lemma init_grid_frame class_names days periods_per_day :
  grid_frame class_names days periods_per_day
    (init_grid class_names days periods_per_day).
Proof.
  split.
  - unfold init_grid. rewrite dom_foldl_insert, dom_empty_L.
    apply (left_id_L ∅ (∪)).
  - intros class_name class_data Hclass. unfold init_grid in Hclass.
    set (empty_class :=
           foldl (fun (class_data : gmap string (list (option Lesson))) day =>
                    <[day := replicate periods_per_day None]> class_data)
             ∅ days) in Hclass.
    assert (class_data = empty_class) as ->.
    { apply (foldl_insert_invariant
               (fun class_data => class_data = empty_class)
               (fun class_name : string => class_name)
               (fun _ : string => empty_class) class_names ∅
               ltac:(intros k v Hk; now rewrite lookup_empty in Hk)
               (fun _ => eq_refl) class_name class_data Hclass). }
    split.
    + unfold empty_class. rewrite dom_foldl_insert, dom_empty_L.
      apply (left_id_L ∅ (∪)).
    + intros day day_data Hday.
      now apply (init_grid_shape class_names days periods_per_day
                   class_name empty_class day day_data).
Qed.

Lemma grid_set_frame class_names days periods_per_day (td td' : Grid) c d i v :
  grid_frame class_names days periods_per_day td ->
  grid_set td c d i v = Some td' ->
  grid_frame class_names days periods_per_day td'.
Proof.
  unfold grid_set. intros [Hdom Hclasses] Hset.
  destruct (td !! c) as [cd|] eqn:Hc; cbn in Hset; [|discriminate].
  destruct (cd !! d) as [l|] eqn:Hd; cbn in Hset; [|discriminate].
  destruct (Py.list_set l i v) as [l'|] eqn:Hl; cbn in Hset; [|discriminate].
  injection Hset as <-.
  destruct (Hclasses c cd Hc) as [Hdays Hlen]. split.
  - rewrite dom_insert_lookup_L by eauto. exact Hdom.
  - intros c0 cd0 Hc0. destruct (decide (c = c0)) as [<-|Hne].
    + rewrite lookup_insert_eq in Hc0. injection Hc0 as <-. split.
      * rewrite dom_insert_lookup_L by eauto. exact Hdays.
      * intros d0 l0 Hd0. destruct (decide (d = d0)) as [<-|Hne].
        -- rewrite lookup_insert_eq in Hd0. injection Hd0 as <-.
           rewrite (list_set_length _ _ _ _ Hl). now apply (Hlen d).
        -- rewrite lookup_insert_ne in Hd0 by exact Hne. now apply (Hlen d0).
    + rewrite lookup_insert_ne in Hc0 by exact Hne. exact (Hclasses c0 cd0 Hc0).
Qed.

Lemma lesson_step_frame subject_colors lesson_types class_names days
    periods_per_day class_name (td : Grid) entry :
  grid_frame class_names days periods_per_day td ->
  grid_frame class_names days periods_per_day
    (fst (lesson_step subject_colors lesson_types days periods_per_day
            class_name td entry)).
Proof.
  intros Hframe. unfold lesson_step.
  destruct (_ || _ || _); [assumption|].
  destruct (grid_get _ _ _ _) as [slot|]; [|assumption].
  destruct (Py.truthy _); [assumption|].
  destruct (grid_set _ _ _ _ _) eqn:Hset; [|assumption].
  exact (grid_set_frame _ _ _ _ _ _ _ _ _ Hframe Hset).
Qed.

Lemma schedule_step_frame subject_colors lesson_types class_names days
    periods_per_day class_name (td : Grid) entry :
  grid_frame class_names days periods_per_day td ->
  grid_frame class_names days periods_per_day
    (fst (schedule_step subject_colors lesson_types days periods_per_day
            class_name td entry)).
Proof.
  intros Hframe. unfold schedule_step.
  destruct (_ || _); [assumption|].
  destruct (grid_set _ _ _ _ _) eqn:Hset; [|assumption].
  exact (grid_set_frame _ _ _ _ _ _ _ _ _ Hframe Hset).
Qed.

Lemma schedule_pass_frame st subject_colors class_names class_names' days
    periods_per_day (td : Grid) :
  grid_frame class_names days periods_per_day td ->
  grid_frame class_names days periods_per_day
    (fst (schedule_pass st subject_colors class_names' days periods_per_day td)).
Proof.
  intros Hframe. unfold schedule_pass.
  apply (loop_until_raise_invariant
           (grid_frame class_names days periods_per_day)); [|exact Hframe].
  intros td1 class_name H1.
  destruct (SUBJECTS_has_COLOR st); [|exact H1].
  apply (loop_until_raise_invariant
           (grid_frame class_names days periods_per_day)); [|exact H1].
  intros td2 entry H2. now apply schedule_step_frame.
Qed.

Lemma lesson_pass_frame st subject_colors class_names class_names' days
    periods_per_day (td : Grid) :
  grid_frame class_names days periods_per_day td ->
  grid_frame class_names days periods_per_day
    (fst (lesson_pass st subject_colors class_names' days periods_per_day td)).
Proof.
  intros Hframe. unfold lesson_pass.
  apply (loop_until_raise_invariant
           (grid_frame class_names days periods_per_day)); [|exact Hframe].
  intros td1 class_name H1.
  destruct (SUBJECTS_has_COLOR st); [|exact H1].
  apply (loop_until_raise_invariant
           (grid_frame class_names days periods_per_day)); [|exact H1].
  intros td2 entry H2. now apply lesson_step_frame.
Qed.

(** X11.  Whatever the tables hold, the grid that [load_timetable_data]
    returns for an existing database has exactly the requested class names
    as keys, under each of them exactly the requested days, and under each
    day exactly [periods_per_day] slots. *)
Theorem loaded_grid_has_the_requested_frame st class_names days periods_per_day :
  grid_frame class_names days periods_per_day
    (load_timetable_data (Some st) class_names days periods_per_day).
Proof.
  unfold load_timetable_data.
  apply lesson_pass_frame, schedule_pass_frame, init_grid_frame.
Qed.





Lemma existsb_eqb_In x l : existsb (String.eqb x) l = true <-> In x l.
Proof.
  rewrite existsb_exists. split.
  - intros (y & Hy & Heq). apply String.eqb_eq in Heq. now subst.
  - intros Hin. exists x. split; [exact Hin|apply String.eqb_refl].
Qed.




Lemma In_left_join {A B} (on : A -> B -> bool) a right a' ob :
  In (a', ob) (Sql.left_join on a right) -> a' = a.
Proof.
  unfold Sql.left_join. destruct (List.filter (on a) right) as [|m ms].
  - intros [[= <- _]|[]]. reflexivity.
  - intros Hin. apply in_map_iff in Hin as (b & [= <- _] & _). reflexivity.
Qed.

(** The fetched rows of a class come from stored rows of that class. *)
Lemma schedule_entries_rows st class_name entry :
  In entry (schedule_entries st class_name) ->
  exists r, In r (SCHEDULE st) /\ sch_section r = class_name
            /\ e_day entry = sch_dayid r /\ e_period entry = sch_periodid r
            /\ e_faculty_ini entry = Some (sch_fini r).
Proof.
  unfold schedule_entries. intros Hin.
  apply in_map_iff in Hin as ([sch s] & <- & Hin).
  apply In_order_by, in_flat_map in Hin as (r & Hr & Hin).
  apply In_left_join in Hin as ->.
  apply filter_In in Hr as [Hr Hsec]. apply String.eqb_eq in Hsec.
  exists r. now repeat split.
Qed.

Lemma lesson_entries_rows st class_name entry :
  In entry (lesson_entries st class_name) ->
  exists r, In r (SCHEDULED_LESSONS st) /\ sl_class_name r = class_name
            /\ e_day entry = sl_day_of_week r
            /\ e_period entry = sl_period_number r.
Proof.
  unfold lesson_entries. intros Hin.
  apply in_map_iff in Hin as ([[sl s] f] & <- & Hin).
  apply In_order_by, in_flat_map in Hin as (r & Hr & Hin).
  apply in_flat_map in Hin as ([sl' s'] & Hj & Hin).
  apply In_left_join in Hin. injection Hin as -> ->.
  apply In_left_join in Hj as ->.
  apply filter_In in Hr as [Hr Hsec]. apply String.eqb_eq in Hsec.
  exists r. now repeat split.
Qed.




Lemma loop_until_raise_idle {S X} (body : S -> X -> S * bool) (xs : list X) s :
  (forall x, In x xs -> body s x = (s, true)) ->
  Sql.loop_until_raise body s xs = (s, true).
Proof.
  induction xs as [|x xs IH]; intros Hbody; [reflexivity|].
  cbn. rewrite (Hbody x (or_introl eq_refl)).
  apply IH. intros x0 Hin. apply Hbody. now right.
Qed.

(** X14.  [SCHEDULED_LESSONS] rows whose period is outside
    [1..periods_per_day], or whose day is not among the displayed days, have
    no effect: when every row is such a row, the loader returns what the
    [SCHEDULE] pass built. *)
Theorem out_of_grid_lessons_are_ignored st class_names days periods_per_day :
  (forall r, In r (SCHEDULED_LESSONS st) ->
             sl_period_number r < 1
             \/ Z.of_nat periods_per_day < sl_period_number r
             \/ ~ In (day_name_of_code (sl_day_of_week r)) days) ->
  load_timetable_data (Some st) class_names days periods_per_day
  = fst (schedule_pass st (load_subject_colors (Some st)) class_names days
           periods_per_day (init_grid class_names days periods_per_day)).
Proof.
  intros Hout. unfold load_timetable_data, lesson_pass.
  set (built := fst (schedule_pass _ _ _ _ _ _)).
  apply (loop_until_raise_invariant (fun td : Grid => td = built));
    [|reflexivity].
  intros td class_name ->.
  destruct (SUBJECTS_has_COLOR st); [|reflexivity].
  rewrite loop_until_raise_idle; [reflexivity|].
  intros entry Hentry.
  apply lesson_entries_rows in Hentry as (r & Hr & _ & Hday & Hperiod).
  unfold lesson_step. rewrite Hday, Hperiod.
  destruct (Hout r Hr) as [Hlow|[Hhigh|Hnoday]].
  - replace (sl_period_number r - 1 <? 0) with true
      by (symmetry; apply Z.ltb_lt; lia).
    now rewrite orb_true_r.
  - replace (Z.of_nat periods_per_day <=? sl_period_number r - 1) with true
      by (symmetry; apply Z.leb_le; lia).
    now rewrite orb_true_r.
  - replace (existsb (String.eqb (day_name_of_code (sl_day_of_week r))) days)
      with false; [reflexivity|].
    symmetry. apply not_true_iff_false. now rewrite existsb_eqb_In.
Qed.

Lemma out_of_grid_lessons_are_ignored_witness :
  load_timetable_data (Some negative_period_rows) ["A"] ["Monday"; "Tuesday"] 3
  = fst (schedule_pass negative_period_rows
           (load_subject_colors (Some negative_period_rows)) ["A"]
           ["Monday"; "Tuesday"] 3 (init_grid ["A"] ["Monday"; "Tuesday"] 3)).
Proof.
  apply out_of_grid_lessons_are_ignored.
  intros r [<-|[]]. left. vm_compute. reflexivity.
Defined.

Lemma list_set_get_cases {A} (l l' : list A) (i : Z) (x y : A) (q : nat) :
  Py.list_set l i x = Some l' ->
  Py.list_get l' (Z.of_nat q) = Some y ->
  (y = x /\ (i = Z.of_nat q
              \/ (i < 0 /\ i = Z.of_nat q - Z.of_nat (length l))))
  \/ Py.list_get l (Z.of_nat q) = Some y.
Proof.
  unfold Py.list_set, Py.list_get. intros Hset.
  assert (exists k : nat,
             l' = <[k := x]> l
             /\ (i = Z.of_nat k
                 \/ (i < 0 /\ i = Z.of_nat k - Z.of_nat (length l))))
    as (k & -> & Hk).
  { destruct ((0 <=? i) && (i <? Z.of_nat (length l))) eqn:Hpos.
    - injection Hset as <-. exists (Z.to_nat i). split; [reflexivity|].
      apply andb_true_iff in Hpos as [Hpos _]. apply Z.leb_le in Hpos. lia.
    - destruct ((- Z.of_nat (length l) <=? i) && (i <? 0)) eqn:Hneg;
        [|discriminate].
      injection Hset as <-.
      exists (Z.to_nat (Z.of_nat (length l) + i)). split; [reflexivity|].
      apply andb_true_iff in Hneg as [Hneg Hneg']. apply Z.leb_le in Hneg.
      apply Z.ltb_lt in Hneg'. lia. }
  rewrite length_insert.
  replace (Z.of_nat q <? 0) with false by (symmetry; apply Z.ltb_ge; lia).
  rewrite andb_false_r.
  destruct ((0 <=? Z.of_nat q) && (Z.of_nat q <? Z.of_nat (length l))) eqn:Hq;
    [|discriminate].
  rewrite Nat2Z.id. intros Hget.
  destruct (decide (k = q)) as [->|Hne].
  - left. apply andb_true_iff in Hq as [_ Hq]. apply Z.ltb_lt in Hq.
    rewrite list_lookup_insert_eq in Hget by lia.
    injection Hget as <-. now split.
  - right. now rewrite list_lookup_insert_ne in Hget by exact Hne.
Qed.

Lemma grid_set_get_cases (td td' : Grid) c' d' (i' : Z) x c d (q : nat) y
    periods_per_day :
  grid_shape periods_per_day td ->
  grid_set td c' d' i' x = Some td' ->
  grid_get td' c d (Z.of_nat q) = Some y ->
  (c = c' /\ d = d' /\ y = x
   /\ (i' = Z.of_nat q
       \/ (i' < 0 /\ i' = Z.of_nat q - Z.of_nat periods_per_day)))
  \/ grid_get td c d (Z.of_nat q) = Some y.
Proof.
  unfold grid_set, grid_get. intros Hshape Hset.
  destruct (td !! c') as [cd|] eqn:Hc'; cbn in Hset; [|discriminate].
  destruct (cd !! d') as [l|] eqn:Hd'; cbn in Hset; [|discriminate].
  destruct (Py.list_set l i' x) as [l'|] eqn:Hl; cbn in Hset; [|discriminate].
  injection Hset as <-.
  destruct (decide (c' = c)) as [->|Hc].
  - rewrite lookup_insert_eq, Hc'. cbn.
    destruct (decide (d' = d)) as [->|Hd].
    + rewrite lookup_insert_eq, Hd'. cbn. intros Hget.
      destruct (list_set_get_cases _ _ _ _ _ _ Hl Hget) as [[-> Hi]|Hold];
        [|now right].
      left. rewrite (Hshape c cd d l Hc' Hd') in Hi. now repeat split.
    + rewrite lookup_insert_ne by exact Hd. now right.
  - rewrite lookup_insert_ne by exact Hc. now right.
Qed.

(** The initial grid has no populated slot. *)
Lemma init_grid_empty class_names days periods_per_day c d i slot :
  grid_get (init_grid class_names days periods_per_day) c d i = Some slot ->
  slot = None.
Proof.
  unfold grid_get, init_grid.
  set (empty_class :=
         foldl (fun (class_data : gmap string (list (option Lesson))) day =>
                  <[day := replicate periods_per_day None]> class_data)
           ∅ days).
  destruct (foldl _ ∅ class_names !! c) as [cd|] eqn:Hc; [|discriminate].
  cbn.
  assert (cd = empty_class) as ->.
  { apply (foldl_insert_invariant
             (fun class_data => class_data = empty_class)
             (fun class_name : string => class_name)
             (fun _ : string => empty_class) class_names ∅
             ltac:(intros k v Hk; now rewrite lookup_empty in Hk)
             (fun _ => eq_refl) c cd Hc). }
  destruct (empty_class !! d) as [l|] eqn:Hd; [|discriminate].
  cbn.
  assert (l = replicate periods_per_day None) as ->.
  { apply (foldl_insert_invariant
             (fun day_data : list (option Lesson) =>
                day_data = replicate periods_per_day None)
             (fun day : string => day)
             (fun _ : string => replicate periods_per_day None) days ∅
             ltac:(intros k v Hk; now rewrite lookup_empty in Hk)
             (fun _ => eq_refl) d l Hd). }
  unfold Py.list_get.
  destruct (_ && _); [|destruct (_ && _); [|discriminate]];
    intros Hget; apply lookup_replicate in Hget as [<- _]; reflexivity.
Qed.

Lemma loop_until_raise_invariant_in {S X} (P : S -> Prop)
    (body : S -> X -> S * bool) (xs : list X) :
  (forall s x, In x xs -> P s -> P (fst (body s x))) ->
  forall s, P s -> P (fst (Sql.loop_until_raise body s xs)).
Proof.
  induction xs as [|x xs IH]; intros Hbody s Hs; [exact Hs|].
  cbn. pose proof (Hbody s x (or_introl eq_refl) Hs) as Hs'.
  destruct (body s x) as [s' ok]. destruct ok; [|exact Hs'].
  apply IH; [|exact Hs']. intros s0 x0 Hin. apply Hbody. now right.
Qed.

Lemma schedule_pass_slots st class_names days periods_per_day :
  let td := fst (schedule_pass st (load_subject_colors (Some st)) class_names
                   days periods_per_day
                   (init_grid class_names days periods_per_day)) in
  grid_shape periods_per_day td /\ slots_have_rows st periods_per_day td.
Proof.
  cbn zeta. unfold schedule_pass.
  apply (loop_until_raise_invariant
           (fun td => grid_shape periods_per_day td
                      /\ slots_have_rows st periods_per_day td)).
  - intros td class_name Htd.
    destruct (SUBJECTS_has_COLOR st); [|exact Htd].
    apply (loop_until_raise_invariant_in
             (fun td => grid_shape periods_per_day td
                        /\ slots_have_rows st periods_per_day td));
      [|exact Htd].
    clear td Htd. intros td entry Hentry [Hshape Hslots].
    split; [now apply schedule_step_shape|].
    unfold schedule_step.
    destruct (_ || _); [exact Hslots|].
    destruct (grid_set _ _ _ _ _) as [td'|] eqn:Hset; [|exact Hslots].
    cbn [fst]. intros c d q lesson Hget.
    destruct (grid_set_get_cases _ _ _ _ _ _ _ _ _ _ _ Hshape Hset Hget)
      as [(-> & -> & Hy & Hi)|Hold]; [|now apply Hslots].
    injection Hy as ->. left. exists entry.
    repeat split; try assumption; try reflexivity. lia.
  - split; [apply init_grid_shape|].
    intros c d q lesson Hget. now apply init_grid_empty in Hget.
Qed.

Lemma load_slots st class_names days periods_per_day :
  slots_have_rows st periods_per_day
    (load_timetable_data (Some st) class_names days periods_per_day).
Proof.
  unfold load_timetable_data, lesson_pass.
  apply (loop_until_raise_invariant
           (fun td => grid_shape periods_per_day td
                      /\ slots_have_rows st periods_per_day td));
    [|apply schedule_pass_slots].
  intros td class_name Htd.
  destruct (SUBJECTS_has_COLOR st); [|exact Htd].
  apply (loop_until_raise_invariant_in
           (fun td => grid_shape periods_per_day td
                      /\ slots_have_rows st periods_per_day td));
    [|exact Htd].
  clear td Htd. intros td entry Hentry [Hshape Hslots].
  split; [now apply lesson_step_shape|].
  unfold lesson_step.
  destruct (_ || _ || _) eqn:Hskip; [exact Hslots|].
  apply orb_false_iff in Hskip as [_ Hneg]. apply Z.ltb_ge in Hneg.
  destruct (grid_get _ _ _ _) as [slot|]; [|exact Hslots].
  destruct (Py.truthy _); [exact Hslots|].
  destruct (grid_set _ _ _ _ _) as [td'|] eqn:Hset; [|exact Hslots].
  cbn [fst]. intros c d q lesson Hget.
  destruct (grid_set_get_cases _ _ _ _ _ _ _ _ _ _ _ Hshape Hset Hget)
    as [(-> & -> & Hy & Hi)|Hold]; [|now apply Hslots].
  injection Hy as ->. right. exists entry.
  repeat split; try assumption; try reflexivity. lia.
Qed.

(** X15.  The loader invents no lesson: a populated slot [q] of class [c]
    on day [d] comes from a [SCHEDULE] row of section [c] on that day, whose
    period is [q] or [q - periods_per_day] and whose faculty is the slot's
    teacher, or from a [SCHEDULED_LESSONS] row of class [c] on that day with
    period [q + 1]. *)
Theorem populated_slot_has_a_row st class_names days periods_per_day
    c d (q : nat) lesson :
  grid_get (load_timetable_data (Some st) class_names days periods_per_day)
    c d (Z.of_nat q) = Some (Some lesson) ->
  (exists r,
      In r (SCHEDULE st) /\ sch_section r = c
      /\ day_name_of_id (sch_dayid r) = d
      /\ (sch_periodid r = Z.of_nat q
          \/ sch_periodid r = Z.of_nat q - Z.of_nat periods_per_day)
      /\ teacher lesson = Some (sch_fini r))
  \/ (exists r,
        In r (SCHEDULED_LESSONS st) /\ sl_class_name r = c
        /\ day_name_of_code (sl_day_of_week r) = d
        /\ sl_period_number r = Z.of_nat q + 1).
Proof.
  intros Hget.
  destruct (load_slots st class_names days periods_per_day c d q lesson Hget)
    as [(entry & Hentry & -> & Hday & Hperiod)
       |(entry & Hentry & -> & Hday & Hperiod)].
  - left.
    apply schedule_entries_rows in Hentry as (r & Hr & Hsec & Hd & Hp & Hf).
    exists r. rewrite <- Hd, <- Hp. now repeat split.
  - right.
    apply lesson_entries_rows in Hentry as (r & Hr & Hsec & Hd & Hp).
    exists r. rewrite <- Hd, <- Hp. repeat split; try assumption. lia.
Qed.

Lemma populated_slot_has_a_row_witness :
  (exists r,
      In r (SCHEDULE both_schemas_resolved) /\ sch_section r = "A"
      /\ day_name_of_id (sch_dayid r) = "Monday"
      /\ (sch_periodid r = Z.of_nat 0 \/ sch_periodid r = Z.of_nat 0 - Z.of_nat 2)
      /\ Some "JD" = Some (sch_fini r))
  \/ (exists r,
        In r (SCHEDULED_LESSONS both_schemas_resolved) /\ sl_class_name r = "A"
        /\ day_name_of_code (sl_day_of_week r) = "Monday"
        /\ sl_period_number r = Z.of_nat 0 + 1).
Proof.
  apply (populated_slot_has_a_row both_schemas_resolved ["A"] ["Monday"] 2
           "A" "Monday" 0
           {| subject := "PH"; teacher := Some "JD";
              full_name := Some "Physics"; subcode := Some "PH";
              color := None; lesson_type := "Single" |}).
  reflexivity.
Defined.

Lemma take_chars_len s : forall n, (Py.len (Py.take_chars n s) <= n)%nat.
Proof.
  induction s as [|c s IH]; intros n; cbn; [lia|].
  destruct (Py.is_continuation c) eqn:Hc; cbn; rewrite ?Hc; [apply IH|].
  destruct n as [|n]; cbn; [lia|]. rewrite Hc. specialize (IH n). lia.
Qed.

Lemma first_two_length s : (Py.len (Py.first_two s) <= 2)%nat.
Proof.
  apply take_chars_len.
Qed.

(** Characters, not bytes, are counted: the two-byte letter stays whole. *)
Example first_two_of_accented_code :
  Py.first_two "ÉCO" = "ÉC" /\ Py.len "ÉC" = 2%nat
  /\ String.length "ÉC" = 3%nat.
Proof. repeat split. Qed.

(** X16.  The subject shown in a populated slot is an abbreviation of at
    most two characters, counted as [len()] counts them. *)
Theorem populated_slot_abbreviation st class_names days periods_per_day
    c d (q : nat) lesson :
  grid_get (load_timetable_data (Some st) class_names days periods_per_day)
    c d (Z.of_nat q) = Some (Some lesson) ->
  (Py.len (subject lesson) <= 2)%nat.
Proof.
  intros Hget.
  assert (forall D (entry : Entry D) sc lt,
            (Py.len (subject (lesson_of_entry sc lt entry)) <= 2)%nat)
    as Hshort.
  { intros D entry sc lt. unfold lesson_of_entry. cbn [subject].
    destruct (Py.truthy (e_subject_code entry)); [apply first_two_length|].
    destruct (Py.truthy (e_subject_name entry)); [apply first_two_length|].
    cbn. lia. }
  destruct (load_slots st class_names days periods_per_day c d q lesson Hget)
    as [(entry & _ & -> & _)|(entry & _ & -> & _)]; apply Hshort.
Qed.

Lemma populated_slot_abbreviation_witness :
  (Py.len "PH" <= 2)%nat.
Proof.
  apply (populated_slot_abbreviation both_schemas_resolved ["A"] ["Monday"] 2
           "A" "Monday" 0
           {| subject := "PH"; teacher := Some "JD";
              full_name := Some "Physics"; subcode := Some "PH";
              color := None; lesson_type := "Single" |}).
  reflexivity.
Defined.



End LoaderFacts.

(** ** More on the cell swap *)

Section SwapFacts.

Context {Row Key Val : Type} `{EqDecision Key}.
Variable key_of : Row -> Key.
Variable get : Row -> Val.
Variable set : Val -> Row -> Row.
Hypothesis key_set : forall v r, key_of (set v r) = key_of r.
Hypothesis get_set : forall v r, get (set v r) = v.

(** Updates under two different keys can be issued in either order. *)
Lemma update_where_comm k1 k2 v1 v2 t :
  k1 <> k2 ->
  Sql.update_where key_of set k2 v1 (Sql.update_where key_of set k1 v2 t)
  = Sql.update_where key_of set k1 v2 (Sql.update_where key_of set k2 v1 t).
Proof.
  intros Hne. unfold Sql.update_where. rewrite !map_map. apply map_ext.
  intros r.
  destruct (decide (key_of r = k1)) as [Hk1|Hk1];
    destruct (decide (key_of r = k2)) as [Hk2|Hk2]; try congruence;
    repeat first
      [ rewrite (bool_decide_eq_true_2 (key_of r = k1)) by assumption
      | rewrite (bool_decide_eq_false_2 (key_of r = k1)) by assumption
      | rewrite (bool_decide_eq_true_2 (key_of r = k2)) by assumption
      | rewrite (bool_decide_eq_false_2 (key_of r = k2)) by assumption
      | rewrite key_set ];
    reflexivity.
Qed.

Lemma swap_values_comm k1 k2 t :
  Sql.swap_values key_of get set k1 k2 t
  = Sql.swap_values key_of get set k2 k1 t.
Proof.
  destruct (decide (k1 = k2)) as [->|Hne]; [reflexivity|].
  unfold Sql.swap_values.
  destruct (Sql.fetchone (Sql.select_where key_of get k1 t)) as [v1|];
    destruct (Sql.fetchone (Sql.select_where key_of get k2 t)) as [v2|];
    try reflexivity.
  now apply update_where_comm.
Qed.

(** After a swap under two different keys, the rows of each key hold the
    values read under the other. *)
Lemma swap_values_exchanges k1 k2 t v1 v2 :
  k1 <> k2 ->
  Sql.fetchone (Sql.select_where key_of get k1 t) = Some v1 ->
  Sql.fetchone (Sql.select_where key_of get k2 t) = Some v2 ->
  forall r, In r (Sql.swap_values key_of get set k1 k2 t) ->
            (key_of r = k1 -> get r = v2) /\ (key_of r = k2 -> get r = v1).
Proof.
  intros Hne H1 H2 r Hr. unfold Sql.swap_values in Hr. rewrite H1, H2 in Hr.
  unfold Sql.update_where in Hr. rewrite map_map in Hr.
  apply in_map_iff in Hr as (r0 & <- & _).
  destruct (decide (key_of r0 = k1)) as [Hk1|Hk1].
  - rewrite (bool_decide_eq_true_2 _ Hk1), key_set.
    rewrite bool_decide_eq_false_2 by congruence.
    rewrite key_set. split; [intros _; apply get_set|congruence].
  - rewrite (bool_decide_eq_false_2 _ Hk1).
    destruct (decide (key_of r0 = k2)) as [Hk2|Hk2].
    + rewrite (bool_decide_eq_true_2 _ Hk2), key_set.
      split; [congruence|intros _; apply get_set].
    + rewrite (bool_decide_eq_false_2 _ Hk2). split; congruence.
Qed.

End SwapFacts.

Section SwapStore.

(** X17.  The two cells of a swap can be given in either order: dropping
    cell A on cell B leaves the same database as dropping B on A. *)
Theorem swap_is_symmetric class_names cell1 cell2 db :
  update_db_with_cell_swap class_names cell1 cell2 db
  = update_db_with_cell_swap class_names cell2 cell1 db.
Proof.
  unfold update_db_with_cell_swap.
  destruct (class_name_of_idx class_names (fst (fst cell1))) as [name1|];
    destruct (class_name_of_idx class_names (fst (fst cell2))) as [name2|];
    try reflexivity.
  destruct db as [st|]; [|reflexivity]. do 2 f_equal.
  - unfold swap_schedule. apply swap_values_comm, schedule_key_set.
  - unfold swap_lessons.
    destruct (lesson_cell_key name1 cell1) as [k1|];
      destruct (lesson_cell_key name2 cell2) as [k2|]; try reflexivity.
    apply swap_values_comm, lesson_key_set.
Qed.

Lemma filter_length_by_column {Row B} (col : Row -> B) (f : B -> bool) t' t :
  map col t' = map col t ->
  length (List.filter (fun r => f (col r)) t')
  = length (List.filter (fun r => f (col r)) t).
Proof.
  revert t. induction t' as [|r' t' IH]; intros [|r t] Hcol;
    try discriminate; [reflexivity|].
  rewrite !map_cons in Hcol. injection Hcol as Hr Hrest.
  cbn [List.filter]. rewrite Hr.
  destruct (f (col r)); cbn [length]; now rewrite (IH t).
Qed.

Lemma head_map_fetchone {Row Key Val} `{EqDecision Key} (key_of : Row -> Key)
    (get : Row -> Val) k t :
  head (map get (List.filter (fun r => bool_decide (key_of r = k)) t))
  = Sql.fetchone (Sql.select_where key_of get k t).
Proof. reflexivity. Qed.

(** X18.  In the current schema a swap is an exchange of values: when the
    two cells are stored under different keys and both have a row, every
    [SCHEDULE] row of the first cell ends with the subject and faculty read
    from the second cell, and every row of the second with those read from
    the first. *)
Theorem swap_exchanges_schedule_values class_names cell1 cell2 st st'
    name1 name2 v1 v2 :
  class_name_of_idx class_names (fst (fst cell1)) = Some name1 ->
  class_name_of_idx class_names (fst (fst cell2)) = Some name2 ->
  schedule_cell_key name1 cell1 <> schedule_cell_key name2 cell2 ->
  head (map schedule_get (schedule_rows_of class_names cell1 st)) = Some v1 ->
  head (map schedule_get (schedule_rows_of class_names cell2 st)) = Some v2 ->
  update_db_with_cell_swap class_names cell1 cell2 (Some st) = Some st' ->
  Forall (fun r => schedule_get r = v2) (schedule_rows_of class_names cell1 st')
  /\ Forall (fun r => schedule_get r = v1) (schedule_rows_of class_names cell2 st')
  /\ length (schedule_rows_of class_names cell1 st')
     = length (schedule_rows_of class_names cell1 st)
  /\ length (schedule_rows_of class_names cell2 st')
     = length (schedule_rows_of class_names cell2 st).
Proof.
  intros Hn1 Hn2 Hne Hv1 Hv2 Hswap.
  rewrite (swap_with_names _ _ _ _ _ _ Hn1 Hn2) in Hswap.
  injection Hswap as <-.
  rewrite !(schedule_rows_named _ _ _ _ Hn1), !(schedule_rows_named _ _ _ _ Hn2)
    in *.
  cbn [SCHEDULE]. unfold swap_schedule.
  rewrite head_map_fetchone in Hv1, Hv2.
  pose proof (swap_values_exchanges schedule_key schedule_get schedule_set
                schedule_key_set schedule_get_set _ _ (SCHEDULE st) v1 v2
                Hne Hv1 Hv2) as Hex.
  assert (forall k,
             length (List.filter
                       (fun r => bool_decide (schedule_key r = k))
                       (Sql.swap_values schedule_key schedule_get schedule_set
                          (schedule_cell_key name1 cell1)
                          (schedule_cell_key name2 cell2) (SCHEDULE st)))
             = length (List.filter
                         (fun r => bool_decide (schedule_key r = k))
                         (SCHEDULE st))) as Hlen.
  { intros k.
    pose (P := fun k' : string * Z * Z => bool_decide (k' = k)).
    apply (filter_length_by_column schedule_key P).
    apply swap_values_column, schedule_key_set. }
  repeat split; try apply Hlen.
  - apply Forall_forall. intros r Hr.
    apply list_elem_of_In, filter_In in Hr as [Hr Hk].
    apply bool_decide_eq_true_1 in Hk. now apply (Hex r Hr).
  - apply Forall_forall. intros r Hr.
    apply list_elem_of_In, filter_In in Hr as [Hr Hk].
    apply bool_decide_eq_true_1 in Hk. now apply (Hex r Hr).
Qed.

Lemma swap_exchanges_schedule_values_witness :
  Forall (fun r => schedule_get r = ("PH", "XY"))
    (schedule_rows_of ["A"; "B"] (0, 0, 0)%nat current_only_swapped)
  /\ Forall (fun r => schedule_get r = ("MA", "JD"))
       (schedule_rows_of ["A"; "B"] (1, 1, 2)%nat current_only_swapped)
  /\ length (schedule_rows_of ["A"; "B"] (0, 0, 0)%nat current_only_swapped)
     = length (schedule_rows_of ["A"; "B"] (0, 0, 0)%nat current_only)
  /\ length (schedule_rows_of ["A"; "B"] (1, 1, 2)%nat current_only_swapped)
     = length (schedule_rows_of ["A"; "B"] (1, 1, 2)%nat current_only).
Proof.
  apply (swap_exchanges_schedule_values ["A"; "B"] (0, 0, 0)%nat (1, 1, 2)%nat
           current_only current_only_swapped "A" "B");
    try reflexivity.
  vm_compute. discriminate.
Defined.

End SwapStore.

(** ** More on the scan of [load_data] *)

Section SpanFacts.

Open Scope nat_scope.

(** What one turn of the innermost loop keeps, all the loops keep. *)
Lemma render_classes_preserves (P : Rendered -> Prop) num_periods row :
  (forall c d p period_data r,
      P r -> P (render_period num_periods row c d p period_data r)) ->
  forall class_names days (timetable_data : Grid) c r,
    P r -> P (render_classes num_periods row c class_names days timetable_data r).
Proof.
  intros Hstep.
  assert (forall c d day_data p r,
             P r -> P (render_day num_periods row c d p day_data r)) as Hday.
  { intros c d day_data. induction day_data as [|pd rest IH]; intros p r Hr;
      [exact Hr|].
    cbn. apply IH. now apply Hstep. }
  assert (forall c days class_data d r,
             P r -> P (render_class num_periods row c d days class_data r))
    as Hclass.
  { intros c days class_data. induction days as [|day rest IH]; intros d r Hr;
      [exact Hr|].
    cbn. apply IH. destruct (class_data !! day); [now apply Hday|exact Hr]. }
  intros class_names days timetable_data.
  induction class_names as [|class_name rest IH]; intros c r Hr; [exact Hr|].
  cbn. apply IH.
  destruct (timetable_data !! class_name); [now apply Hclass|exact Hr].
Qed.

Lemma following_cells_any (cell : Cell) c d p n :
  cell ∈ (list_to_set
            (map (fun i => (c, d, p + i)) (seq 1 (n - 1))) : gset Cell)
  <-> exists k, 1 <= k < n /\ cell = (c, d, p + k).
Proof.
  rewrite elem_of_list_to_set, list_elem_of_In, in_map_iff.
  split.
  - intros (k & Heq & Hk). apply in_seq in Hk. exists k.
    split; [lia|congruence].
  - intros (k & Hk & ->). exists k. split; [reflexivity|].
    apply in_seq. lia.
Qed.

(** The processed cells are the forgotten ones and the first columns of the
    drawn ones, and the forgotten ones lie under a drawn cell. *)
Lemma render_period_bookkeeping num_periods row c d p period_data r :
  (forall cell, cell ∈ processed_cells r
                <-> cell ∈ forgotten r
                    \/ exists sp, In sp (spans r) /\ start_of sp = cell)
  /\ (forall cell, cell ∈ forgotten r -> follows_a_merged_key r cell) ->
  let r' := render_period num_periods row c d p period_data r in
  (forall cell, cell ∈ processed_cells r'
                <-> cell ∈ forgotten r'
                    \/ exists sp, In sp (spans r') /\ start_of sp = cell)
  /\ (forall cell, cell ∈ forgotten r' -> follows_a_merged_key r' cell).
Proof.
  intros [Hproc Hforg]. cbn zeta. unfold render_period.
  destruct period_data as [lesson|]; [|now split].
  destruct (_ && _); [|now split].
  cbn [processed_cells forgotten spans]. split.
  - intros cell. rewrite !elem_of_union, elem_of_singleton, Hproc. split.
    + intros [[[Hf|(sp & Hsp & Hst)]|Hfol]| ->].
      * left. now left.
      * right. exists sp. split; [apply in_or_app; now left|exact Hst].
      * left. now right.
      * right. eexists. split; [apply in_or_app; right; now left|reflexivity].
    + intros [[Hf|Hfol]|(sp & Hsp & Hst)].
      * left. left. now left.
      * left. now right.
      * apply in_app_or in Hsp as [Hsp|[<-|[]]].
        -- left. left. right. now exists sp.
        -- right. now rewrite <- Hst.
  - intros cell Hcell. apply elem_of_union in Hcell as [Hf|Hfol].
    + destruct (Hforg cell Hf) as (sp & k & Hsp & Hk & ->).
      exists sp, k. split; [apply in_or_app; now left|now split].
    + apply following_cells_any in Hfol as (k & Hk & ->).
      eexists _, k. split; [apply in_or_app; right; now left|].
      now split.
Qed.

Lemma load_data_bookkeeping class_names days num_periods
    (timetable_data : Grid) :
  let r := load_data class_names days num_periods timetable_data in
  (forall cell, cell ∈ processed_cells r
                <-> cell ∈ forgotten r
                    \/ exists sp, In sp (spans r) /\ start_of sp = cell)
  /\ (forall cell, cell ∈ forgotten r -> follows_a_merged_key r cell).
Proof.
  cbn zeta. unfold load_data.
  assert ((forall cell : Cell,
              cell ∈ (∅ : gset Cell)
              <-> cell ∈ (∅ : gset Cell)
                  \/ exists sp, In sp [] /\ start_of sp = cell)
          /\ (forall cell : Cell,
                 cell ∈ (∅ : gset Cell)
                 -> follows_a_merged_key
                      {| processed_cells := ∅; forgotten := ∅; spans := [] |}
                      cell)) as Hstart.
  { split.
    - intros cell. split.
      + intros H. now apply not_elem_of_empty in H.
      + intros [H|(sp & [] & _)]. now apply not_elem_of_empty in H.
    - intros cell H. now apply not_elem_of_empty in H. }
  destruct (regrid_row _ _ _) as [row|]; [|exact Hstart].
  apply (render_classes_preserves
           (fun r =>
              (forall cell, cell ∈ processed_cells r
                            <-> cell ∈ forgotten r
                                \/ exists sp, In sp (spans r)
                                              /\ start_of sp = cell)
              /\ (forall cell, cell ∈ forgotten r
                               -> follows_a_merged_key r cell))).
  - intros c d p period_data r. apply render_period_bookkeeping.
  - exact Hstart.
Qed.

(** X19.  In terms of frame keys the bookkeeping of [load_data] is exact: a
    frame is taken off the grid exactly when its key follows the key of a
    drawn cell within the number of columns given to that cell; a key is in
    [processed_cells] exactly when its frame was taken off the grid or is
    the frame of a drawn cell; and the frame of a drawn cell is never taken
    off the grid. *)
Theorem only_following_keys_leave_the_grid class_names days num_periods
    (timetable_data : Grid) :
  let r := load_data class_names days num_periods timetable_data in
  (forall cell, cell ∈ forgotten r <-> follows_a_merged_key r cell)
  /\ (forall cell, cell ∈ processed_cells r
                   <-> cell ∈ forgotten r
                       \/ exists sp, In sp (spans r) /\ start_of sp = cell)
  /\ (forall sp, In sp (spans r) -> start_of sp ∉ forgotten r).
Proof.
  cbn zeta.
  destruct (load_data_bookkeeping class_names days num_periods timetable_data)
    as [Hproc Hforg].
  destruct (load_data_invariant class_names days num_periods timetable_data)
    as [H1 H2 H3 H4 H6 H5].
  split; [|split; [exact Hproc|]].
  - intros cell. split; [apply Hforg|].
    intros (sp & k & Hsp & Hk & ->). now apply H3.
  - intros sp' Hsp' Hin.
    destruct (Hforg _ Hin) as (sp & k & Hsp & Hk & Hstart).
    unfold start_of in Hstart. injection Hstart as Hc Hd Hq.
    destruct (H1 sp' Hsp') as [Hp' Hspan'].
    pose proof (colspan_of_bounds (lesson_type (sp_lesson sp')) _ _ Hp')
      as [Hlo _].
    rewrite <- Hspan' in Hlo.
    assert (sp <> sp') as Hne by (intros ->; lia).
    pose proof (filter_two (covers (sp_class sp) (sp_day sp) (sp_period sp + k))
                  sp sp' (spans _) Hsp Hsp' Hne) as Htwo.
    specialize (H5 (sp_class sp) (sp_day sp) (sp_period sp + k)).
    enough (2 <= 1) by lia.
    etransitivity; [apply Htwo|exact H5].
    + apply covers_spec. lia.
    + apply covers_spec. lia.
Qed.

(** Where a drawn frame is put on the screen. *)
Lemma render_period_position num_periods row c d p period_data r :
  (forall sp, In sp (spans r) ->
     sp_col sp = 1 + sp_day sp * num_periods + sp_period sp
     /\ sp_row sp = if 1 <? sp_colspan sp then row else 2 + sp_class sp) ->
  forall sp,
    In sp (spans (render_period num_periods row c d p period_data r)) ->
    sp_col sp = 1 + sp_day sp * num_periods + sp_period sp
    /\ sp_row sp = if 1 <? sp_colspan sp then row else 2 + sp_class sp.
Proof.
  intros Hr sp. unfold render_period.
  destruct period_data as [lesson|]; [|apply Hr].
  destruct (_ && _); [|apply Hr].
  cbn [spans]. intros Hsp.
  apply in_app_or in Hsp as [Hsp|[<-|[]]]; [now apply Hr|].
  cbn. split; reflexivity.
Qed.

Lemma load_data_position class_names days num_periods (timetable_data : Grid)
    sp :
  In sp (spans (load_data class_names days num_periods timetable_data)) ->
  sp_col sp = 1 + sp_day sp * num_periods + sp_period sp
  /\ sp_row sp = if 1 <? sp_colspan sp then 2 + (length class_names - 1)
                 else 2 + sp_class sp.
Proof.
  unfold load_data. rewrite regrid_row_spec.
  destruct (_ && _ && _); [|intros []].
  revert sp.
  apply (render_classes_preserves
           (fun r =>
              forall sp, In sp (spans r) ->
                sp_col sp = 1 + sp_day sp * num_periods + sp_period sp
                /\ sp_row sp = if 1 <? sp_colspan sp
                               then 2 + (length class_names - 1)
                               else 2 + sp_class sp)).
  - intros c d p period_data r. apply render_period_position.
  - intros sp [].
Qed.

(** Where the cells drawn by each loop come from. *)
Lemma render_period_origin num_periods row c d p period_data r sp :
  In sp (spans (render_period num_periods row c d p period_data r)) ->
  In sp (spans r)
  \/ (sp_class sp = c /\ sp_day sp = d /\ sp_period sp = p
      /\ period_data = Some (sp_lesson sp)).
Proof.
  unfold render_period. destruct period_data as [lesson|]; [|now left].
  destruct (_ && _); [|now left].
  cbn. intros Hsp. apply in_app_or in Hsp as [Hsp|[<-|[]]]; [now left|].
  right. now repeat split.
Qed.

Lemma render_day_origin num_periods row c d day_data sp : forall p r,
  In sp (spans (render_day num_periods row c d p day_data r)) ->
  In sp (spans r)
  \/ (sp_class sp = c /\ sp_day sp = d
      /\ exists j, sp_period sp = p + j
                   /\ day_data !! j = Some (Some (sp_lesson sp))).
Proof.
  induction day_data as [|period_data rest IH]; intros p r Hsp; [now left|].
  cbn in Hsp. apply IH in Hsp as [Hsp|(Hc & Hd & j & Hp & Hj)].
  - apply render_period_origin in Hsp as [Hsp|(Hc & Hd & Hp & ->)];
      [now left|].
    right. split; [exact Hc|]. split; [exact Hd|].
    exists 0. split; [lia|reflexivity].
  - right. split; [exact Hc|]. split; [exact Hd|].
    exists (S j). split; [lia|exact Hj].
Qed.

Lemma render_class_origin num_periods row c days
    (class_data : gmap string (list (option Lesson))) sp : forall d r,
  In sp (spans (render_class num_periods row c d days class_data r)) ->
  In sp (spans r)
  \/ (sp_class sp = c
      /\ exists j day day_data,
           sp_day sp = d + j /\ days !! j = Some day
           /\ class_data !! day = Some day_data
           /\ day_data !! sp_period sp = Some (Some (sp_lesson sp))).
Proof.
  induction days as [|day rest IH]; intros d r Hsp; [now left|].
  cbn in Hsp.
  apply IH in Hsp as [Hsp|(Hc & j & day' & day_data & Hd & Hj & Hday & Hq)].
  - destruct (class_data !! day) as [day_data|] eqn:Hday; [|now left].
    apply render_day_origin in Hsp as [Hsp|(Hc & Hd & j & Hp & Hj)];
      [now left|].
    right. split; [exact Hc|].
    exists 0, day, day_data. rewrite Hp. cbn.
    repeat split; [lia|exact Hday|exact Hj].
  - right. split; [exact Hc|].
    exists (S j), day', day_data.
    repeat split; [lia|exact Hj|exact Hday|exact Hq].
Qed.

Lemma render_classes_origin num_periods row days (timetable_data : Grid)
    class_names sp : forall c r,
  In sp (spans (render_classes num_periods row c class_names days timetable_data r)) ->
  In sp (spans r)
  \/ exists i class_name class_data day day_data,
       sp_class sp = c + i /\ class_names !! i = Some class_name
       /\ timetable_data !! class_name = Some class_data
       /\ days !! sp_day sp = Some day
       /\ class_data !! day = Some day_data
       /\ day_data !! sp_period sp = Some (Some (sp_lesson sp)).
Proof.
  induction class_names as [|class_name rest IH]; intros c r Hsp; [now left|].
  cbn in Hsp.
  apply IH in Hsp
    as [Hsp|(i & name & class_data & day & day_data & Hc & Hi & Hcl & Hrest)].
  - destruct (timetable_data !! class_name) as [class_data|] eqn:Hcl;
      [|now left].
    apply render_class_origin in Hsp
      as [Hsp|(Hc & j & day & day_data & Hd & Hj & Hday & Hq)]; [now left|].
    right. exists 0, class_name, class_data, day, day_data.
    rewrite Hd. cbn. repeat split; try assumption. lia.
  - right. exists (S i), name, class_data, day, day_data.
    repeat split; try apply Hrest; try assumption. lia.
Qed.

(** X20.  Every frame that [load_data] draws shows the lesson that
    [timetable_data] holds under the frame's own key, and is gridded in the
    column of that key.  A frame of one column stays in the row of its
    class; a merged frame is gridded in the row of the last class, whatever
    its class, because [row] is not set again after the loops that grid all
    frames anew. *)
Theorem drawn_frames_and_their_rows class_names days num_periods
    (timetable_data : Grid) sp :
  In sp (spans (load_data class_names days num_periods timetable_data)) ->
  stored_at class_names days timetable_data sp
  /\ sp_col sp = 1 + sp_day sp * num_periods + sp_period sp
  /\ sp_row sp = if 1 <? sp_colspan sp then 2 + (length class_names - 1)
                 else 2 + sp_class sp.
Proof.
  intros Hsp. split; [|exact (load_data_position _ _ _ _ _ Hsp)].
  unfold load_data in Hsp.
  destruct (regrid_row _ _ _) as [row|]; [|destruct Hsp].
  apply render_classes_origin in Hsp
    as [[]|(i & name & class_data & day & day_data & Hc & Hi & Hrest)].
  exists name, class_data, day, day_data. rewrite Hc. cbn.
  split; [exact Hi|exact Hrest].
Qed.

Lemma drawn_frames_and_their_rows_witness :
  let sp :=
    {| sp_class := 0; sp_day := 0; sp_period := 0; sp_colspan := 2;
       sp_lesson := lesson_of_kind "MA" "JD" "Double";
       sp_row := 3; sp_col := 1 |} in
  stored_at ["A"; "B"] ["Monday"] double_above_singles sp
  /\ sp_col sp = 1 + sp_day sp * 3 + sp_period sp
  /\ sp_row sp = if 1 <? sp_colspan sp then 2 + (length ["A"; "B"] - 1)
                 else 2 + sp_class sp.
Proof.
  cbn zeta.
  apply (drawn_frames_and_their_rows ["A"; "B"] ["Monday"] 3).
  vm_compute. now left.
Defined.

Close Scope nat_scope.

End SpanFacts.

(** ** The background colour of a drawn cell *)

Section Colours.

Lemma subject_colors_fold_not_empty rows : forall acc : gmap string string,
  (forall code c, acc !! code = Some c -> c <> "") ->
  forall code c,
    foldl
      (fun subject_colors row =>
         match sub_color row with
         | Some c =>
             if negb (String.eqb (sub_subcode row) "") && negb (String.eqb c "")
             then <[sub_subcode row := c]> subject_colors
             else subject_colors
         | None => subject_colors
         end)
      acc rows !! code = Some c ->
    c <> "".
Proof.
  induction rows as [|row rows IH]; intros acc Hacc; cbn; [apply Hacc|].
  apply IH. intros code' c' Hc'.
  destruct (sub_color row) as [col|]; [|now apply (Hacc code')].
  destruct (String.eqb_spec (sub_subcode row) ""); cbn in Hc';
    [now apply (Hacc code')|].
  destruct (String.eqb_spec col ""); cbn in Hc'; [now apply (Hacc code')|].
  destruct (decide (sub_subcode row = code')) as [<-|Hne].
  - rewrite lookup_insert_eq in Hc'. congruence.
  - rewrite lookup_insert_ne in Hc' by exact Hne. now apply (Hacc code').
Qed.

Lemma load_subject_colors_not_empty db code c :
  load_subject_colors db !! code = Some c -> c <> "".
Proof.
  destruct db as [st|]; cbn; [|intros H; now rewrite lookup_empty in H].
  destruct (SUBJECTS_has_COLOR st); [|intros H; now rewrite lookup_empty in H].
  apply subject_colors_fold_not_empty.
  intros code' c' H. now rewrite lookup_empty in H.
Qed.

Lemma default_subject_colors_not_empty s c :
  default_subject_colors !! s = Some c -> c <> "".
Proof.
  unfold default_subject_colors. intros H.
  apply elem_of_list_to_map_2 in H.
  repeat (apply elem_of_cons in H as [H|H];
          [injection H as _ ->; discriminate|]).
  now apply elem_of_nil in H.
Qed.

(** X21.  Every drawn lesson cell gets a colour: with the colours read by
    [load_subject_colors], the five-step choice of [load_data] never ends
    in an empty colour name, whatever the lesson record holds. *)
Theorem every_drawn_cell_has_a_colour db period_data :
  cell_bg_color (load_subject_colors db) period_data <> "".
Proof.
  unfold cell_bg_color.
  destruct (color period_data) as [c|]; cbn [Py.truthy default].
  - destruct (String.eqb_spec c "") as [->|Hc]; cbn [negb]; [|exact Hc].
    destruct (if Py.truthy (subcode period_data) then _ else None)
      as [c|] eqn:Hsub.
    + destruct (Py.truthy (subcode period_data)); [|discriminate].
      now apply load_subject_colors_not_empty in Hsub.
    + destruct (load_subject_colors db !! subject period_data) as [c|] eqn:Hs;
        [now apply load_subject_colors_not_empty in Hs|].
      destruct (default_subject_colors !! subject period_data) as [c|] eqn:Hd;
        [now apply default_subject_colors_not_empty in Hd|discriminate].
  - destruct (if Py.truthy (subcode period_data) then _ else None)
      as [c|] eqn:Hsub.
    + destruct (Py.truthy (subcode period_data)); [|discriminate].
      now apply load_subject_colors_not_empty in Hsub.
    + destruct (load_subject_colors db !! subject period_data) as [c|] eqn:Hs;
        [now apply load_subject_colors_not_empty in Hs|].
      destruct (default_subject_colors !! subject period_data) as [c|] eqn:Hd;
        [now apply default_subject_colors_not_empty in Hd|discriminate].
Qed.

End Colours.

(** ** The grid dimensions of the component *)

Section Dimensions.

Lemma lookup_map_seq {A} (f : nat -> A) len : forall start (i : nat) x,
  map f (seq start len) !! i = Some x -> x = f (start + i)%nat /\ (i < len)%nat.
Proof.
  induction len as [|len IH]; intros start i x Hi; [discriminate|].
  destruct i as [|i]; cbn in Hi.
  - injection Hi as <-. rewrite Nat.add_0_r. split; [reflexivity|lia].
  - apply IH in Hi as [-> Hi]. split; [f_equal; lia|lia].
Qed.

Lemma period_labels_length n : length (period_labels n) = Z.to_nat n.
Proof. unfold period_labels. now rewrite length_map, length_seq. Qed.

Lemma period_labels_nil n : period_labels n = [] <-> n <= 0.
Proof.
  split.
  - intros H. apply (f_equal (@length string)) in H.
    rewrite period_labels_length in H. cbn in H. lia.
  - intros H. unfold period_labels.
    replace (Z.to_nat n) with 0%nat by lia. reflexivity.
Qed.

(** Whatever the queries give, the period columns are [period_labels n] for
    some positive [n]. *)
Lemma load_periods_labels db config :
  exists n, 1 <= n /\ load_periods_from_db db config = period_labels n.
Proof.
  assert (forall periods,
             periods = [] \/ (exists n, periods = period_labels n) ->
             exists n, 1 <= n
                       /\ match periods with
                          | [] => period_labels 8
                          | _ => periods
                          end = period_labels n) as Hdefault.
  { intros periods [->|(n & ->)]; [exists 8; split; [lia|reflexivity]|].
    destruct (period_labels n) as [|label rest] eqn:Hn.
    - exists 8. split; [lia|reflexivity].
    - exists n. split; [|now rewrite Hn].
      destruct (Z_le_gt_dec n 0) as [Hle|Hgt]; [|lia].
      apply period_labels_nil in Hle. congruence. }
  unfold load_periods_from_db.
  destruct db as [st|]; [|exists 8; split; [lia|reflexivity]].
  apply Hdefault.
  destruct config as [| |row]; [now left| |]; cbn [Py.truth].
  2: destruct (Py.truth (cfg_periods_per_day row));
       [destruct (Py.int_of (cfg_periods_per_day row)) as [n|];
        [right; now exists n|now left]|].
  all: destruct (TIMETABLE_SETTINGS st) as [rows|]; [|now left];
    destruct (TimetableApp.setting_text rows "NUM_PERIODS") as [v|];
    [destruct (Py.int v) as [n'|]; [right; now exists n'|now left]|];
    destruct (max_periodid (SCHEDULE st)) as [m|];
    [right; now exists (m + 1)|now left].
Qed.

(** X22.  The component always has period columns, and they are numbered
    from one: whatever [SCHOOL_CONFIG], [TIMETABLE_SETTINGS] and [SCHEDULE]
    hold, also a zero or negative count or a failing query, the list of
    [load_periods_from_db] is not empty and its entry at index [i] is the
    label P followed by [i + 1]. *)
Theorem period_columns_are_numbered db config :
  let periods := load_periods_from_db db config in
  periods <> []
  /\ forall (i : nat) label,
       periods !! i = Some label -> label = "P" +:+ pretty (S i).
Proof.
  cbn zeta. destruct (load_periods_labels db config) as (n & Hn & ->).
  split.
  - intros H. apply period_labels_nil in H. lia.
  - intros i label Hi. unfold period_labels in Hi.
    now apply lookup_map_seq in Hi as [-> _].
Qed.

Lemma foldl_max_ge l : forall a,
  a <= foldl Z.max a l /\ forall x, In x l -> x <= foldl Z.max a l.
Proof.
  induction l as [|y l IH]; intros a; cbn; [split; [lia|intros x []]|].
  destruct (IH (Z.max a y)) as [Hacc Hall]. split; [lia|].
  intros x [->|Hx]; [lia|now apply Hall].
Qed.

Lemma max_periodid_bound t m r :
  max_periodid t = Some m -> In r t -> sch_periodid r <= m.
Proof.
  destruct t as [|r0 t]; [discriminate|]. cbn. intros [= <-] Hr.
  destruct (foldl_max_ge (map sch_periodid t) (sch_periodid r0)) as [H0 Hall].
  destruct Hr as [->|Hr]; [exact H0|].
  apply Hall. now apply in_map.
Qed.

(** X23.  When [SCHOOL_CONFIG] gives no period count (no row, or a cell
    that counts as false: NULL, zero or empty) and [NUM_PERIODS] is unset,
    NULL or empty, the count derived from [MAX(PERIODID)] is large enough
    for the whole of [SCHEDULE]: every row's period is below the number of
    period columns. *)
Theorem derived_period_count_holds_every_row st config rows r :
  match config with
  | NoConfigTable => False
  | NoConfigRow => True
  | ConfigRow row => Py.truth (cfg_periods_per_day row) = false
  end ->
  TIMETABLE_SETTINGS st = Some rows ->
  TimetableApp.setting_text rows "NUM_PERIODS" = None ->
  In r (SCHEDULE st) ->
  sch_periodid r < Z.of_nat (length (load_periods_from_db (Some st) config)).
Proof.
  intros Hconfig Hrows Hnum Hr.
  assert (load_periods_from_db (Some st) config
          = match max_periodid (SCHEDULE st) with
            | Some max_period =>
                match period_labels (max_period + 1) with
                | [] => period_labels 8
                | periods => periods
                end
            | None => period_labels 8
            end) as ->.
  { unfold load_periods_from_db. rewrite Hrows, Hnum.
    destruct config as [| |row]; [destruct Hconfig| |].
    - destruct (max_periodid (SCHEDULE st)) as [m|];
        [now destruct (period_labels (m + 1))|reflexivity].
    - rewrite Hconfig.
      destruct (max_periodid (SCHEDULE st)) as [m|];
        [now destruct (period_labels (m + 1))|reflexivity]. }
  destruct (max_periodid (SCHEDULE st)) as [m|] eqn:Hmax.
  - pose proof (max_periodid_bound _ _ _ Hmax Hr) as Hle.
    destruct (period_labels (m + 1)) as [|label rest] eqn:Hlabels.
    + apply period_labels_nil in Hlabels. rewrite period_labels_length. lia.
    + rewrite <- Hlabels, period_labels_length. lia.
  - destruct (SCHEDULE st); [destruct Hr|discriminate].
Qed.

Lemma derived_period_count_holds_every_row_witness :
  sch_periodid (sched_row "2" "B" 1 11 "PH" "XY")
  < Z.of_nat
      (length
         (load_periods_from_db
            (Some {| TIMETABLE_SETTINGS := Some [];
                     SCHEDULE := [sched_row "1" "A" 0 0 "MA" "JD";
                                  sched_row "2" "B" 1 11 "PH" "XY"];
                     SCHEDULED_LESSONS := []; SUBJECTS := [];
                     SUBJECTS_has_COLOR := false; FACULTY := [];
                     LESSONS := []; CLASS := [] |})
            NoConfigRow)).
Proof.
  apply (derived_period_count_holds_every_row _ NoConfigRow []);
    [exact I|reflexivity|reflexivity|].
  right. now left.
Defined.

Lemma split_not_nil sep s : Py.split sep s <> [].
Proof.
  destruct s as [|c s]; cbn; [discriminate|].
  destruct (Ascii.eqb c sep); [discriminate|].
  destruct (Py.split sep s); discriminate.
Qed.

Lemma slice_to_week_nil n :
  Py.slice_to
    ["Monday"; "Tuesday"; "Wednesday"; "Thursday"; "Friday"; "Saturday";
     "Sunday"] n = []
  <-> n = 0 \/ n <= -7.
Proof.
  unfold Py.slice_to. cbn [length].
  destruct (Z.leb_spec 0 n) as [Hpos|Hneg].
  - destruct (Z.to_nat n) as [|k] eqn:Hk; cbn; split;
      try discriminate; try lia; auto.
  - destruct (Z.to_nat (Z.of_nat 7 + n)) as [|k] eqn:Hk; cbn; split;
      try discriminate; try lia; auto.
Qed.

(** X24.  The component has no day column in exactly one case: the
    connection and [TIMETABLE_SETTINGS] are there, [DAYS_ENABLED] is unset,
    NULL or empty, and the [num_days] cell of [SCHOOL_CONFIG] counts as true
    and has an [int()] of zero (as 0.5 or the text 0 have) or of minus seven
    or less.  In every other case, also on a failing query or a failing
    [int()], the list of [load_days_from_db] is not empty. *)
Theorem day_columns_empty_only_by_config db config :
  match config with
  | ConfigRow row => Py.plain_value (cfg_num_days row) = true
  | _ => True
  end ->
  load_days_from_db db config = []
  <-> exists st rows row num_days,
        db = Some st /\ TIMETABLE_SETTINGS st = Some rows
        /\ TimetableApp.setting_text rows "DAYS_ENABLED" = None
        /\ config = ConfigRow row
        /\ Py.truth (cfg_num_days row) = true
        /\ Py.int_of (cfg_num_days row) = Some num_days
        /\ (num_days = 0 \/ num_days <= -7).
Proof.
  intros _. split.
  - unfold load_days_from_db.
    destruct db as [st|]; [|discriminate].
    destruct (TIMETABLE_SETTINGS st) as [rows|] eqn:Hrows; [|discriminate].
    destruct (TimetableApp.setting_text rows "DAYS_ENABLED") as [v|] eqn:Hv.
    { intros H. apply map_eq_nil in H. now apply split_not_nil in H. }
    destruct config as [| |row]; try discriminate.
    destruct (Py.truth (cfg_num_days row)) eqn:Htruth; [|discriminate].
    destruct (Py.int_of (cfg_num_days row)) as [n|] eqn:Hn; [|discriminate].
    intros H. apply slice_to_week_nil in H.
    exists st, rows, row, n. repeat split; assumption.
  - intros (st & rows & row & n & -> & Hrows & Hv & -> & Htruth & Hn & Hle).
    unfold load_days_from_db. rewrite Hrows, Hv, Htruth, Hn.
    now apply slice_to_week_nil.
Qed.

Lemma day_columns_empty_only_by_config_witness :
  load_days_from_db (Some (with_settings []))
    (ConfigRow {| cfg_num_days := Py.VFloat (Some (1 # 2));
                  cfg_periods_per_day := Py.VInt 6 |}) = [].
Proof.
  apply (day_columns_empty_only_by_config (Some (with_settings []))
           (ConfigRow {| cfg_num_days := Py.VFloat (Some (1 # 2));
                         cfg_periods_per_day := Py.VInt 6 |}));
    [reflexivity|].
  eexists _, _, _, 0. repeat split; try reflexivity. now left.
Defined.

(** Half a day and the text 0 count as true and are cut to zero days; an
    integer zero counts as false and gives the five default days. *)
Example day_count_cut_to_zero :
  let config v :=
    ConfigRow {| cfg_num_days := v; cfg_periods_per_day := Py.VInt 6 |} in
  load_days_from_db (Some (with_settings [])) (config (Py.VFloat (Some (1 # 2))))
  = []
  /\ load_days_from_db (Some (with_settings [])) (config (Py.VStr "0")) = []
  /\ length (load_days_from_db (Some (with_settings [])) (config (Py.VInt 0)))
     = 5%nat
  /\ length (load_days_from_db (Some (with_settings [])) (config (Py.VInt 3)))
     = 3%nat.
Proof. repeat split. Qed.

Lemma existsb_eqb_false x (l : list string) :
  ~ In x l -> existsb (String.eqb x) l = false.
Proof.
  intros Hx. destruct (existsb (String.eqb x) l) eqn:H; [|reflexivity].
  apply existsb_exists in H as (y & Hy & Heq).
  apply String.eqb_eq in Heq. now subst.
Qed.

(** Filtering a duplicate-free list by membership in one of its sublists
    gives the sublist back. *)
Lemma filter_by_sublist (l d : list string) :
  sublist l d -> NoDup d ->
  List.filter (fun x => existsb (String.eqb x) l) d = l.
Proof.
  intros Hsub. induction Hsub as [|x l d Hsub IH|x l d Hsub IH]; intros Hd.
  - reflexivity.
  - apply NoDup_cons in Hd as [Hx Hd]. cbn [List.filter existsb].
    rewrite String.eqb_refl. cbn [orb]. f_equal.
    etransitivity; [|apply (IH Hd)]. apply filter_ext_in. intros y Hy.
    cbn [existsb]. destruct (String.eqb_spec y x) as [->|_]; [|reflexivity].
    now apply list_elem_of_In in Hy.
  - apply NoDup_cons in Hd as [Hx Hd]. cbn [List.filter].
    rewrite existsb_eqb_false; [now apply IH|].
    intros Hin. apply Hx. apply list_elem_of_In in Hin.
    exact (elem_of_sublist _ _ _ Hin Hsub).
Qed.

(** X25.  The two windows agree on the days when [DAYS_ENABLED] lists
    default day codes in their default order, each at most once: the day
    names of the component are then the names of the day codes that
    [_load_timetable_structure] resolves. *)
Theorem both_windows_show_the_same_days st rows v config :
  TIMETABLE_SETTINGS st = Some rows ->
  TimetableApp.setting_text rows "DAYS_ENABLED" = Some v ->
  sublist (Py.split "," v) TimetableApp.DEFAULT_DAYS ->
  load_days_from_db (Some st) config
  = map day_name_of_code (fst (TimetableApp._load_timetable_structure (Some st))).
Proof.
  intros Hrows Hv Hsub.
  unfold load_days_from_db, TimetableApp._load_timetable_structure.
  rewrite Hrows, Hv. cbn [fst]. unfold TimetableApp.apply_days_enabled.
  rewrite Hv. cbn zeta. f_equal. symmetry.
  apply filter_by_sublist; [exact Hsub|].
  apply (bool_decide_unpack _). vm_compute. exact I.
Qed.

Lemma both_windows_show_the_same_days_witness :
  load_days_from_db (Some (with_settings [("DAYS_ENABLED", Some "Mo,We,Sa")]))
    NoConfigTable
  = map day_name_of_code
      (fst (TimetableApp._load_timetable_structure
              (Some (with_settings [("DAYS_ENABLED", Some "Mo,We,Sa")])))).
Proof.
  apply (both_windows_show_the_same_days _
           [("DAYS_ENABLED", Some "Mo,We,Sa")] "Mo,We,Sa");
    [reflexivity|reflexivity|].
  vm_compute.
  apply sublist_skip, sublist_cons, sublist_skip, sublist_cons, sublist_cons,
    sublist_skip, sublist_nil.
Defined.

(** The days differ as soon as the setting names a day the window does not
    know or gives the days in another order. *)
Example windows_disagree_on_days :
  let sunday := with_settings [("DAYS_ENABLED", Some "Su")] in
  let reversed := with_settings [("DAYS_ENABLED", Some "Tu,Mo")] in
  load_days_from_db (Some sunday) NoConfigTable = ["Sunday"]
  /\ fst (TimetableApp._load_timetable_structure (Some sunday)) = []
  /\ load_days_from_db (Some reversed) NoConfigTable = ["Tuesday"; "Monday"]
  /\ fst (TimetableApp._load_timetable_structure (Some reversed)) = ["Mo"; "Tu"].
Proof. repeat split. Qed.

(** X26.  With a database file the component always has class rows, and no
    class twice: the list of [load_classes_from_db] is never empty and has
    no duplicates, whichever of the three tables or the default it comes
    from. *)
Theorem class_rows_are_distinct st :
  load_classes_from_db (Some st) <> [] /\ NoDup (load_classes_from_db (Some st)).
Proof.
  unfold load_classes_from_db.
  destruct (distinct_sorted (map sch_section (SCHEDULE st))) as [|c1 l1] eqn:H1.
  - destruct (distinct_sorted (map sl_class_name (SCHEDULED_LESSONS st)))
      as [|c2 l2] eqn:H2.
    + destruct (distinct_sorted (CLASS st)) as [|c3 l3] eqn:H3.
      * split; [discriminate|].
        apply (bool_decide_unpack _). vm_compute. exact I.
      * split; [discriminate|]. rewrite <- H3. apply NoDup_distinct_sorted.
    + split; [discriminate|]. rewrite <- H2. apply NoDup_distinct_sorted.
  - split; [discriminate|]. rewrite <- H1. apply NoDup_distinct_sorted.
Qed.

(** X27.  The class rows come from the first table that has any: the
    sections of [SCHEDULE] when it has a row, else the class names of
    [SCHEDULED_LESSONS] when it has a row; names that only the later tables
    know are then not shown. *)
Theorem class_rows_come_from_the_first_table st c :
  (SCHEDULE st <> [] ->
   In c (load_classes_from_db (Some st))
   <-> In c (map sch_section (SCHEDULE st)))
  /\ (SCHEDULE st = [] -> SCHEDULED_LESSONS st <> [] ->
      In c (load_classes_from_db (Some st))
      <-> In c (map sl_class_name (SCHEDULED_LESSONS st))).
Proof.
  unfold load_classes_from_db. split.
  - intros Hrows.
    destruct (distinct_sorted (map sch_section (SCHEDULE st))) as [|c1 l1] eqn:H1.
    + apply (proj1 (distinct_sorted_nil _)) in H1.
      now apply map_eq_nil in H1.
    + rewrite <- H1. apply In_distinct_sorted.
  - intros -> Hrows. cbn.
    destruct (distinct_sorted (map sl_class_name (SCHEDULED_LESSONS st)))
      as [|c2 l2] eqn:H2.
    + apply (proj1 (distinct_sorted_nil _)) in H2.
      now apply map_eq_nil in H2.
    + rewrite <- H2. apply In_distinct_sorted.
Qed.

Lemma class_rows_come_from_the_first_table_witness :
  (In "B" (load_classes_from_db (Some current_only))
   <-> In "B" (map sch_section (SCHEDULE current_only)))
  /\ (In "B" (load_classes_from_db (Some legacy_double_booking))
      <-> In "B" (map sl_class_name (SCHEDULED_LESSONS legacy_double_booking))).
Proof.
  split.
  - apply (class_rows_come_from_the_first_table current_only "B").
    discriminate.
  - apply (class_rows_come_from_the_first_table legacy_double_booking "B");
      [reflexivity|discriminate].
Defined.

End Dimensions.

(** ** The cell texts of the window, [_load_and_display_timetable] *)

Section Display.

Import TimetableApp.

Lemma grid_cells_lookup days periods_info day period_num :
  is_Some (grid_cells days periods_info !! (day, period_num))
  <-> In day days /\ In period_num (map fst periods_info).
Proof.
  unfold grid_cells.
  rewrite <- elem_of_dom, dom_list_to_map_L, elem_of_list_to_set.
  rewrite list_elem_of_fmap. split.
  - intros ([[day' p'] text] & Heq & Hin). cbn in Heq.
    injection Heq as -> ->.
    apply list_elem_of_In, in_flat_map in Hin as (day & Hday & Hin).
    apply in_map_iff in Hin as (kv & [= -> <-] & Hkv).
    split; [exact Hday|now apply in_map].
  - intros [Hday Hp]. apply in_map_iff in Hp as (kv & <- & Hkv).
    exists ((day, fst kv), ""). split; [reflexivity|].
    apply list_elem_of_In, in_flat_map. exists day. split; [exact Hday|].
    apply in_map_iff. now exists kv.
Qed.

(** A loop whose turns keep the set of keys keeps the set of keys. *)
Lemma foldl_keeps_dom {X K V} `{Countable K} (step : gmap K V -> X -> gmap K V)
    (xs : list X) : forall cells,
  (forall cells x, dom (step cells x) = dom cells) ->
  dom (foldl step cells xs) = dom cells.
Proof.
  induction xs as [|x xs IH]; intros cells Hstep; [reflexivity|].
  cbn. rewrite IH by exact Hstep. apply Hstep.
Qed.

Lemma existsb_string_In x (l : list string) :
  existsb (String.eqb x) l = true <-> In x l.
Proof.
  rewrite existsb_exists. split.
  - intros (y & Hy & Heq). apply String.eqb_eq in Heq. now subst.
  - intros Hx. exists x. split; [exact Hx|apply String.eqb_refl].
Qed.

Lemma existsb_Z_In x (l : list Z) :
  existsb (Z.eqb x) l = true <-> In x l.
Proof.
  rewrite existsb_exists. split.
  - intros (y & Hy & Heq). apply Z.eqb_eq in Heq. now subst.
  - intros Hx. exists x. split; [exact Hx|apply Z.eqb_refl].
Qed.

(** The [SCHEDULE] branch, run on a grid that has a cell for every listed
    day and period, creates no cell. *)
Lemma display_schedule_dom db class_name_filter days periods_info cells :
  (forall day period_num,
      In day days -> In period_num (map fst periods_info) ->
      is_Some (cells !! (day, period_num))) ->
  dom (fst (display_schedule db class_name_filter days periods_info cells))
  = dom cells.
Proof.
  intros Hgrid. unfold display_schedule. cbn [fst].
  match goal with
  | |- dom (foldl ?step _ _) = _ =>
      enough (forall lessons cells',
                 dom cells' = dom cells
                 -> dom (foldl step cells' lessons) = dom cells)
        as Hloop by now apply Hloop
  end.
  intros xs. induction xs as [|[sch s] xs IH]; intros cells' Hdom;
    [exact Hdom|].
  cbn [foldl]. apply IH.
  destruct (existsb (String.eqb (DAY_MAP_get (sch_dayid sch))) days) eqn:Hday;
    cbn [negb orb]; [|exact Hdom].
  destruct (existsb (Z.eqb (sch_periodid sch + 1)) (map fst periods_info))
    eqn:Hperiod; cbn [negb]; [|exact Hdom].
  apply existsb_string_In in Hday. apply existsb_Z_In in Hperiod.
  rewrite dom_insert_lookup_L; [exact Hdom|].
  apply elem_of_dom. rewrite Hdom. apply elem_of_dom. now apply Hgrid.
Qed.

Lemma display_lessons_dom db class_name_filter cells :
  dom (display_lessons db class_name_filter cells) = dom cells.
Proof.
  unfold display_lessons. apply foldl_keeps_dom.
  intros cells' [[sl s] f].
  destruct (cells' !! (sl_day_of_week sl, sl_period_number sl)) eqn:Hcell;
    [|reflexivity].
  now apply dom_insert_lookup_L.
Qed.

(** X28.  [_load_and_display_timetable] writes into the grid and nowhere
    else: after it the window has exactly the cells of the listed days and
    period numbers, whatever days and periods the rows of either schema
    name. *)
Theorem display_keeps_the_grid db class_name_filter days periods_info
    day period_num :
  is_Some (_load_and_display_timetable db class_name_filter days periods_info
             !! (day, period_num))
  <-> In day days /\ In period_num (map fst periods_info).
Proof.
  rewrite <- grid_cells_lookup, <- !elem_of_dom.
  enough (dom (_load_and_display_timetable db class_name_filter days
                 periods_info)
          = dom (grid_cells days periods_info)) as -> by reflexivity.
  unfold _load_and_display_timetable.
  pose proof (display_schedule_dom db class_name_filter days periods_info
                ((fun _ => "") <$> grid_cells days periods_info)) as Hsched.
  destruct (display_schedule db class_name_filter days periods_info
              ((fun _ => "") <$> grid_cells days periods_info))
    as [cells has_schedule_data].
  cbn [fst] in Hsched.
  assert (dom cells = dom (grid_cells days periods_info)) as Hcells.
  { rewrite Hsched; [apply dom_fmap_L|].
    intros day' p' Hday Hp. rewrite lookup_fmap.
    apply fmap_is_Some, grid_cells_lookup. now split. }
  destruct has_schedule_data; [exact Hcells|].
  now rewrite display_lessons_dom.
Qed.

Lemma upper_char_idempotent c : upper_char (upper_char c) = upper_char c.
Proof. destruct c as [[] [] [] [] [] [] [] []]; reflexivity. Qed.

Lemma UPPER_idempotent s : UPPER (UPPER s) = UPPER s.
Proof.
  induction s as [|c s IH]; [reflexivity|].
  cbn. now rewrite upper_char_idempotent, IH.
Qed.

(** X29.  The [SCHEDULED_LESSONS] query compares the upper-cased class name
    with the section as it is, so for a section name that is not its own
    upper-case form it finds no row: when [SCHEDULE] has no row of that
    section either, every cell of the window stays blank, whatever
    [SCHEDULED_LESSONS] holds. *)
Theorem lower_case_section_shows_no_legacy_lesson db class_name_filter days
    periods_info :
  UPPER class_name_filter <> class_name_filter ->
  (forall r, In r (SCHEDULE db) -> sch_section r <> class_name_filter) ->
  _load_and_display_timetable db class_name_filter days periods_info
  = (fun _ => "") <$> grid_cells days periods_info.
Proof.
  intros Hupper Hsched.
  assert (List.filter
            (fun sch => String.eqb (sch_section sch) class_name_filter)
            (SCHEDULE db) = []) as Hnone.
  { destruct (List.filter _ (SCHEDULE db)) as [|r rest] eqn:Hf; [reflexivity|].
    assert (In r (List.filter
                    (fun sch => String.eqb (sch_section sch) class_name_filter)
                    (SCHEDULE db))) as Hin by (rewrite Hf; now left).
    apply filter_In in Hin as [Hr Hsec]. apply String.eqb_eq in Hsec.
    now apply Hsched in Hr. }
  assert (List.filter
            (fun sl => String.eqb (UPPER (sl_class_name sl)) class_name_filter)
            (SCHEDULED_LESSONS db) = []) as Hlegacy.
  { destruct (List.filter _ (SCHEDULED_LESSONS db)) as [|r rest] eqn:Hf;
      [reflexivity|].
    assert (In r (List.filter
                    (fun sl => String.eqb (UPPER (sl_class_name sl))
                                 class_name_filter)
                    (SCHEDULED_LESSONS db))) as Hin by (rewrite Hf; now left).
    apply filter_In in Hin as [_ Hname]. apply String.eqb_eq in Hname.
    exfalso. apply Hupper. rewrite <- Hname. apply UPPER_idempotent. }
  unfold _load_and_display_timetable, display_schedule, display_lessons.
  rewrite Hnone, Hlegacy. reflexivity.
Qed.

Lemma lower_case_section_shows_no_legacy_lesson_witness :
  let db :=
    with_lessons [] [lesson_row 1 "cse" "Mo" 1 (Some "MA") (Some "T1")]
      [maths] [teacher_jd] in
  _load_and_display_timetable db "cse" DEFAULT_DAYS DEFAULT_PERIODS_INFO
  = (fun _ => "") <$> grid_cells DEFAULT_DAYS DEFAULT_PERIODS_INFO.
Proof.
  cbn zeta. apply lower_case_section_shows_no_legacy_lesson.
  - discriminate.
  - intros r [].
Defined.

(** The same lessons are shown once the section is given in upper case. *)
Example upper_case_section_shows_legacy_lesson :
  let db :=
    with_lessons [] [lesson_row 1 "cse" "Mo" 1 (Some "MA") (Some "T1")]
      [maths] [teacher_jd] in
  _load_and_display_timetable db "CSE" DEFAULT_DAYS DEFAULT_PERIODS_INFO
    !! ("Mo", 1)
  = Some ("Maths" +:+ newline +:+ "JD")
  /\ _load_and_display_timetable db "cse" DEFAULT_DAYS DEFAULT_PERIODS_INFO
       !! ("Mo", 1)
     = Some "".
Proof. split; reflexivity. Qed.

End Display.
